(** * Image-Classification-API: the prediction pipeline and the model session

    A shallow embedding of [app/config.py], [app/schemas.py],
    [app/litemodel.py] and the [/predict] route of [app/main.py], followed by
    the properties of the ranking step, of the validation stages, of the
    preprocessing geometry and of the load-once model session.

    Conventions of the embedding.
    - A Python [float] or NumPy [float32] value is a [float] below: NaN, the
      two infinities, or a finite value given by the rational it denotes.
      Comparisons are the IEEE ones.  The division [x / 255.0] of a
      [float32] array rounds the quotient to the nearest binary32 value, ties
      to even; [round(x, n)] is the decimal rounding of the exact value.
    - A Python [str] is the [string] of the bytes of its UTF-8 encoding; its
      characters are the UTF-8 sequences of that string.
    - A Python exception is a value: a computation either raises ([inl]) or
      returns ([inr]).  Methods of [ModelPredictor] thread the attributes of
      the singleton explicitly; an exception leaves the attributes as they
      were when it was raised.
    - What lives outside the repository (NumPy's argsort, the file system,
      onnxruntime, PIL, the text pydantic puts in a validation error, the
      clock, Python's [repr] of a set and of a float) is a field of the
      record [World]. *)

From Stdlib Require Import ZArith QArith Qround Qabs Qpower Lqa Lia.
From Stdlib Require Import List Bool Ascii String Strings.Byte DecimalString.
From Stdlib Require Import Sorting.Sorted Sorting.Permutation.
Import ListNotations.

Local Open Scope Z_scope.
Local Open Scope nat_scope.
Local Open Scope string_scope.
Local Open Scope list_scope.

(* ================================================================== *)
(** * Floating-point values *)
(* ================================================================== *)

Inductive float : Type :=
| NaN
| NegInf
| Fin (q : Q)
| PosInf.

Definition isnan (a : float) : bool :=
  match a with NaN => true | _ => false end.

(** IEEE [a < b]: false as soon as one side is NaN. *)
Definition flt (a b : float) : bool :=
  match a, b with
  | NaN, _ | _, NaN => false
  | NegInf, NegInf => false
  | NegInf, _ => true
  | _, NegInf => false
  | PosInf, _ => false
  | Fin _, PosInf => true
  | Fin x, Fin y => match (x ?= y)%Q with Lt => true | _ => false end
  end.

(** IEEE [a <= b]. *)
Definition fle (a b : float) : bool :=
  match a, b with
  | NaN, _ | _, NaN => false
  | NegInf, _ => true
  | _, PosInf => true
  | _, NegInf => false
  | PosInf, _ => false
  | Fin x, Fin y => match (x ?= y)%Q with Gt => false | _ => true end
  end.

(** IEEE [a >= b] and [a == b]. *)
Definition fge (a b : float) : bool := fle b a.
Definition feq (a b : float) : bool := fle a b && fle b a.

(** Round half to even, the rule of Python's [round] on the exact value. *)
Definition round_half_even (x : Q) : Z :=
  let f := Qfloor x in
  match (x - inject_Z f ?= 1 # 2)%Q with
  | Lt => f
  | Gt => (f + 1)%Z
  | Eq => if Z.even f then f else (f + 1)%Z
  end.

(** Python's [round(x, ndigits)] on a float: NaN and the infinities are
    returned unchanged. *)
Definition py_round (x : float) (ndigits : nat) : float :=
  match x with
  | Fin q =>
      let scale := Z.to_pos (10 ^ Z.of_nat ndigits) in
      Fin (Qred (round_half_even (q * inject_Z (Zpos scale)) # scale))
  | other => other
  end.

(** [floor(log2(q))] of a positive rational. *)
Definition Qlog2 (q : Q) : Z :=
  let e := (Z.log2 (Qnum q) - Z.log2 (Zpos (Qden q)))%Z in
  if Qle_bool (2 ^ e) q then e else (e - 1)%Z.

(** The significand and the exponent of the binary32 value nearest to a
    non-negative rational: 24 bits of precision, the exponent of the last
    place no lower than -149, ties to even. *)
Definition binary32_parts (q : Q) : Z * Z :=
  let e := (Z.max (Qlog2 q) (-126) - 23)%Z in
  (round_half_even (q / 2 ^ e), e).

(** IEEE rounding of a rational to binary32, to nearest and ties to even;
    what rounds to 2^128 or more overflows to an infinity. *)
Definition binary32_round (q : Q) : float :=
  let (m, e) := binary32_parts (Qabs q) in
  let v := (inject_Z m * 2 ^ e)%Q in
  if Qle_bool (2 ^ 128) v then
    if Qle_bool 0 q then PosInf else NegInf
  else Fin (Qred (if Qle_bool 0 q then v else - v)).

(** NumPy's [x / d] of a [float32] by a positive Python scalar: the result
    is a [float32], the quotient rounded to binary32. *)
Definition np_divide (x : float) (d : positive) : float :=
  match x with
  | Fin q => binary32_round (q / inject_Z (Zpos d))
  | other => other
  end.

(* ================================================================== *)
(** * NumPy: argsort and slicing *)
(* ================================================================== *)

(** [a[i]] for an index in range; NaN stands for the element that is not
    there. *)
Definition item (a : list float) (i : nat) : float := nth i a NaN.

(** The ordering NumPy sorts floats by: the IEEE one with NaN after
    everything else ([a < b || (b != b && a == a)]). *)
Definition np_lt (a b : float) : bool :=
  flt a b || (isnan b && negb (isnan a)).

(** One step of the insertion sort on the index array: [i] goes before the
    first index whose key is strictly greater, so after every index with an
    equal key. *)
Fixpoint insert_index (a : list float) (i : nat) (sorted : list nat) : list nat :=
  match sorted with
  | [] => [i]
  | j :: rest =>
      if np_lt (item a i) (item a j) then i :: j :: rest
      else j :: insert_index a i rest
  end.

(** The insertion sort NumPy's default kind runs on the index array of a short
    array (at most 16 elements): the indices [0 .. len(a)-1] in ascending
    order of their keys, equal keys in index order.  On longer arrays the
    default kind promises ascending keys and no order among equal ones, so
    [np.argsort] itself is a field of [World] below and this sort is the
    instance the sample worlds use. *)
Definition argsort (a : list float) : list nat :=
  fold_left (fun sorted i => insert_index a i sorted) (seq 0 (List.length a)) [].

(** Python's [l[:k]]: a negative [k] counts from the end. *)
Definition slice_to {A : Type} (l : list A) (k : Z) : list A :=
  if (k <? 0)%Z
  then firstn (Z.to_nat (Z.max 0 (Z.of_nat (List.length l) + k))) l
  else firstn (Z.to_nat k) l.


(** A NumPy array: its shape and its elements in row-major order. *)
Record ndarray : Type := mk_ndarray {
  shape : list nat;
  data : list float
}.

(** [np.transpose(a, (2, 0, 1))] of a three-dimensional array:
    [out[c, h, w] = a[h, w, c]].  Any other rank raises [ValueError]. *)
Definition transpose_2_0_1 (a : ndarray) : option ndarray :=
  match shape a with
  | [d0; d1; d2] =>
      Some (mk_ndarray [d2; d0; d1]
              (flat_map (fun c =>
                 flat_map (fun h =>
                   map (fun w => item (data a) ((h * d1 + w) * d2 + c)) (seq 0 d1))
                   (seq 0 d0))
                 (seq 0 d2)))
  | _ => None
  end.

(** [np.expand_dims(a, axis=0)]. *)
Definition expand_dims_0 (a : ndarray) : ndarray :=
  mk_ndarray (1 :: shape a) (data a).

(** [a / 255.0], elementwise. *)
Definition divide_255 (a : ndarray) : ndarray :=
  mk_ndarray (shape a) (map (fun x => np_divide x 255) (data a)).

(* ================================================================== *)
(** * Strings: [str.lower], [str.strip], [str(int)], [Path.suffix] *)
(* ================================================================== *)

Definition lower_ascii (c : ascii) : ascii :=
  let n := nat_of_ascii c in
  if (65 <=? n)%nat && (n <=? 90)%nat then ascii_of_nat (n + 32) else c.

(** [s.lower()], on the ASCII letters. *)
Fixpoint lower (s : string) : string :=
  match s with
  | EmptyString => EmptyString
  | String c rest => String (lower_ascii c) (lower rest)
  end.

(** A continuation byte of UTF-8, [10xxxxxx]. *)
Definition is_continuation (c : ascii) : bool :=
  let n := nat_of_ascii c in (128 <=? n)%nat && (n <? 192)%nat.

(** The characters of a [str]: every byte that is not a continuation byte,
    together with the continuation bytes that follow it. *)
Fixpoint characters (s : string) : list string :=
  match s with
  | EmptyString => []
  | String c rest =>
      match characters rest with
      | String c' ch :: chs =>
          if is_continuation c' then String c (String c' ch) :: chs
          else String c EmptyString :: String c' ch :: chs
      | chs => String c EmptyString :: chs
      end
  end.

(** [chr(cp)]: the UTF-8 encoding of a code point. *)
Definition utf8 (cp : N) : string :=
  let byte (n : N) : ascii := ascii_of_N n in
  let cont (n : N) : ascii := ascii_of_N (128 + n mod 64)%N in
  if (cp <? 128)%N then String (byte cp) EmptyString
  else if (cp <? 2048)%N then
    String (byte (192 + cp / 64)%N) (String (cont cp) EmptyString)
  else if (cp <? 65536)%N then
    String (byte (224 + cp / 4096)%N)
      (String (cont (cp / 64)%N) (String (cont cp) EmptyString))
  else
    String (byte (240 + cp / 262144)%N)
      (String (cont (cp / 4096)%N)
         (String (cont (cp / 64)%N) (String (cont cp) EmptyString))).

(** The code points Python counts as whitespace: tab to carriage return,
    the separators U+001C to U+001F, the space, U+0085, U+00A0, U+1680,
    U+2000 to U+200A, U+2028, U+2029, U+202F, U+205F and U+3000. *)
Definition whitespace : list N :=
  [9; 10; 11; 12; 13; 28; 29; 30; 31; 32; 133; 160; 5760;
   8192; 8193; 8194; 8195; 8196; 8197; 8198; 8199; 8200; 8201; 8202;
   8232; 8233; 8239; 8287; 12288]%N.

(** [ch.isspace()] of one character. *)
Definition isspace (ch : string) : bool :=
  existsb (fun cp => String.eqb ch (utf8 cp)) whitespace.

(** [s.lstrip()], on the characters of [s]. *)
Fixpoint lstrip (chars : list string) : list string :=
  match chars with
  | [] => []
  | ch :: rest => if isspace ch then lstrip rest else chars
  end.

(** [s.strip()]: the whitespace characters at the two ends are removed. *)
Definition strip (s : string) : string :=
  String.concat "" (rev (lstrip (rev (lstrip (characters s))))).

(** [str(idx)] of a non-negative integer. *)
Definition str_of_index (idx : nat) : string :=
  NilZero.string_of_uint (Nat.to_uint idx).

(** [s.split(sep)] for a one-character separator. *)
Fixpoint split (sep : ascii) (s : string) : list string :=
  match s with
  | EmptyString => [EmptyString]
  | String c rest =>
      if Ascii.eqb c sep then EmptyString :: split sep rest
      else match split sep rest with
           | [] => [String c EmptyString]
           | part :: parts => String c part :: parts
           end
  end.

(** [PurePosixPath(p).name]: the last component, empty and ["."]
    components being dropped by the parser. *)
Definition path_name (p : string) : string :=
  last (filter (fun part => negb (String.eqb part "") && negb (String.eqb part "."))
               (split "/" p)) "".

(** [str(PurePosixPath(p))]: the root (two slashes when [p] starts with
    exactly two, one when it starts with any other number), then the
    components joined by slashes, empty and ["."] components being dropped;
    ["."] when nothing is left. *)
Definition path_root (p : string) : string :=
  match p with
  | String "/" (String "/" (String "/" _)) => "/"
  | String "/" (String "/" _) => "//"
  | String "/" _ => "/"
  | _ => ""
  end.

Definition path_str (p : string) : string :=
  let parts :=
    filter (fun part => negb (String.eqb part "") && negb (String.eqb part "."))
           (split "/" p) in
  let s := String.append (path_root p) (String.concat "/" parts) in
  if String.eqb s "" then "." else s.

Fixpoint rfind_from (c : ascii) (s : string) (pos : nat) (found : option nat)
  : option nat :=
  match s with
  | EmptyString => found
  | String x rest =>
      rfind_from c rest (S pos) (if Ascii.eqb x c then Some pos else found)
  end.

(** [s.rfind(c)], [None] standing for -1. *)
Definition rfind (c : ascii) (s : string) : option nat := rfind_from c s 0 None.

(** [Path(p).suffix]:
    [i = name.rfind('.'); name[i:] if 0 < i < len(name) - 1 else '']. *)
Definition suffix (p : string) : string :=
  let name := path_name p in
  match rfind "." name with
  | Some i =>
      if (0 <? i)%nat && (i <? String.length name - 1)%nat
      then substring i (String.length name - i) name
      else ""
  | None => ""
  end.


(* ================================================================== *)
(** * Exceptions *)
(* ================================================================== *)

(** The classes of the exceptions raised in the repository itself, and
    [External] for whatever a library raises (onnxruntime, PIL, the file
    system), named by its class. *)
Inductive exn_class : Type :=
| RuntimeError
| FileNotFoundError
| IndexError
| ValueError
| AttributeError
| ValidationError
| External (name : string).

(** An exception that is not an [HTTPException]; [str(e)] is [err_msg]. *)
Record PyError : Type := mk_error {
  err_class : exn_class;
  err_msg : string
}.

(** What a function of the repository produces: an exception or a value. *)
Definition py (A : Type) : Type := (PyError + A)%type.

(** What a library call produces: the class name and message of the
    exception it raised, or a value. *)
Definition foreign (A : Type) : Type := (string * string + A)%type.

Definition from_foreign {A : Type} (r : foreign A) : py A :=
  match r with
  | inl (cls, msg) => inl (mk_error (External cls) msg)
  | inr a => inr a
  end.

(** The exception of [predict]'s guard, [RuntimeError("Model not loaded")]. *)
Definition NotLoadedError : PyError := mk_error RuntimeError "Model not loaded".

(* ================================================================== *)
(** * config.py *)
(* ================================================================== *)

Record Settings : Type := mk_settings {
  model_path : string;
  class_names_path : string;
  model_confidence_threshold : float;
  max_predictions : Z;
  max_upload_size : Z;
  allowed_extensions : list string;
  enable_metrics : bool
}.

(** The defaults of [Settings], used when the environment overrides none. *)
Definition default_settings : Settings :=
  {| model_path := "./models/yolo11l-cls.onnx";
     class_names_path := "./models/imagenet_classes.txt";
     model_confidence_threshold := Fin (25 # 100);
     max_predictions := 5;
     max_upload_size := 10 * 1024 * 1024;
     allowed_extensions := [".jpg"; ".jpeg"; ".png"; ".webp"];
     enable_metrics := true |}.

(** [x in settings.allowed_extensions]. *)
Definition set_mem (x : string) (s : list string) : bool :=
  existsb (String.eqb x) s.

(* ================================================================== *)
(** * External collaborators *)
(* ================================================================== *)

(** A dimension of an ONNX input: a fixed integer, a symbolic name, or
    [None]. *)
Inductive Dim : Type :=
| DimInt (n : nat)
| DimStr (name : string)
| DimNone.

Record NodeArg : Type := mk_node_arg {
  name : string;
  node_shape : list Dim
}.

(** An [ort.InferenceSession]: [get_inputs()] and
    [run(None, {input_name: input_data})], whose result is the list of the
    outputs, each a two-dimensional array given by its rows. *)
Record InferenceSession : Type := mk_session {
  get_inputs : list NodeArg;
  run : string -> ndarray -> foreign (list (list (list float)))
}.

(** A PIL image: [mode], [size] as (width, height), the number of bands
    and the 8-bit samples, row by row with the bands interleaved. *)
Record Image : Type := mk_image {
  mode : string;
  size : nat * nat;
  bands : nat;
  samples : list byte
}.

Record World : Type := mk_world {
  (** [np.argsort(a)]: the indices of [a] in ascending order of their keys *)
  np_argsort : list float -> list nat;
  (** [Path(p).exists()] *)
  path_exists : string -> bool;
  (** [ort.InferenceSession(p, providers=['CPUExecutionProvider'])] *)
  ort_InferenceSession : string -> foreign InferenceSession;
  (** [open(p, 'r').readlines()] *)
  readlines : string -> foreign (list string);
  (** [Image.open(io.BytesIO(contents))] *)
  Image_open : list byte -> foreign Image;
  (** [image.convert(mode)] *)
  Image_convert : Image -> string -> foreign Image;
  (** [image.resize((width, height), resample=Image.BILINEAR)] *)
  Image_resize : Image -> nat * nat -> foreign Image;
  (** [(time.time() - start_time) * 1000] *)
  elapsed_ms : float;
  (** [str(e)] of the pydantic error for a rejected confidence *)
  validation_message : float -> string;
  (** [f"{allowed_extensions}"] *)
  repr_set : list string -> string;
  (** [f"{max_upload_size / 1024 / 1024}"] *)
  repr_megabytes : Z -> string
}.

(* ================================================================== *)
(** * schemas.py *)
(* ================================================================== *)

Record PredictionResult : Type := mk_prediction {
  class_name : string;
  confidence : float
}.

(** [Field(..., ge=0.0, le=1.0)]. *)
Definition valid_confidence (c : float) : bool :=
  fge c (Fin 0) && fle c (Fin 1).

(** [PredictionResult(class_name=..., confidence=...)]: pydantic validates
    the field constraints and raises when one fails. *)
Definition new_PredictionResult (w : World) (label : string) (c : float)
  : py PredictionResult :=
  if valid_confidence c then inr (mk_prediction label c)
  else inl (mk_error ValidationError (validation_message w c)).

Record PredictionResponse : Type := mk_response {
  success : bool;
  predictions : list PredictionResult;
  model_version : string;
  inference_time_ms : float
}.

Record ErrorResponse : Type := mk_error_response {
  error_success : bool;
  error : string;
  error_detail : option string
}.

(* ================================================================== *)
(** * litemodel.py *)
(* ================================================================== *)

Module litemodel.

(** The attributes of the [ModelPredictor] singleton.  [_instance] tells
    whether [__new__] has created the object; the other fields start at the
    defaults of the class body. *)
Record ModelPredictor : Type := mk_predictor {
  _instance : bool;
  _session : option InferenceSession;
  _class_names : list string;
  _input_name : string;
  _input_height : nat;
  _input_width : nat;
  _model_loaded : bool
}.

Definition class_defaults : ModelPredictor :=
  {| _instance := false;
     _session := None;
     _class_names := [];
     _input_name := "";
     _input_height := 224;
     _input_width := 224;
     _model_loaded := false |}.

Definition with_instance (v : bool) (self : ModelPredictor) : ModelPredictor :=
  mk_predictor v (_session self) (_class_names self) (_input_name self)
    (_input_height self) (_input_width self) (_model_loaded self).

Definition with_session (v : option InferenceSession) (self : ModelPredictor)
  : ModelPredictor :=
  mk_predictor (_instance self) v (_class_names self) (_input_name self)
    (_input_height self) (_input_width self) (_model_loaded self).

Definition with_class_names (v : list string) (self : ModelPredictor)
  : ModelPredictor :=
  mk_predictor (_instance self) (_session self) v (_input_name self)
    (_input_height self) (_input_width self) (_model_loaded self).

Definition with_input_name (v : string) (self : ModelPredictor) : ModelPredictor :=
  mk_predictor (_instance self) (_session self) (_class_names self) v
    (_input_height self) (_input_width self) (_model_loaded self).

Definition with_input_height (v : nat) (self : ModelPredictor) : ModelPredictor :=
  mk_predictor (_instance self) (_session self) (_class_names self)
    (_input_name self) v (_input_width self) (_model_loaded self).

Definition with_input_width (v : nat) (self : ModelPredictor) : ModelPredictor :=
  mk_predictor (_instance self) (_session self) (_class_names self)
    (_input_name self) (_input_height self) v (_model_loaded self).

Definition with_model_loaded (v : bool) (self : ModelPredictor) : ModelPredictor :=
  mk_predictor (_instance self) (_session self) (_class_names self)
    (_input_name self) (_input_height self) (_input_width self) v.

(** A method: from the attributes before the call to what the call
    produced and the attributes after it. *)
Definition method (A : Type) : Type := ModelPredictor -> py A * ModelPredictor.

Definition ret {A : Type} (a : A) : method A := fun self => (inr a, self).

Definition raise {A : Type} (e : PyError) : method A := fun self => (inl e, self).

Definition bind {A B : Type} (m : method A) (k : A -> method B) : method B :=
  fun self =>
    match m self with
    | (inl e, self') => (inl e, self')
    | (inr a, self') => k a self'
    end.

Definition lift {A : Type} (r : py A) : method A := fun self => (r, self).

Definition call {A : Type} (r : foreign A) : method A := lift (from_foreign r).

(** [self.attr] and [self.attr = v]. *)
Definition get {A : Type} (attr : ModelPredictor -> A) : method A :=
  fun self => (inr (attr self), self).

Definition set (update : ModelPredictor -> ModelPredictor) : method unit :=
  fun self => (inr tt, update self).

Notation "x <- m ;; k" := (bind m (fun x => k))
  (at level 61, m at next level, right associativity).
Notation "m ;;; k" := (bind m (fun _ => k))
  (at level 61, right associativity).

(** [l[i]]. *)
Definition index {A : Type} (l : list A) (i : nat) : method A :=
  match nth_error l i with
  | Some a => ret a
  | None => raise (mk_error IndexError "list index out of range")
  end.

(** [shape[i] if isinstance(shape[i], int) else 224]. *)
Definition fixed_or_224 (d : Dim) : nat :=
  match d with
  | DimInt n => n
  | _ => 224
  end.

(** The handler [except Exception as e: logger.error(...); raise] re-raises
    what the body raised, so the body is the whole method. *)
Definition _load_model (w : World) (settings : Settings) : method unit :=
  let model_path := model_path settings in
  if negb (path_exists w model_path) then
    raise (mk_error FileNotFoundError
             (String.append "Model file not found: " model_path))
  else
    let class_names_path := class_names_path settings in
    session <- call (ort_InferenceSession w model_path) ;;
    set (with_session (Some session)) ;;;
    let model_inputs := get_inputs session in
    input0 <- index model_inputs 0 ;;
    set (with_input_name (name input0)) ;;;
    let shape := node_shape input0 in
    dim2 <- index shape 2 ;;
    set (with_input_height (fixed_or_224 dim2)) ;;;
    dim3 <- index shape 3 ;;
    set (with_input_width (fixed_or_224 dim3)) ;;;
    (if path_exists w class_names_path then
       lines <- call (readlines w class_names_path) ;;
       set (with_class_names (map strip lines))
     else
       set (with_class_names [])) ;;;
    set (with_model_loaded true).

(** [ModelPredictor()]: [__new__] creates the instance once, [__init__]
    loads unless the flag is already set. *)
Definition new_ModelPredictor (w : World) (settings : Settings) : method unit :=
  set (fun self => if _instance self then self else with_instance true self) ;;;
  loaded <- get _model_loaded ;;
  if negb loaded then _load_model w settings else ret tt.

Definition is_loaded : method bool :=
  loaded <- get _model_loaded ;;
  session <- get _session ;;
  ret (loaded && match session with Some _ => true | None => false end).

(** [np.array(image).astype(np.float32)]: shape (height, width, bands), or
    (height, width) for a single band. *)
Definition float_of_byte (b : byte) : float :=
  Fin (inject_Z (Z.of_N (Byte.to_N b))).

Definition np_array_float32 (image : Image) : ndarray :=
  let (width, height) := size image in
  mk_ndarray
    (if (bands image =? 1)%nat then [height; width] else [height; width; bands image])
    (map float_of_byte (samples image)).

(** The preprocessing section of [predict]. *)
Definition preprocess (w : World) (image : Image) : method ndarray :=
  image <- (if negb (String.eqb (mode image) "RGB")
            then call (Image_convert w image "RGB") else ret image) ;;
  width <- get _input_width ;;
  height <- get _input_height ;;
  image_resized <- call (Image_resize w image (width, height)) ;;
  let image_np := np_array_float32 image_resized in
  let input_data := divide_255 image_np in
  input_data <- match transpose_2_0_1 input_data with
                | Some t => ret t
                | None => raise (mk_error ValueError "axes don't match array")
                end ;;
  ret (expand_dims_0 input_data).

(** [self._class_names[idx] if idx < len(self._class_names) else str(idx)]. *)
Definition label_of (class_names : list string) (idx : nat) : string :=
  if (idx <? List.length class_names)%nat then nth idx class_names ""
  else str_of_index idx.

(** What NumPy raises on [predictions_raw[idx]] past the end. *)
Definition index_out_of_bounds (idx size : nat) : PyError :=
  mk_error IndexError
    (String.append "index "
       (String.append (str_of_index idx)
          (String.append " is out of bounds for axis 0 with size "
             (str_of_index size)))).

(** The loop [for idx in top_indices], [formatted_predictions] being the
    list built so far. *)
Fixpoint format_predictions (w : World) (settings : Settings)
    (class_names : list string) (predictions_raw : list float)
    (top_indices : list nat) (formatted_predictions : list PredictionResult)
  : py (list PredictionResult) :=
  match top_indices with
  | [] => inr formatted_predictions
  | idx :: rest =>
      match nth_error predictions_raw idx with
      | None => inl (index_out_of_bounds idx (List.length predictions_raw))
      | Some confidence =>
          if fge confidence (model_confidence_threshold settings) then
            let label := label_of class_names idx in
            match new_PredictionResult w label (py_round confidence 4) with
            | inl e => inl e
            | inr p =>
                format_predictions w settings class_names predictions_raw rest
                  (formatted_predictions ++ [p])
            end
          else
            format_predictions w settings class_names predictions_raw rest
              formatted_predictions
      end
  end.

(** [np.argsort(predictions_raw)[::-1][:top_k]]. *)
Definition top_indices (w : World) (settings : Settings)
    (predictions_raw : list float) : list nat :=
  let top_k := Z.min (Z.of_nat (List.length predictions_raw))
                     (max_predictions settings) in
  slice_to (rev (np_argsort w predictions_raw)) top_k.

(** The postprocessing section of [predict]. *)
Definition postprocess (w : World) (settings : Settings)
    (class_names : list string) (predictions_raw : list float)
  : py (list PredictionResult) :=
  format_predictions w settings class_names predictions_raw
    (top_indices w settings predictions_raw) [].

Definition predict (w : World) (settings : Settings) (image : Image)
  : method (list PredictionResult * float) :=
  loaded <- is_loaded ;;
  if negb loaded then raise NotLoadedError
  else
    input_data <- preprocess w image ;;
    session <- get _session ;;
    match session with
    | None => raise (mk_error AttributeError
                       "'NoneType' object has no attribute 'run'")
    | Some session =>
        input_name <- get _input_name ;;
        outputs <- call (run session input_name input_data) ;;
        let inference_time := elapsed_ms w in
        output0 <- index outputs 0 ;;
        predictions_raw <- index output0 0 ;;
        class_names <- get _class_names ;;
        formatted_predictions <-
          lift (postprocess w settings class_names predictions_raw) ;;
        ret (formatted_predictions, inference_time)
    end.

Inductive ModelInfo : Type :=
| InfoNotLoaded
| InfoLoaded (type : string) (num_classes : nat) (input_shape : list nat).

Definition get_model_info : method ModelInfo :=
  loaded <- is_loaded ;;
  if negb loaded then ret InfoNotLoaded
  else
    class_names <- get _class_names ;;
    height <- get _input_height ;;
    width <- get _input_width ;;
    ret (InfoLoaded "YOLO11l Classification (ONNX)" (List.length class_names)
           [1; 3; height; width]).

(** The calls a process can make on the singleton, each in the world it
    finds at that moment. *)
Inductive operation : Type :=
| OpConstruct (w : World) (settings : Settings)
| OpIsLoaded
| OpPredict (w : World) (settings : Settings) (image : Image)
| OpGetModelInfo.

Definition step (op : operation) (self : ModelPredictor) : ModelPredictor :=
  match op with
  | OpConstruct w settings => snd (new_ModelPredictor w settings self)
  | OpIsLoaded => snd (is_loaded self)
  | OpPredict w settings image => snd (predict w settings image self)
  | OpGetModelInfo => snd (get_model_info self)
  end.

Definition steps (ops : list operation) (self : ModelPredictor) : ModelPredictor :=
  fold_left (fun s op => step op s) ops self.

End litemodel.

(* ================================================================== *)
(** * main.py: the [/predict] route *)
(* ================================================================== *)

Module main.

(** The uploaded file: its name and what [await file.read()] returns. *)
Record UploadFile : Type := mk_upload {
  filename : string;
  contents : list byte
}.

(** What leaves a route handler when it raises. *)
Inductive exn : Type :=
| HTTPException (status_code : Z) (detail : string)
| Unhandled (e : PyError).

(** The stages of [predict] that touch the upload or the model, in the order
    they were entered: reading the upload, decoding it, calling the model.
    The Prometheus counters are left out. *)
Inductive stage : Type :=
| FileRead
| ImageDecode
| ModelPredict.

(** Step 3: [Image.open] and the conversion to RGB, inside their own [try]. *)
Definition load_image (w : World) (contents : list byte) : py Image :=
  match from_foreign (Image_open w contents) with
  | inl e => inl e
  | inr image =>
      if negb (String.eqb (mode image) "RGB")
      then from_foreign (Image_convert w image "RGB")
      else inr image
  end.

(** The body of the outer [try]. *)
Definition predict_body (w : World) (settings : Settings)
    (model_predictor : litemodel.ModelPredictor) (file : UploadFile)
  : list stage * (exn + PredictionResponse) :=
  let file_ext := lower (suffix (filename file)) in
  if negb (set_mem file_ext (allowed_extensions settings)) then
    ([], inl (HTTPException 400
                (String.append "Invalid file type. Allowed: "
                   (repr_set w (allowed_extensions settings)))))
  else
    let contents := contents file in
    if (Z.of_nat (List.length contents) >? max_upload_size settings)%Z then
      ([FileRead],
       inl (HTTPException 413
              (String.append "File too large. Max size: "
                 (String.append (repr_megabytes w (max_upload_size settings))
                    "MB"))))
    else
      match load_image w contents with
      | inl e =>
          ([FileRead; ImageDecode],
           inl (HTTPException 400
                  (String.append "Invalid image file: " (err_msg e))))
      | inr image =>
          match fst (litemodel.predict w settings image model_predictor) with
          | inl e => ([FileRead; ImageDecode; ModelPredict], inl (Unhandled e))
          | inr (predictions, inference_time) =>
              ([FileRead; ImageDecode; ModelPredict],
               inr (mk_response true predictions "yolo11l-cls"
                      (py_round inference_time 2)))
          end
      end.

(** [predict]: the body under its two handlers.  [except HTTPException]
    re-raises; [except Exception as e] raises
    [HTTPException(status_code=500, detail=str(e))]. *)
Definition predict (w : World) (settings : Settings)
    (model_predictor : litemodel.ModelPredictor) (file : UploadFile)
  : list stage * (exn + PredictionResponse) :=
  let (stages, outcome) := predict_body w settings model_predictor file in
  (stages,
   match outcome with
   | inl (HTTPException status_code detail) =>
       inl (HTTPException status_code detail)
   | inl (Unhandled e) => inl (HTTPException 500 (err_msg e))
   | inr response => inr response
   end).

(** What the client receives. *)
Inductive Body : Type :=
| DetailBody (detail : string)
| ErrorBody (e : ErrorResponse)
| PredictionBody (r : PredictionResponse).

Record JSONResponse : Type := mk_json {
  status : Z;
  content : Body
}.

Definition body_detail (b : Body) : option string :=
  match b with
  | DetailBody d => Some d
  | ErrorBody e => error_detail e
  | PredictionBody _ => None
  end.

(** [@app.exception_handler(500)]. *)
Definition internal_error_handler (exc : PyError) : JSONResponse :=
  mk_json 500
    (ErrorBody (mk_error_response false "Internal Server Error"
                  (Some "An unexpected error occurred"))).

(** The framework around the route: a returned model is sent with status
    200; an [HTTPException] goes to FastAPI's own handler, which answers
    with its status code and [{"detail": exc.detail}]; any other exception
    reaches the handler registered for 500. *)
Definition respond (outcome : exn + PredictionResponse) : JSONResponse :=
  match outcome with
  | inr response => mk_json 200 (PredictionBody response)
  | inl (HTTPException status_code detail) =>
      mk_json status_code (DetailBody detail)
  | inl (Unhandled e) => internal_error_handler e
  end.

(** [POST /predict]. *)
Definition post_predict (w : World) (settings : Settings)
    (model_predictor : litemodel.ModelPredictor) (file : UploadFile)
  : JSONResponse :=
  respond (snd (predict w settings model_predictor file)).

End main.

(* ================================================================== *)
(** * main.py: startup, health and the prediction counters *)
(* ================================================================== *)

(** [HealthResponse] of schemas.py. *)
Record HealthResponse : Type := mk_health {
  health_status : string;
  health_model_loaded : bool;
  health_model_path : string;
  health_uptime_seconds : float
}.

(** What [GET /health] sends: the status code and the body. *)
Record HealthReply : Type := mk_health_reply {
  reply_code : Z;
  reply_body : HealthResponse
}.

(** [model_predictor.is_loaded()], which assigns nothing and never raises. *)
Definition call_is_loaded (model_predictor : litemodel.ModelPredictor) : bool :=
  match fst (litemodel.is_loaded model_predictor) with
  | inr loaded => loaded
  | inl _ => false
  end.

(** [startup_event]: the handler logs and re-raises. *)
Definition startup_event (model_predictor : litemodel.ModelPredictor)
  : py unit :=
  if negb (call_is_loaded model_predictor) then
    inl (mk_error RuntimeError "Failed to load model during startup")
  else inr tt.

(** [health_check], [uptime] being [time.time() - START_TIME]. *)
Definition health_check (settings : Settings) (uptime : float)
    (model_predictor : litemodel.ModelPredictor) : HealthReply :=
  let is_healthy := call_is_loaded model_predictor in
  let response :=
    mk_health (if is_healthy then "healthy" else "unhealthy") is_healthy
      (model_path settings) (py_round uptime 2) in
  if negb is_healthy then mk_health_reply 503 response
  else mk_health_reply 200 response.

(** Python's [divmod] on integers, for a positive divisor. *)
Definition divmod (a b : Z) : Z * Z := ((a / b)%Z, (a mod b)%Z).

(** [str(n)] of an integer. *)
Definition str_of_int (n : Z) : string := NilZero.string_of_int (Z.to_int n).

(** [f"{hours}h {minutes}m {seconds}s"]. *)
Definition uptime_str (hours minutes seconds : Z) : string :=
  String.append (str_of_int hours)
    (String.append "h "
       (String.append (str_of_int minutes)
          (String.append "m "
             (String.append (str_of_int seconds) "s")))).

(** The context [health_ui] hands to the template. *)
Record HealthContext : Type := mk_health_context {
  ctx_status : string;
  ctx_app_name : string;
  ctx_version : string;
  ctx_uptime : string;
  ctx_model_loaded : string;
  ctx_environment : string;
  ctx_now : string
}.

(** [health_ui], [uptime_seconds] being [int(time.time() - START_TIME)] and
    [version], [environment] and [now] what the environment and the clock
    give. *)
Definition health_ui (version environment now : string) (uptime_seconds : Z)
    (model_predictor : litemodel.ModelPredictor) : HealthContext :=
  let (hours, remainder) := divmod uptime_seconds 3600 in
  let (minutes, seconds) := divmod remainder 60 in
  mk_health_context "healthy" "ML Prediction API" version
    (uptime_str hours minutes seconds)
    (if call_is_loaded model_predictor then "Yes" else "No")
    environment now.

(** The two Prometheus metrics of [/predict]: the counter
    [prediction_requests_total] by status label, and the observations of the
    histogram [prediction_request_latency_seconds]. *)
Record Metrics : Type := mk_metrics {
  prediction_requests_total : string -> nat;
  prediction_request_latency : list float
}.

Definition no_metrics : Metrics := mk_metrics (fun _ => 0) [].

(** [PREDICTION_REQUEST_LATENCY.observe(elapsed)] followed by
    [PREDICTION_REQUESTS_TOTAL.labels(status=...).inc()]. *)
Definition observe_request (status : string) (elapsed : float) (m : Metrics)
  : Metrics :=
  mk_metrics
    (fun label =>
       if String.eqb label status then S (prediction_requests_total m label)
       else prediction_requests_total m label)
    (prediction_request_latency m ++ [elapsed]).

(** What the three exits of [predict] record: the end of the body records a
    success, each of the two handlers an error, all of them only when
    [enable_metrics] is set. *)
Definition predict_metrics (settings : Settings)
    (outcome : main.exn + PredictionResponse) (elapsed : float) (m : Metrics)
  : Metrics :=
  if enable_metrics settings then
    match outcome with
    | inr _ => observe_request "success" elapsed m
    | inl (main.HTTPException _ _) => observe_request "error" elapsed m
    | inl (main.Unhandled _) => observe_request "error" elapsed m
    end
  else m.

(** One request to [/predict]: the world it meets, the upload, and the time
    it takes. *)
Record Request : Type := mk_request {
  request_world : World;
  request_file : main.UploadFile;
  request_elapsed : float
}.

(** The response to one request and the metrics after it. *)
Definition handle_request (settings : Settings)
    (model_predictor : litemodel.ModelPredictor) (m : Metrics) (r : Request)
  : main.JSONResponse * Metrics :=
  (main.post_predict (request_world r) settings model_predictor
     (request_file r),
   predict_metrics settings
     (snd (main.predict_body (request_world r) settings model_predictor
             (request_file r)))
     (request_elapsed r) m).

(** The responses to a sequence of requests and the metrics after them. *)
Fixpoint serve (settings : Settings)
    (model_predictor : litemodel.ModelPredictor) (requests : list Request)
    (m : Metrics) : list main.JSONResponse * Metrics :=
  match requests with
  | [] => ([], m)
  | r :: rest =>
      let (response, m') := handle_request settings model_predictor m r in
      let (responses, m'') := serve settings model_predictor rest m' in
      (response :: responses, m'')
  end.

(* ================================================================== *)
(** * model.py: the predictor on the ultralytics model *)
(* ================================================================== *)

Module model.

(** One element of what the model returns: [r.probs.top5], [r.probs.top5conf]
    and the dictionary [r.names]. *)
Record Results : Type := mk_results {
  top5 : list nat;
  top5conf : list float;
  names : list (nat * string)
}.

(** A loaded [YOLO] object: [self._model(image, verbose=False)]. *)
Record YOLO : Type := mk_yolo {
  run_model : Image -> foreign (list Results)
}.

Record ModelPredictor : Type := mk_predictor {
  _instance : bool;
  _model : option YOLO;
  _model_loaded : bool
}.

Definition class_defaults : ModelPredictor :=
  {| _instance := false; _model := None; _model_loaded := false |}.

(** [_load_model], [new_YOLO] being the constructor [YOLO]; the path is
    printed, in the message and for the constructor, as [Path] prints it. *)
Definition _load_model (w : World) (new_YOLO : string -> foreign YOLO)
    (settings : Settings) (self : ModelPredictor) : py unit * ModelPredictor :=
  if negb (path_exists w (model_path settings)) then
    (inl (mk_error FileNotFoundError
            (String.append "Model file not found: "
               (path_str (model_path settings)))),
     self)
  else
    match from_foreign (new_YOLO (path_str (model_path settings))) with
    | inl e => (inl e, self)
    | inr yolo => (inr tt, mk_predictor (_instance self) (Some yolo) true)
    end.

(** [ModelPredictor()]. *)
Definition new_ModelPredictor (w : World) (new_YOLO : string -> foreign YOLO)
    (settings : Settings) (self : ModelPredictor) : py unit * ModelPredictor :=
  let self := if _instance self then self
              else mk_predictor true (_model self) (_model_loaded self) in
  if negb (_model_loaded self) then _load_model w new_YOLO settings self
  else (inr tt, self).

Definition is_loaded (self : ModelPredictor) : bool :=
  _model_loaded self &&
  match _model self with Some _ => true | None => false end.

(** [d[key]] on a dictionary; a missing key raises [KeyError]. *)
Fixpoint lookup (key : nat) (d : list (nat * string)) : option string :=
  match d with
  | [] => None
  | (k, v) :: rest => if (k =? key)%nat then Some v else lookup key rest
  end.

Definition key_error (key : nat) : PyError :=
  mk_error (External "KeyError") (str_of_index key).

Definition list_index_error : PyError :=
  mk_error IndexError "list index out of range".

(** What indexing the tensor [top5conf] past its end raises. *)
Definition tensor_index_error (i size : nat) : PyError :=
  mk_error IndexError
    (String.append "index "
       (String.append (str_of_index i)
          (String.append " is out of bounds for dimension 0 with size "
             (str_of_index size)))).

(** The loop [for i in range(...)] over one result, [predictions] being the
    list built so far. *)
Fixpoint parse_result (w : World) (settings : Settings) (r : Results)
    (positions : list nat) (predictions : list PredictionResult)
  : py (list PredictionResult) :=
  match positions with
  | [] => inr predictions
  | i :: rest =>
      match nth_error (top5 r) i with
      | None => inl list_index_error
      | Some class_idx =>
          match nth_error (top5conf r) i with
          | None => inl (tensor_index_error i (List.length (top5conf r)))
          | Some confidence =>
              if fge confidence (model_confidence_threshold settings) then
                match lookup class_idx (names r) with
                | None => inl (key_error class_idx)
                | Some label =>
                    match new_PredictionResult w label
                            (py_round confidence 4) with
                    | inl e => inl e
                    | inr p =>
                        parse_result w settings r rest (predictions ++ [p])
                    end
                end
              else parse_result w settings r rest predictions
          end
      end
  end.

(** [range(min(len(top_indices), settings.max_predictions))]. *)
Definition positions (settings : Settings) (r : Results) : list nat :=
  seq 0 (Z.to_nat (Z.min (Z.of_nat (List.length (top5 r)))
                         (max_predictions settings))).

(** The loop [for r in results]. *)
Fixpoint parse_results (w : World) (settings : Settings)
    (results : list Results) (predictions : list PredictionResult)
  : py (list PredictionResult) :=
  match results with
  | [] => inr predictions
  | r :: rest =>
      match parse_result w settings r (positions settings r) predictions with
      | inl e => inl e
      | inr predictions' => parse_results w settings rest predictions'
      end
  end.

Definition predict (w : World) (settings : Settings) (image : Image)
    (self : ModelPredictor) : py (list PredictionResult * float) :=
  if negb (is_loaded self) then inl NotLoadedError
  else
    match _model self with
    | None => inl (mk_error AttributeError
                     "'NoneType' object is not callable")
    | Some yolo =>
        match from_foreign (run_model yolo image) with
        | inl e => inl e
        | inr results =>
            let inference_time := elapsed_ms w in
            match parse_results w settings results [] with
            | inl e => inl e
            | inr predictions => inr (predictions, inference_time)
            end
        end
    end.

End model.

(* ================================================================== *)
(** * Vocabulary of the statements *)
(* ================================================================== *)

(** [a[i]] is not above [a[j]] in the order NumPy sorts by. *)
Definition key_ascending (a : list float) (i j : nat) : Prop :=
  np_lt (item a j) (item a i) = false.

(** The same, with index order among keys that compare equal: the order of
    a stable sort. *)
Definition ascending (a : list float) (i j : nat) : Prop :=
  np_lt (item a i) (item a j) = true \/
  (np_lt (item a j) (item a i) = false /\ i < j).

Definition descending (a : list float) (i j : nat) : Prop := ascending a j i.

(** What NumPy promises of [np.argsort(a)] whatever the kind: indices of
    [a], in ascending order of their keys. *)
Definition indices_in_range (a : list float) (idxs : list nat) : Prop :=
  Forall (fun idx => idx < List.length a) idxs.

Definition sorted_by_key (a : list float) (idxs : list nat) : Prop :=
  StronglySorted (key_ascending a) idxs.

(** What a stable kind adds: equal keys in index order. *)
Definition stably_sorted (a : list float) (idxs : list nat) : Prop :=
  StronglySorted (ascending a) idxs.

(** The raw scores of the indices never increase along the list. *)
Definition descending_scores (a : list float) (idxs : list nat) : Prop :=
  StronglySorted (fun i j => fge (item a i) (item a j) = true) idxs.

(** The test of the loop: the raw score of class [idx] is at least the
    threshold. *)
Definition passes (settings : Settings) (predictions_raw : list float)
    (idx : nat) : bool :=
  fge (item predictions_raw idx) (model_confidence_threshold settings).

(** The class indices of the entries [predict] builds a result for: those of
    [top_indices] whose raw score passes the threshold. *)
Definition kept_indices (w : World) (settings : Settings)
    (predictions_raw : list float) : list nat :=
  filter (passes settings predictions_raw)
    (litemodel.top_indices w settings predictions_raw).

(** The entry built for class [idx]. *)
Definition result_of (class_names : list string) (predictions_raw : list float)
    (idx : nat) : PredictionResult :=
  mk_prediction (litemodel.label_of class_names idx)
    (py_round (item predictions_raw idx) 4).

(** The score of class [idx], rounded as [predict] rounds it, is a confidence
    that [PredictionResult] accepts. *)
Definition rounds_into_range (predictions_raw : list float) (idx : nat) : Prop :=
  valid_confidence (py_round (item predictions_raw idx) 4) = true.

(** The tie-break "lower class index first": of two returned classes with
    equal raw scores, the one returned first has the lower index. *)
Definition lower_index_first (predictions_raw : list float) (idxs : list nat)
  : Prop :=
  StronglySorted
    (fun i j => feq (item predictions_raw i) (item predictions_raw j) = true ->
                i < j)
    idxs.

(** What a stable sort gives instead: of two returned classes with equal
    raw scores the higher index first. *)
Definition higher_index_first (predictions_raw : list float) (idxs : list nat)
  : Prop :=
  StronglySorted
    (fun i j => feq (item predictions_raw i) (item predictions_raw j) = true ->
                j < i)
    idxs.

(** The confidences never increase along the list. *)
Definition descending_confidence (preds : list PredictionResult) : Prop :=
  StronglySorted (fun p q => fge (confidence p) (confidence q) = true) preds.

(** The attributes the model session consists of are the same in [a] and
    [b]: the session handle, the labels, the input name and shape, and the
    loaded flag. *)
Definition same_session (a b : litemodel.ModelPredictor) : Prop :=
  litemodel._session a = litemodel._session b
  /\ litemodel._class_names a = litemodel._class_names b
  /\ litemodel._input_name a = litemodel._input_name b
  /\ litemodel._input_height a = litemodel._input_height b
  /\ litemodel._input_width a = litemodel._input_width b
  /\ litemodel._model_loaded a = litemodel._model_loaded b.

(** The label step of [_load_model] on its own: the stripped lines of the
    label file when it exists, no label otherwise. *)
Definition load_labels (w : World) (settings : Settings) : py (list string) :=
  if path_exists w (class_names_path settings) then
    match from_foreign (readlines w (class_names_path settings)) with
    | inl e => inl e
    | inr lines => inr (map strip lines)
    end
  else inr [].

(** An entry of the allowed set that some file name can match: it is
    unchanged by [lower], and it is empty or a dot followed by at least one
    character; this is the form of every lowered suffix. *)
Definition reachable_extension (ext : string) : bool :=
  String.eqb (lower ext) ext &&
  match ext with
  | EmptyString => true
  | String c rest => Ascii.eqb c "." && negb (String.eqb rest "")
  end.

(** How many of the responses carry the status [code]. *)
Definition count_status (code : Z) (responses : list main.JSONResponse) : nat :=
  List.length (filter (fun r => Z.eqb (main.status r) code) responses).

(** An entry that went through the threshold test and the validation: its
    confidence is in [0, 1] and at least the rounded threshold. *)
Definition accepted_result (settings : Settings) (p : PredictionResult) : Prop :=
  valid_confidence (confidence p) = true
  /\ fge (confidence p) (py_round (model_confidence_threshold settings) 4)
     = true.

(** The number of positions [model.predict] visits over all the results. *)
Definition positions_visited (settings : Settings)
    (results : list model.Results) : nat :=
  list_sum (map (fun r => List.length (model.positions settings r)) results).

(** What NumPy promises of [np.argsort(a)] besides the order: every index of
    [a] exactly once. *)
Definition every_index_once (a : list float) (idxs : list nat) : Prop :=
  Permutation idxs (seq 0 (List.length a)).

(** The number of NaN scores. *)
Definition count_nan (a : list float) : nat :=
  List.length (filter isnan a).

(** The finite values of binary32: a significand below 2^24 in absolute
    value, scaled by a power of two from 2^-149 to 2^104. *)
Definition binary32 (v : Q) : Prop :=
  exists m e : Z,
    (Z.abs m < 2 ^ 24)%Z /\ (-149 <= e <= 104)%Z
    /\ (v == inject_Z m * 2 ^ e)%Q.

(** [v] is a binary32 value and no binary32 value is nearer to [q]: what a
    [float32] operation returns when its exact result is [q]. *)
Definition nearest_binary32 (q v : Q) : Prop :=
  binary32 v
  /\ forall v' : Q, binary32 v' -> (Qabs (v - q) <= Qabs (v' - q))%Q.

(** [label] is [line] without the whitespace characters at its two ends:
    the characters of [line] are whitespace, then those of [label], then
    whitespace, and [label] neither starts nor ends with whitespace. *)
Definition trimmed (line label : string) : Prop :=
  exists pre mid post : list string,
    characters line = pre ++ mid ++ post
    /\ label = String.concat "" mid
    /\ Forall (fun ch => isspace ch = true) pre
    /\ Forall (fun ch => isspace ch = true) post
    /\ (forall ch : string, hd_error mid = Some ch -> isspace ch = false)
    /\ (forall ch : string, hd_error (rev mid) = Some ch -> isspace ch = false).

(* ================================================================== *)
(** * Sample inputs *)
(* ================================================================== *)

(** A session whose only input is a 2x2 image and whose output is the given
    score vector. *)
Definition sample_session (scores : list float) : InferenceSession :=
  mk_session
    [mk_node_arg "images" [DimStr "batch"; DimInt 3; DimInt 2; DimInt 2]]
    (fun _ _ => inr [[scores]]).

Definition sample_image : Image :=
  mk_image "RGB" (1, 1) 3 [x00; x80; xff].

(** A world with the model file in place, the label file holding [labels]
    when given, and a model answering [scores]. *)
Definition sample_world (labels : option (list string)) (scores : list float)
  : World :=
  {| np_argsort := argsort;
     path_exists := fun p =>
       String.eqb p "./models/yolo11l-cls.onnx" ||
       match labels with
       | Some _ => String.eqb p "./models/imagenet_classes.txt"
       | None => false
       end;
     ort_InferenceSession := fun _ => inr (sample_session scores);
     readlines := fun _ =>
       match labels with
       | Some lines => inr lines
       | None => inl ("FileNotFoundError", "No such file or directory")
       end;
     Image_open := fun contents =>
       match contents with
       | [] => inl ("UnidentifiedImageError", "cannot identify image file")
       | _ => inr sample_image
       end;
     Image_convert := fun image new_mode =>
       inr (mk_image new_mode (size image) 3 (samples image));
     Image_resize := fun image new_size =>
       inr (mk_image (mode image) new_size (bands image)
              (repeat x80 (fst new_size * snd new_size * bands image)));
     elapsed_ms := Fin (1234567 # 100000);
     validation_message := fun _ => "1 validation error for PredictionResult";
     repr_set := fun exts => String.concat ", " exts;
     repr_megabytes := fun _ => "10.0" |}.

(** The defaults with a threshold of 0.250030517578125 (0.25 + 2^-15). *)
Definition fine_threshold_settings : Settings :=
  mk_settings (model_path default_settings) (class_names_path default_settings)
    (Fin (8193 # 32768)) (max_predictions default_settings)
    (max_upload_size default_settings) (allowed_extensions default_settings)
    (enable_metrics default_settings).

(** The defaults with [max_predictions = -1]. *)
Definition negative_max_settings : Settings :=
  mk_settings (model_path default_settings) (class_names_path default_settings)
    (model_confidence_threshold default_settings) (-1)
    (max_upload_size default_settings) (allowed_extensions default_settings)
    (enable_metrics default_settings).

(** The defaults with an upload limit of four bytes. *)
Definition small_upload_settings : Settings :=
  mk_settings (model_path default_settings) (class_names_path default_settings)
    (model_confidence_threshold default_settings)
    (max_predictions default_settings) 4
    (allowed_extensions default_settings) (enable_metrics default_settings).

(** The singleton after [ModelPredictor()] has run in a sample world. *)
Definition loaded_predictor (labels : option (list string))
    (scores : list float) : litemodel.ModelPredictor :=
  snd (litemodel.new_ModelPredictor (sample_world labels scores)
         default_settings litemodel.class_defaults).

(** A world in which no file exists and no session can be created. *)
Definition empty_world : World :=
  {| np_argsort := argsort;
     path_exists := fun _ => false;
     ort_InferenceSession := fun _ => inl ("NoSuchFile", "file doesn't exist");
     readlines := fun _ => inl ("FileNotFoundError", "No such file or directory");
     Image_open := fun _ =>
       inl ("UnidentifiedImageError", "cannot identify image file");
     Image_convert := fun image _ => inr image;
     Image_resize := fun image _ => inr image;
     elapsed_ms := Fin 0;
     validation_message := fun _ => "1 validation error for PredictionResult";
     repr_set := fun exts => String.concat ", " exts;
     repr_megabytes := fun _ => "10.0" |}.

(** The defaults with the allowed extensions written in upper case or
    without their dot. *)
Definition unreachable_extension_settings : Settings :=
  mk_settings (model_path default_settings) (class_names_path default_settings)
    (model_confidence_threshold default_settings)
    (max_predictions default_settings) (max_upload_size default_settings)
    [".JPG"; "png"; "."] (enable_metrics default_settings).

(** A world in which the model file is in place but declares an input of
    rank two, so that reading dimension 2 of its shape fails. *)
Definition short_shape_world : World :=
  mk_world argsort
    (path_exists (sample_world None []))
    (fun _ => inr (mk_session [mk_node_arg "images" [DimInt 1; DimInt 3]]
                     (fun _ _ => inr [])))
    (readlines (sample_world None []))
    (Image_open (sample_world None []))
    (Image_convert (sample_world None []))
    (Image_resize (sample_world None []))
    (elapsed_ms (sample_world None []))
    (validation_message (sample_world None []))
    (repr_set (sample_world None []))
    (repr_megabytes (sample_world None [])).

(** Three requests to a loaded sample model: a good upload, a text file and
    an upload PIL cannot open. *)
Definition sample_requests : list Request :=
  [mk_request (sample_world None [Fin (9 # 10)])
     (main.mk_upload "bus.jpg" [x01]) (Fin (1 # 10));
   mk_request (sample_world None [Fin (9 # 10)])
     (main.mk_upload "imagenet_classes.txt" [x01]) (Fin (1 # 100));
   mk_request (sample_world None [Fin (9 # 10)])
     (main.mk_upload "empty.png" []) (Fin (1 # 50))].

(** An ultralytics model answering one result with three classes, the
    second of which has no name. *)
Definition sample_yolo : model.YOLO :=
  model.mk_yolo
    (fun _ => inr [model.mk_results [7; 3; 1]
                     [Fin (6 # 10); Fin (2 # 10); Fin (1 # 10)]
                     [(7, "tench"); (1, "goldfish")]]).

Definition sample_yolo_predictor : model.ModelPredictor :=
  model.mk_predictor true (Some sample_yolo) true.

(** A 2x2 RGB image whose twelve samples differ, in the order PIL stores
    them (row, column, band). *)
Definition gradient_image : Image :=
  mk_image "RGB" (2, 2) 3
    [x00; x01; x02; x33; x66; x99; x7f; x80; x81; xfd; xfe; xff].

(** The sample world with a resize that returns
    the image above. *)
Definition gradient_world : World :=
  let w := sample_world None [Fin (9 # 10)] in
  {| np_argsort := np_argsort w;
     path_exists := path_exists w;
     ort_InferenceSession := ort_InferenceSession w;
     readlines := readlines w;
     Image_open := Image_open w;
     Image_convert := Image_convert w;
     Image_resize := fun _ _ => inr gradient_image;
     elapsed_ms := elapsed_ms w;
     validation_message := validation_message w;
     repr_set := repr_set w;
     repr_megabytes := repr_megabytes w |}.

(** Three lines of a label file: ASCII blanks and a newline around the
    first label, a no-break space (U+00A0) after the second, an ideographic
    space (U+3000) before the third and a line separator (U+2028) after
    it. *)
Definition unicode_label_lines : list string :=
  [String.append "  tench, Tinca tinca" (utf8 10);
   String.append "goldfish" (String.append (utf8 160) (utf8 10));
   String.append (utf8 12288)
     (String.append "great white shark" (utf8 8232))].

(* ================================================================== *)
(** * The embedding on concrete values *)
(* ================================================================== *)

(** [round] rounds exact halves to the even neighbour; 0.03125 is such a
    half at four decimals. *)
Example py_round_examples :
  py_round (Fin (1 # 32)) 4 = Fin (39 # 1250)
  /\ py_round (Fin (5 # 2)) 0 = Fin 2
  /\ py_round (Fin (7 # 2)) 0 = Fin 4
  /\ py_round (Fin (1234567 # 100000)) 2 = Fin (247 # 20)
  /\ py_round PosInf 4 = PosInf.
Proof. vm_compute. repeat split; reflexivity. Qed.

(** The insertion sort puts NaN last and keeps equal keys in index order. *)
Example argsort_examples :
  argsort [Fin (1 # 2); Fin (1 # 2); NaN; Fin (1 # 4); PosInf; NegInf]
  = [5; 3; 0; 1; 4; 2].
Proof. vm_compute. reflexivity. Qed.

Example slice_to_examples :
  slice_to [1; 2; 3] 2 = [1; 2]
  /\ slice_to [1; 2; 3] 5 = [1; 2; 3]
  /\ slice_to [1; 2; 3] (-1) = [1; 2]
  /\ slice_to [1; 2; 3] (-7) = [].
Proof. vm_compute. repeat split; reflexivity. Qed.

Example suffix_examples :
  suffix "a/b/photo.JPG" = ".JPG"
  /\ lower (suffix "a/b/photo.JPG") = ".jpg"
  /\ suffix "archive.tar.gz" = ".gz"
  /\ suffix ".bashrc" = ""
  /\ suffix "trailing." = ""
  /\ suffix "dir.d/noext" = ""
  /\ suffix "a/b.png/" = ".png".
Proof. vm_compute. repeat split; reflexivity. Qed.

(** The quotients of [float32]: 1/255 is 8421505 * 2^-31 and 51/255 is the
    [float32] 0.2, not the rationals 1/255 and 1/5. *)
Example np_divide_examples :
  np_divide (Fin 1) 255 = Fin (8421505 # 2147483648)
  /\ np_divide (Fin 51) 255 = Fin (13421773 # 67108864)
  /\ np_divide (Fin 128) 255 = Fin (8421505 # 16777216)
  /\ np_divide (Fin 0) 255 = Fin 0
  /\ np_divide (Fin 255) 255 = Fin 1
  /\ np_divide NaN 255 = NaN
  /\ binary32_round (1 # 3) = Fin (11184811 # 33554432)
  /\ binary32_round (- (1 # 3)) = Fin (-11184811 # 33554432)
  /\ binary32_round (inject_Z (2 ^ 24 + 1)) = Fin (inject_Z (2 ^ 24))
  /\ binary32_round (inject_Z (2 ^ 24 + 3)) = Fin (inject_Z (2 ^ 24 + 4))
  /\ binary32_round (inject_Z (2 ^ 128)) = PosInf.
Proof. vm_compute. repeat split; reflexivity. Qed.

(** Characters and whitespace: a no-break space (U+00A0), an ideographic
    space (U+3000) and a next-line control (U+0085) are stripped, a
    zero-width space (U+200B) and an accented letter are not. *)
Example characters_examples :
  utf8 160 = String "194" (String "160" "")
  /\ utf8 12288 = String "227" (String "128" (String "128" ""))
  /\ characters (String.append "a" (String.append (utf8 233) (utf8 8233)))
     = ["a"; utf8 233; utf8 8233]
  /\ isspace (utf8 160) = true
  /\ isspace (utf8 8203) = false
  /\ isspace (utf8 233) = false
  /\ isspace (String "160" "") = false
  /\ strip (String.append "tench" (utf8 160)) = "tench"
  /\ strip (String.append (utf8 12288)
              (String.append "caf" (String.append (utf8 233) (utf8 133))))
     = String.append "caf" (utf8 233)
  /\ strip (String.append (utf8 8203) "x") = String.append (utf8 8203) "x"
  /\ strip (String.append " a b " (utf8 8201)) = "a b"
  /\ map strip unicode_label_lines
     = ["tench, Tinca tinca"; "goldfish"; "great white shark"].
Proof. vm_compute. repeat split; reflexivity. Qed.

Example strip_examples :
  strip ("  tench, Tinca tinca" ++ String "013" (String "010" "")) 
  = "tench, Tinca tinca"
  /\ strip "" = ""
  /\ str_of_index 0 = "0"
  /\ str_of_index 417 = "417".
Proof. vm_compute. repeat split; reflexivity. Qed.

Example path_str_examples :
  path_str "./models/yolo11l-cls.onnx" = "models/yolo11l-cls.onnx"
  /\ path_str "" = "."
  /\ path_str "a//b/./c/" = "a/b/c"
  /\ path_str "/" = "/"
  /\ path_str "//srv/x" = "//srv/x"
  /\ path_str "///srv/x" = "/srv/x"
  /\ path_str "../x" = "../x".
Proof. vm_compute. repeat split; reflexivity. Qed.

(** The loaded singleton of the sample world: the input shape is read from
    dimensions 2 and 3 and the labels are stripped. *)
Example loaded_predictor_example :
  loaded_predictor (Some [" tench " ; "goldfish"]) [Fin (9 # 10)]
  = litemodel.mk_predictor true (Some (sample_session [Fin (9 # 10)]))
      ["tench"; "goldfish"] "images" 2 2 true.
Proof. reflexivity. Qed.

(** Scores below the threshold are dropped, not replaced: the list can be
    empty. *)
Example postprocess_drops_low_scores :
  litemodel.postprocess (sample_world None []) default_settings
    ["tench"; "goldfish"] [Fin (1 # 10); Fin (2 # 10)]
  = inr []
  /\ litemodel.postprocess (sample_world None []) default_settings
       ["tench"; "goldfish"] [Fin (1 # 10); Fin (1 # 4); NaN]
     = inr [mk_prediction "goldfish" (Fin (1 # 4))].
Proof. vm_compute. split; reflexivity. Qed.

(** A request that succeeds, end to end: two scores pass the default
    threshold, the third is dropped. *)
Example post_predict_example :
  let scores := [Fin (3 # 10); Fin (6 # 10); Fin (1 # 10)] in
  main.post_predict (sample_world (Some ["tench"; "goldfish"]) scores)
    default_settings (loaded_predictor (Some ["tench"; "goldfish"]) scores)
    (main.mk_upload "bus.jpg" [x01])
  = main.mk_json 200
      (main.PredictionBody
         (mk_response true
            [mk_prediction "goldfish" (Fin (3 # 5));
             mk_prediction "tench" (Fin (3 # 10))]
            "yolo11l-cls" (Fin (247 # 20)))).
Proof. vm_compute. reflexivity. Qed.

(* ================================================================== *)
(** * Facts about the float order and about rounding *)
(* ================================================================== *)

Ltac q_cases :=
  repeat match goal with
         | |- context [Qcompare ?x ?y] => destruct (Qcompare_spec x y)
         | H : context [Qcompare ?x ?y] |- _ => destruct (Qcompare_spec x y)
         end.

Ltac float_cases :=
  simpl in *; q_cases; try reflexivity; try discriminate; try (exfalso; lra).

Lemma fle_Fin (x y : Q) : fle (Fin x) (Fin y) = true <-> (x <= y)%Q.
Proof.
  simpl. destruct (Qcompare_spec x y); split; intros; try reflexivity;
    try discriminate; lra.
Qed.

Lemma fle_trans (a b c : float) :
  fle a b = true -> fle b c = true -> fle a c = true.
Proof. destruct a, b, c; intros; float_cases. Qed.

Lemma fle_not_nan (a b : float) :
  fle a b = true -> isnan a = false /\ isnan b = false.
Proof. destruct a, b; simpl; intros; split; try reflexivity; discriminate. Qed.

Lemma np_lt_irrefl (a : float) : np_lt a a = false.
Proof. unfold np_lt. destruct a; float_cases. Qed.

(** [a < b] and [b <= c] give [a < c] in NumPy's order. *)
Lemma np_lt_le_trans (a b c : float) :
  np_lt a b = true -> np_lt c b = false -> np_lt a c = true.
Proof. unfold np_lt. destruct a, b, c; intros; float_cases. Qed.

Lemma np_le_lt_trans (a b c : float) :
  np_lt b a = false -> np_lt b c = true -> np_lt a c = true.
Proof. unfold np_lt. destruct a, b, c; intros; float_cases. Qed.

Lemma np_le_trans (a b c : float) :
  np_lt b a = false -> np_lt c b = false -> np_lt c a = false.
Proof. unfold np_lt. destruct a, b, c; intros; float_cases. Qed.

(** On values that are not NaN, "not below" in NumPy's order is [>=]. *)
Lemma np_not_lt_fge (a b : float) :
  isnan a = false -> isnan b = false -> np_lt a b = false -> fge a b = true.
Proof. unfold np_lt, fge. destruct a, b; intros; float_cases. Qed.

Lemma feq_np_lt (a b : float) : feq a b = true -> np_lt b a = false.
Proof. unfold np_lt, feq. destruct a, b; intros; float_cases. Qed.

Lemma round_half_even_le (x y : Q) :
  (x <= y)%Q -> (round_half_even x <= round_half_even y)%Z.
Proof.
  intros Hxy. unfold round_half_even.
  pose proof (Qfloor_resp_le x y Hxy) as Hf.
  destruct (Z.eq_dec (Qfloor x) (Qfloor y)) as [E | E].
  - rewrite E.
    destruct (Qcompare_spec (x - inject_Z (Qfloor y)) (1 # 2));
      destruct (Qcompare_spec (y - inject_Z (Qfloor y)) (1 # 2));
      destruct (Z.even (Qfloor y)); try lia; exfalso; lra.
  - destruct (x - inject_Z (Qfloor x) ?= 1 # 2)%Q;
      destruct (y - inject_Z (Qfloor y) ?= 1 # 2)%Q;
      destruct (Z.even (Qfloor x)); destruct (Z.even (Qfloor y)); lia.
Qed.

(** [round(x, n)] is monotone. *)
Lemma py_round_le (a b : float) (n : nat) :
  fle a b = true -> fle (py_round a n) (py_round b n) = true.
Proof.
  destruct a as [| |x|], b as [| |y|]; intros H;
    try reflexivity; try discriminate.
  cbn [py_round]. apply fle_Fin. apply fle_Fin in H.
  apply <- Qred_le.
  generalize (Z.to_pos (10 ^ Z.of_nat n)); intros s.
  assert (Hs : (x * inject_Z (Z.pos s) <= y * inject_Z (Z.pos s))%Q).
  { apply Qmult_le_compat_r; [exact H |].
    unfold Qle; simpl. apply Pos2Z.is_nonneg. }
  apply round_half_even_le in Hs.
  unfold Qle; cbn [Qnum Qden].
  apply Z.mul_le_mono_nonneg_r; [apply Pos2Z.is_nonneg | exact Hs].
Qed.

(** A value that passes the threshold still passes it after rounding when
    the threshold is itself unchanged by the rounding. *)
Lemma py_round_keeps_threshold (c t : float) (n : nat) :
  feq (py_round t n) t = true -> fge c t = true ->
  fge (py_round c n) t = true.
Proof.
  unfold feq, fge. intros Ht Hc.
  apply andb_prop in Ht as [_ Ht].
  apply (fle_trans _ _ _ Ht). now apply py_round_le.
Qed.

(* ================================================================== *)
(** * Facts about [argsort] and slicing *)
(* ================================================================== *)

Lemma np_lt_asym (a b : float) : np_lt a b = true -> np_lt b a = false.
Proof. unfold np_lt. destruct a, b; intros; float_cases. Qed.

Lemma ascending_lt_trans (a : list float) (i j k : nat) :
  np_lt (item a i) (item a j) = true -> ascending a j k ->
  np_lt (item a i) (item a k) = true.
Proof.
  intros Hij [Hjk | [Hkj _]].
  - apply (np_lt_le_trans _ _ _ Hij). now apply np_lt_asym.
  - now apply (np_lt_le_trans _ _ _ Hij).
Qed.

Lemma insert_index_perm (a : list float) (i : nat) (l : list nat) :
  Permutation (insert_index a i l) (i :: l).
Proof.
  induction l as [| j rest IH]; simpl.
  - apply Permutation_refl.
  - destruct (np_lt (item a i) (item a j)).
    + apply Permutation_refl.
    + eapply perm_trans; [apply perm_skip, IH | apply perm_swap].
Qed.

Lemma insert_index_sorted (a : list float) (i : nat) (l : list nat) :
  StronglySorted (ascending a) l ->
  Forall (fun j => j < i) l ->
  StronglySorted (ascending a) (insert_index a i l).
Proof.
  induction l as [| j rest IH]; simpl; intros Hs Hlt.
  - repeat constructor.
  - inversion Hs as [| ? ? Hrest Hj]; subst.
    inversion Hlt as [| ? ? Hji Hrest_lt]; subst.
    destruct (np_lt (item a i) (item a j)) eqn:E.
    + constructor; [exact Hs |].
      constructor; [now left |].
      rewrite Forall_forall in Hj |- *. intros k Hk. left.
      apply (ascending_lt_trans a i j k E). now apply Hj.
    + constructor; [now apply IH |].
      apply (Permutation_Forall (Permutation_sym (insert_index_perm a i rest))).
      constructor; [right; now split | exact Hj].
Qed.

Lemma argsort_fold_sorted (a : list float) (n : nat) :
  forall (start : nat) (acc : list nat),
    StronglySorted (ascending a) acc ->
    Forall (fun j => j < start) acc ->
    StronglySorted (ascending a)
      (fold_left (fun sorted i => insert_index a i sorted) (seq start n) acc).
Proof.
  induction n as [| n IH]; simpl; intros start acc Hs Hlt; [exact Hs |].
  apply IH.
  - now apply insert_index_sorted.
  - apply (Permutation_Forall (Permutation_sym (insert_index_perm a start acc))).
    constructor; [lia |].
    eapply Forall_impl; [| exact Hlt]. simpl; intros; lia.
Qed.

(** [argsort] returns the indices in ascending order of their keys, equal
    keys in index order. *)
Lemma argsort_sorted (a : list float) : StronglySorted (ascending a) (argsort a).
Proof. apply argsort_fold_sorted; constructor. Qed.

Lemma argsort_fold_perm (a : list float) (l : list nat) :
  forall acc : list nat,
    Permutation (fold_left (fun sorted i => insert_index a i sorted) l acc)
                (l ++ acc).
Proof.
  induction l as [| x l IH]; simpl; intros acc.
  - apply Permutation_refl.
  - eapply perm_trans; [apply IH |].
    eapply perm_trans;
      [apply Permutation_app_head, insert_index_perm |].
    apply Permutation_sym, Permutation_middle.
Qed.

(** [argsort] returns every index of the array exactly once. *)
Lemma argsort_perm (a : list float) :
  Permutation (argsort a) (seq 0 (List.length a)).
Proof.
  unfold argsort. rewrite <- (app_nil_r (seq 0 (List.length a))) at 2.
  apply argsort_fold_perm.
Qed.

Lemma argsort_length (a : list float) :
  List.length (argsort a) = List.length a.
Proof.
  rewrite (Permutation_length (argsort_perm a)). apply length_seq.
Qed.

Lemma sorted_snoc {A : Type} (R : A -> A -> Prop) (l : list A) (x : A) :
  StronglySorted R l -> Forall (fun y => R y x) l ->
  StronglySorted R (l ++ [x]).
Proof.
  induction l as [| y l IH]; simpl; intros Hs Hx.
  - repeat constructor.
  - inversion Hs; subst. inversion Hx; subst.
    constructor; [now apply IH |].
    apply Forall_app; split; [assumption | now repeat constructor].
Qed.

Lemma sorted_rev {A : Type} (R : A -> A -> Prop) (l : list A) :
  StronglySorted R l -> StronglySorted (fun x y => R y x) (rev l).
Proof.
  induction 1 as [| x l Hs IH Hx]; simpl; [constructor |].
  apply sorted_snoc; [exact IH |].
  apply Forall_rev. exact Hx.
Qed.

Lemma in_firstn {A : Type} (n : nat) (l : list A) (x : A) :
  In x (firstn n l) -> In x l.
Proof.
  intros H. rewrite <- (firstn_skipn n l). apply in_or_app. now left.
Qed.

Lemma sorted_firstn {A : Type} (R : A -> A -> Prop) (n : nat) (l : list A) :
  StronglySorted R l -> StronglySorted R (firstn n l).
Proof.
  revert n. induction l as [| x l IH]; intros [| n] Hs; simpl;
    try constructor.
  - inversion Hs; subst. now apply IH.
  - inversion Hs as [| ? ? _ Hx]; subst.
    rewrite Forall_forall in Hx |- *. intros y Hy. apply Hx.
    now apply (in_firstn n).
Qed.

Lemma sorted_filter {A : Type} (R : A -> A -> Prop) (f : A -> bool)
    (l : list A) :
  StronglySorted R l -> StronglySorted R (filter f l).
Proof.
  induction 1 as [| x l Hs IH Hx]; simpl; [constructor |].
  destruct (f x); [| exact IH].
  constructor; [exact IH |].
  rewrite Forall_forall in Hx |- *. intros y Hy. apply Hx.
  apply filter_In in Hy. tauto.
Qed.

Lemma sorted_map {A B : Type} (R : A -> A -> Prop) (S : B -> B -> Prop)
    (f : A -> B) (l : list A) :
  (forall x y, In x l -> In y l -> R x y -> S (f x) (f y)) ->
  StronglySorted R l -> StronglySorted S (map f l).
Proof.
  intros Hf Hs. induction Hs as [| x l Hs IH Hx]; simpl; [constructor |].
  constructor.
  - apply IH. intros; apply Hf; simpl; auto.
  - rewrite Forall_forall in Hx |- *. intros y Hy.
    apply in_map_iff in Hy as [z [<- Hz]].
    apply Hf; simpl; auto.
Qed.

Lemma sorted_strengthen {A : Type} (R S : A -> A -> Prop) (l : list A) :
  (forall x y, In x l -> In y l -> R x y -> S x y) ->
  StronglySorted R l -> StronglySorted S l.
Proof.
  intros H Hs. rewrite <- (map_id l).
  apply (sorted_map R S (fun x => x)); [exact H | exact Hs].
Qed.

Lemma slice_to_firstn {A : Type} (l : list A) (k : Z) :
  exists n : nat, slice_to l k = firstn n l.
Proof. unfold slice_to. destruct (k <? 0)%Z; eauto. Qed.

Lemma slice_to_length {A : Type} (l : list A) (k : Z) :
  (0 <= k)%Z -> (Z.of_nat (List.length (slice_to l k)) <= k)%Z.
Proof.
  intros Hk. unfold slice_to.
  destruct (k <? 0)%Z eqn:E; [apply Z.ltb_lt in E; lia |].
  rewrite length_firstn. lia.
Qed.

Lemma ascending_key_ascending (a : list float) (i j : nat) :
  ascending a i j -> key_ascending a i j.
Proof.
  unfold key_ascending. intros [Hlt | [Hle _]]; [| exact Hle].
  now apply np_lt_asym.
Qed.

(** The insertion sort meets both descriptions. *)
Lemma argsort_stably_sorted (a : list float) : stably_sorted a (argsort a).
Proof. apply argsort_sorted. Qed.

Lemma argsort_in_range (a : list float) : indices_in_range a (argsort a).
Proof.
  unfold indices_in_range. apply Forall_forall. intros idx Hin.
  apply (Permutation_in _ (argsort_perm a)) in Hin.
  apply in_seq in Hin. lia.
Qed.

Lemma argsort_sorted_by_key (a : list float) : sorted_by_key a (argsort a).
Proof.
  unfold sorted_by_key.
  eapply sorted_strengthen; [| apply argsort_sorted].
  intros i j _ _. apply ascending_key_ascending.
Qed.

(** Reversing, slicing and filtering keep whatever order the indices are
    in, reversed. *)
Lemma kept_indices_order (R : nat -> nat -> Prop) (w : World)
    (settings : Settings) (predictions_raw : list float) :
  StronglySorted R (np_argsort w predictions_raw) ->
  StronglySorted (fun i j => R j i) (kept_indices w settings predictions_raw).
Proof.
  intros Hs. unfold kept_indices, litemodel.top_indices.
  destruct (slice_to_firstn (rev (np_argsort w predictions_raw))
              (Z.min (Z.of_nat (List.length predictions_raw))
                     (max_predictions settings))) as [n ->].
  apply sorted_filter, sorted_firstn. now apply sorted_rev.
Qed.

Lemma top_indices_length (w : World) (settings : Settings)
    (predictions_raw : list float) :
  (0 <= max_predictions settings)%Z ->
  (Z.of_nat (List.length (litemodel.top_indices w settings predictions_raw))
   <= max_predictions settings)%Z.
Proof.
  intros Hk. unfold litemodel.top_indices.
  etransitivity; [apply slice_to_length; lia | lia].
Qed.

Lemma kept_indices_pass (w : World) (settings : Settings)
    (predictions_raw : list float) :
  Forall (fun idx => fge (item predictions_raw idx)
                       (model_confidence_threshold settings) = true)
    (kept_indices w settings predictions_raw).
Proof.
  apply Forall_forall. intros idx Hin.
  apply filter_In in Hin. tauto.
Qed.

Lemma kept_indices_length (w : World) (settings : Settings)
    (predictions_raw : list float) :
  List.length (kept_indices w settings predictions_raw)
  <= List.length (litemodel.top_indices w settings predictions_raw).
Proof. apply filter_length_le. Qed.

Lemma kept_not_nan (w : World) (settings : Settings)
    (predictions_raw : list float) (idx : nat) :
  In idx (kept_indices w settings predictions_raw) ->
  isnan (item predictions_raw idx) = false.
Proof.
  intros Hin. apply filter_In in Hin as [_ Hp].
  unfold passes, fge in Hp. now apply fle_not_nan in Hp.
Qed.

(** With ascending keys from [np.argsort], the kept indices come in
    descending order of raw score. *)
Lemma kept_indices_descending (w : World) (settings : Settings)
    (predictions_raw : list float) :
  sorted_by_key predictions_raw (np_argsort w predictions_raw) ->
  descending_scores predictions_raw (kept_indices w settings predictions_raw).
Proof.
  intros Hs. unfold descending_scores.
  apply (sorted_strengthen (fun i j => key_ascending predictions_raw j i));
    [| now apply kept_indices_order].
  intros i j Hi Hj Hk. unfold key_ascending in Hk.
  apply kept_not_nan in Hi. apply kept_not_nan in Hj.
  now apply np_not_lt_fge.
Qed.

(** With a stable [np.argsort], the higher index comes first among equal
    scores. *)
Lemma kept_indices_higher_index_first (w : World) (settings : Settings)
    (predictions_raw : list float) :
  stably_sorted predictions_raw (np_argsort w predictions_raw) ->
  higher_index_first predictions_raw (kept_indices w settings predictions_raw).
Proof.
  intros Hs. unfold higher_index_first.
  apply (sorted_strengthen (descending predictions_raw));
    [| now apply kept_indices_order].
  intros i j _ _ [Hlt | [_ Hidx]] Heq; [| exact Hidx].
  apply feq_np_lt in Heq. congruence.
Qed.

(* ================================================================== *)
(** * The ranking step *)
(* ================================================================== *)

Section Ranking.

Variable w : World.
Variable settings : Settings.
Variable class_names : list string.
Variable predictions_raw : list float.

Lemma nth_error_item (idx : nat) (c : float) :
  nth_error predictions_raw idx = Some c -> item predictions_raw idx = c.
Proof. intros H. unfold item. now apply nth_error_nth. Qed.

Lemma item_nth_error (idx : nat) :
  idx < List.length predictions_raw ->
  nth_error predictions_raw idx = Some (item predictions_raw idx).
Proof. intros H. unfold item. now apply nth_error_nth'. Qed.

(** The loop returns exactly the entries of the indices that pass the
    threshold, in order, when it returns. *)
Lemma format_predictions_inr (idxs : list nat) :
  forall acc res : list PredictionResult,
    litemodel.format_predictions w settings class_names predictions_raw
      idxs acc = inr res ->
    res = acc ++ map (result_of class_names predictions_raw)
                     (filter (passes settings predictions_raw) idxs)
    /\ Forall (rounds_into_range predictions_raw)
         (filter (passes settings predictions_raw) idxs)
    /\ indices_in_range predictions_raw idxs.
Proof.
  induction idxs as [| idx rest IH]; simpl; intros acc res H.
  - inversion H; subst. rewrite app_nil_r.
    split; [reflexivity | split; constructor].
  - destruct (nth_error predictions_raw idx) as [c |] eqn:Hidx;
      [| discriminate].
    assert (Hlt : idx < List.length predictions_raw).
    { apply nth_error_Some. congruence. }
    apply nth_error_item in Hidx. subst c.
    change (fge (item predictions_raw idx)
              (model_confidence_threshold settings))
      with (passes settings predictions_raw idx) in *.
    destruct (passes settings predictions_raw idx) eqn:E.
    + unfold new_PredictionResult in H.
      destruct (valid_confidence (py_round (item predictions_raw idx) 4))
        eqn:V; [| discriminate].
      apply IH in H as (-> & Hv & Hr). simpl. rewrite <- app_assoc. simpl.
      split; [reflexivity |]. split; constructor; assumption.
    + apply IH in H as (-> & Hv & Hr).
      split; [reflexivity |]. split; [assumption | constructor; assumption].
Qed.

(** It returns whenever every such entry has a valid confidence ... *)
Lemma format_predictions_valid (idxs : list nat) :
  forall acc : list PredictionResult,
    indices_in_range predictions_raw idxs ->
    Forall (rounds_into_range predictions_raw)
      (filter (passes settings predictions_raw) idxs) ->
    litemodel.format_predictions w settings class_names predictions_raw
      idxs acc
    = inr (acc ++ map (result_of class_names predictions_raw)
                      (filter (passes settings predictions_raw) idxs)).
Proof.
  induction idxs as [| idx rest IH]; simpl; intros acc Hr Hv.
  - now rewrite app_nil_r.
  - inversion Hr as [| ? ? Hlt Hrest_r]; subst.
    rewrite (item_nth_error idx Hlt).
    change (fge (item predictions_raw idx)
              (model_confidence_threshold settings))
      with (passes settings predictions_raw idx) in *.
    destruct (passes settings predictions_raw idx) eqn:E.
    + inversion Hv as [| ? ? Hidx Hrest]; subst.
      unfold new_PredictionResult. unfold rounds_into_range in Hidx.
      rewrite Hidx.
      rewrite IH by assumption. simpl. now rewrite <- app_assoc.
    + now apply IH.
Qed.

(** ... and raises pydantic's error as soon as one has not. *)
Lemma format_predictions_invalid (idxs : list nat) :
  forall acc : list PredictionResult,
    indices_in_range predictions_raw idxs ->
    ~ Forall (rounds_into_range predictions_raw)
        (filter (passes settings predictions_raw) idxs) ->
    exists c : float,
      valid_confidence c = false /\
      litemodel.format_predictions w settings class_names predictions_raw
        idxs acc
      = inl (mk_error ValidationError (validation_message w c)).
Proof.
  induction idxs as [| idx rest IH]; simpl; intros acc Hr Hv.
  - exfalso. apply Hv. constructor.
  - inversion Hr as [| ? ? Hlt Hrest_r]; subst.
    rewrite (item_nth_error idx Hlt).
    change (fge (item predictions_raw idx)
              (model_confidence_threshold settings))
      with (passes settings predictions_raw idx) in *.
    destruct (passes settings predictions_raw idx) eqn:E.
    + unfold new_PredictionResult.
      destruct (valid_confidence (py_round (item predictions_raw idx) 4))
        eqn:V.
      * apply IH; [assumption |]. intros Hrest. apply Hv. now constructor.
      * eexists; split; [exact V | reflexivity].
    + now apply IH.
Qed.

Lemma top_indices_in_range :
  indices_in_range predictions_raw (np_argsort w predictions_raw) ->
  indices_in_range predictions_raw
    (litemodel.top_indices w settings predictions_raw).
Proof.
  unfold indices_in_range, litemodel.top_indices. intros H.
  destruct (slice_to_firstn (rev (np_argsort w predictions_raw))
              (Z.min (Z.of_nat (List.length predictions_raw))
                     (max_predictions settings))) as [n ->].
  rewrite Forall_forall in H |- *. intros idx Hin.
  apply H. apply in_rev. now apply (in_firstn n).
Qed.

Lemma postprocess_inr (preds : list PredictionResult) :
  litemodel.postprocess w settings class_names predictions_raw = inr preds ->
  preds = map (result_of class_names predictions_raw)
              (kept_indices w settings predictions_raw)
  /\ Forall (rounds_into_range predictions_raw)
       (kept_indices w settings predictions_raw).
Proof.
  unfold litemodel.postprocess. intros H.
  apply format_predictions_inr in H as (Hres & Hv & _). now split.
Qed.

Lemma postprocess_valid :
  indices_in_range predictions_raw (np_argsort w predictions_raw) ->
  Forall (rounds_into_range predictions_raw)
    (kept_indices w settings predictions_raw) ->
  litemodel.postprocess w settings class_names predictions_raw
  = inr (map (result_of class_names predictions_raw)
             (kept_indices w settings predictions_raw)).
Proof.
  intros Hr H. unfold litemodel.postprocess.
  rewrite format_predictions_valid; [reflexivity | | exact H].
  now apply top_indices_in_range.
Qed.

Lemma postprocess_invalid :
  indices_in_range predictions_raw (np_argsort w predictions_raw) ->
  ~ Forall (rounds_into_range predictions_raw)
      (kept_indices w settings predictions_raw) ->
  exists c : float,
    valid_confidence c = false /\
    litemodel.postprocess w settings class_names predictions_raw
    = inl (mk_error ValidationError (validation_message w c)).
Proof.
  intros Hr H. apply format_predictions_invalid; [| exact H].
  now apply top_indices_in_range.
Qed.

End Ranking.


(** C1 (as amended): when [max_predictions] is not negative, the ranking
    step returns at most [max_predictions] results; the results are exactly
    the entries of the top indices whose raw score is at least the threshold,
    in order, the others being dropped; each confidence is the raw score
    rounded to four decimals, so it is at least the threshold rounded to four
    decimals, and at least the threshold itself when the threshold has no
    more than four decimals. *)
Theorem rank_bounded_and_thresholded (w : World) (settings : Settings)
    (class_names : list string) (predictions_raw : list float)
    (preds : list PredictionResult) :
  (0 <= max_predictions settings)%Z ->
  litemodel.postprocess w settings class_names predictions_raw = inr preds ->
  (Z.of_nat (List.length preds) <= max_predictions settings)%Z
  /\ preds = map (result_of class_names predictions_raw)
                 (kept_indices w settings predictions_raw)
  /\ Forall (fun idx => fge (item predictions_raw idx)
                          (model_confidence_threshold settings) = true)
        (kept_indices w settings predictions_raw)
  /\ Forall (fun p => fge (confidence p)
                        (py_round (model_confidence_threshold settings) 4)
                    = true) preds
  /\ (feq (py_round (model_confidence_threshold settings) 4)
          (model_confidence_threshold settings) = true ->
      Forall (fun p => fge (confidence p)
                         (model_confidence_threshold settings) = true) preds).
Proof.
  intros Hmax Hret.
  apply postprocess_inr in Hret as [-> _].
  pose proof (kept_indices_pass w settings predictions_raw) as Hpass.
  repeat split.
  - rewrite length_map.
    pose proof (kept_indices_length w settings predictions_raw).
    pose proof (top_indices_length w settings predictions_raw Hmax). lia.
  - exact Hpass.
  - apply Forall_map. eapply Forall_impl; [| exact Hpass].
    intros idx H. simpl. unfold fge in *. now apply py_round_le.
  - intros Hfix. apply Forall_map. eapply Forall_impl; [| exact Hpass].
    intros idx H. simpl. now apply py_round_keeps_threshold.
Qed.

Lemma rank_bounded_and_thresholded_witness :
  let w := sample_world None [] in
  let raw := [Fin (9 # 10); Fin (1 # 10); Fin (3 # 10)] in
  let preds := [mk_prediction "tench" (Fin (9 # 10));
                mk_prediction "2" (Fin (3 # 10))] in
  (Z.of_nat (List.length preds) <= 5)%Z
  /\ preds = map (result_of ["tench"; "goldfish"] raw)
                 (kept_indices w default_settings raw)
  /\ Forall (fun idx => fge (item raw idx) (Fin (25 # 100)) = true)
        (kept_indices w default_settings raw)
  /\ Forall (fun p => fge (confidence p) (py_round (Fin (25 # 100)) 4) = true)
        preds
  /\ (feq (py_round (Fin (25 # 100)) 4) (Fin (25 # 100)) = true ->
      Forall (fun p => fge (confidence p) (Fin (25 # 100)) = true) preds).
Proof.
  intros w raw preds.
  apply (rank_bounded_and_thresholded w default_settings ["tench"; "goldfish"]
           raw preds).
  - simpl. lia.
  - vm_compute. reflexivity.
Defined.

(** C1 (as stated) fails twice.  With a threshold of 0.250030517578125 a
    score equal to it is returned with the confidence 0.25, below the
    threshold; with [max_predictions = -1] the slice [[:top_k]] drops the
    last index only, and one result is returned. *)
Lemma rank_not_bounded_as_stated :
  (litemodel.postprocess (sample_world None []) fine_threshold_settings []
     [Fin (8193 # 32768)]
   = inr [mk_prediction "0" (Fin (1 # 4))]
   /\ fge (Fin (1 # 4)) (model_confidence_threshold fine_threshold_settings)
      = false)
  /\ (litemodel.postprocess (sample_world None []) negative_max_settings []
        [Fin (9 # 10); Fin (8 # 10)]
      = inr [mk_prediction "0" (Fin (9 # 10))]
      /\ (max_predictions negative_max_settings < 1)%Z).
Proof. vm_compute. repeat split; reflexivity. Qed.

(** C2 (as amended): [np.argsort] returning ascending keys, the ranking
    step returns its results in descending order of confidence; they are the
    entries of the kept class indices, which come in descending order of raw
    score.  No tie-break favours the lower class index: the order among
    exactly equal scores is the reverse of the order [np.argsort] returns
    them in, so that a stable sort puts the higher class index first. *)
Theorem rank_sorted_descending (w : World) (settings : Settings)
    (class_names : list string) (predictions_raw : list float)
    (preds : list PredictionResult) :
  sorted_by_key predictions_raw (np_argsort w predictions_raw) ->
  litemodel.postprocess w settings class_names predictions_raw = inr preds ->
  descending_confidence preds
  /\ preds = map (result_of class_names predictions_raw)
                 (kept_indices w settings predictions_raw)
  /\ descending_scores predictions_raw
        (kept_indices w settings predictions_raw)
  /\ (stably_sorted predictions_raw (np_argsort w predictions_raw) ->
      higher_index_first predictions_raw
        (kept_indices w settings predictions_raw)).
Proof.
  intros Hsorted Hret. apply postprocess_inr in Hret as [-> _].
  pose proof (kept_indices_descending w settings predictions_raw Hsorted)
    as Hs.
  split; [| split; [reflexivity | split; [exact Hs |]]].
  - unfold descending_confidence.
    eapply sorted_map; [| exact Hs].
    intros i j _ _ Hge. simpl. unfold fge in *. now apply py_round_le.
  - apply kept_indices_higher_index_first.
Qed.

Lemma rank_sorted_descending_witness :
  let w := sample_world None [] in
  let raw := [Fin (3 # 10); Fin (9 # 10); Fin (3 # 10)] in
  let preds := [mk_prediction "goldfish" (Fin (9 # 10));
                mk_prediction "2" (Fin (3 # 10));
                mk_prediction "tench" (Fin (3 # 10))] in
  descending_confidence preds
  /\ preds = map (result_of ["tench"; "goldfish"] raw)
                 (kept_indices w default_settings raw)
  /\ descending_scores raw (kept_indices w default_settings raw)
  /\ (stably_sorted raw (np_argsort w raw) ->
      higher_index_first raw (kept_indices w default_settings raw)).
Proof.
  intros w raw preds.
  apply (rank_sorted_descending w default_settings ["tench"; "goldfish"]
           raw preds).
  - unfold sorted_by_key, key_ascending. vm_compute.
    repeat constructor.
  - vm_compute. reflexivity.
Defined.

(** C2 (as stated) fails on a tie: with NumPy's insertion sort, of two
    classes with the score 0.5, class 1 is returned before class 0. *)
Lemma rank_tie_not_lower_index_first :
  let w := sample_world None [] in
  let raw := [Fin (1 # 2); Fin (1 # 2)] in
  np_argsort w raw = [0; 1]
  /\ litemodel.postprocess w default_settings ["cat"; "dog"] raw
     = inr [mk_prediction "dog" (Fin (1 # 2));
            mk_prediction "cat" (Fin (1 # 2))]
  /\ kept_indices w default_settings raw = [1; 0]
  /\ ~ lower_index_first raw (kept_indices w default_settings raw).
Proof.
  intros w raw.
  split; [vm_compute; reflexivity |].
  split; [vm_compute; reflexivity |].
  split; [vm_compute; reflexivity |].
  intros H. vm_compute in H.
  inversion H as [| ? ? _ Hhd]; subst.
  inversion Hhd as [| ? ? H10 _]; subst.
  specialize (H10 eq_refl). lia.
Qed.

(* ================================================================== *)
(** * The [/predict] route, stage by stage *)
(* ================================================================== *)

Section Route.

Variable w : World.
Variable settings : Settings.
Variable model_predictor : litemodel.ModelPredictor.
Variable file : main.UploadFile.

Lemma predict_invalid_extension :
  set_mem (lower (suffix (main.filename file))) (allowed_extensions settings)
  = false ->
  main.predict w settings model_predictor file
  = ([], inl (main.HTTPException 400
                (String.append "Invalid file type. Allowed: "
                   (repr_set w (allowed_extensions settings))))).
Proof.
  intros Hext. unfold main.predict, main.predict_body.
  now rewrite Hext.
Qed.

Lemma predict_too_large :
  set_mem (lower (suffix (main.filename file))) (allowed_extensions settings)
  = true ->
  (Z.of_nat (List.length (main.contents file)) > max_upload_size settings)%Z ->
  main.predict w settings model_predictor file
  = ([main.FileRead],
     inl (main.HTTPException 413
            (String.append "File too large. Max size: "
               (String.append (repr_megabytes w (max_upload_size settings))
                  "MB")))).
Proof.
  intros Hext Hsize. unfold main.predict, main.predict_body.
  rewrite Hext. simpl.
  apply Z.gtb_gt in Hsize. now rewrite Hsize.
Qed.

Lemma predict_bad_image (e : PyError) :
  set_mem (lower (suffix (main.filename file))) (allowed_extensions settings)
  = true ->
  (Z.of_nat (List.length (main.contents file)) <= max_upload_size settings)%Z ->
  main.load_image w (main.contents file) = inl e ->
  main.predict w settings model_predictor file
  = ([main.FileRead; main.ImageDecode],
     inl (main.HTTPException 400
            (String.append "Invalid image file: " (err_msg e)))).
Proof.
  intros Hext Hsize Himg. unfold main.predict, main.predict_body.
  rewrite Hext. simpl.
  destruct (Z.gtb_spec (Z.of_nat (List.length (main.contents file)))
              (max_upload_size settings)); [lia |].
  now rewrite Himg.
Qed.

Lemma predict_model_error (image : Image) (e : PyError) :
  set_mem (lower (suffix (main.filename file))) (allowed_extensions settings)
  = true ->
  (Z.of_nat (List.length (main.contents file)) <= max_upload_size settings)%Z ->
  main.load_image w (main.contents file) = inr image ->
  fst (litemodel.predict w settings image model_predictor) = inl e ->
  main.predict w settings model_predictor file
  = ([main.FileRead; main.ImageDecode; main.ModelPredict],
     inl (main.HTTPException 500 (err_msg e))).
Proof.
  intros Hext Hsize Himg Hmodel. unfold main.predict, main.predict_body.
  rewrite Hext. simpl.
  destruct (Z.gtb_spec (Z.of_nat (List.length (main.contents file)))
              (max_upload_size settings)); [lia |].
  now rewrite Himg, Hmodel.
Qed.

Lemma predict_success (image : Image) (predictions : list PredictionResult)
    (inference_time : float) :
  set_mem (lower (suffix (main.filename file))) (allowed_extensions settings)
  = true ->
  (Z.of_nat (List.length (main.contents file)) <= max_upload_size settings)%Z ->
  main.load_image w (main.contents file) = inr image ->
  fst (litemodel.predict w settings image model_predictor)
  = inr (predictions, inference_time) ->
  main.predict w settings model_predictor file
  = ([main.FileRead; main.ImageDecode; main.ModelPredict],
     inr (mk_response true predictions "yolo11l-cls"
            (py_round inference_time 2))).
Proof.
  intros Hext Hsize Himg Hmodel. unfold main.predict, main.predict_body.
  rewrite Hext. simpl.
  destruct (Z.gtb_spec (Z.of_nat (List.length (main.contents file)))
              (max_upload_size settings)); [lia |].
  now rewrite Himg, Hmodel.
Qed.

(** The five outcomes above are the only ones. *)
Lemma predict_cases :
  (set_mem (lower (suffix (main.filename file))) (allowed_extensions settings)
   = false)
  \/ (set_mem (lower (suffix (main.filename file)))
        (allowed_extensions settings) = true
      /\ (Z.of_nat (List.length (main.contents file))
          > max_upload_size settings)%Z)
  \/ (set_mem (lower (suffix (main.filename file)))
        (allowed_extensions settings) = true
      /\ (Z.of_nat (List.length (main.contents file))
          <= max_upload_size settings)%Z
      /\ ((exists e, main.load_image w (main.contents file) = inl e)
          \/ (exists image,
                main.load_image w (main.contents file) = inr image
                /\ ((exists e,
                       fst (litemodel.predict w settings image model_predictor)
                       = inl e)
                    \/ (exists predictions inference_time,
                          fst (litemodel.predict w settings image
                                 model_predictor)
                          = inr (predictions, inference_time)))))).
Proof.
  destruct (set_mem (lower (suffix (main.filename file)))
              (allowed_extensions settings)); [right | now left].
  destruct (Z_gt_le_dec (Z.of_nat (List.length (main.contents file)))
              (max_upload_size settings)) as [Hgt | Hle]; [now left | right].
  repeat split; try assumption.
  destruct (main.load_image w (main.contents file)) as [e | image];
    [left; eauto | right].
  exists image. split; [reflexivity |].
  destruct (fst (litemodel.predict w settings image model_predictor))
    as [e | [predictions inference_time]]; [left | right]; eauto.
Qed.

End Route.

(** C4: the stages of [predict] run in order and stop at the first failure.
    When the lowered extension is not in the allowed set the request fails
    with status 400 before the upload is read, whatever its size; otherwise,
    when the upload is longer than the maximum, it fails with status 413
    after the read and before any decoding. *)
Theorem predict_validates_in_order (w : World) (settings : Settings)
    (model_predictor : litemodel.ModelPredictor) (file : main.UploadFile) :
  (set_mem (lower (suffix (main.filename file))) (allowed_extensions settings)
   = false ->
   main.predict w settings model_predictor file
   = ([], inl (main.HTTPException 400
                 (String.append "Invalid file type. Allowed: "
                    (repr_set w (allowed_extensions settings)))))
   /\ main.status (main.post_predict w settings model_predictor file) = 400%Z)
  /\ (set_mem (lower (suffix (main.filename file)))
         (allowed_extensions settings) = true ->
      (Z.of_nat (List.length (main.contents file))
       > max_upload_size settings)%Z ->
      main.predict w settings model_predictor file
      = ([main.FileRead],
         inl (main.HTTPException 413
                (String.append "File too large. Max size: "
                   (String.append
                      (repr_megabytes w (max_upload_size settings)) "MB"))))
      /\ main.status (main.post_predict w settings model_predictor file)
         = 413%Z)
  /\ (set_mem (lower (suffix (main.filename file)))
         (allowed_extensions settings) = false ->
      (Z.of_nat (List.length (main.contents file))
       > max_upload_size settings)%Z ->
      main.status (main.post_predict w settings model_predictor file)
      = 400%Z).
Proof.
  split; [| split].
  - intros Hext. unfold main.post_predict.
    rewrite predict_invalid_extension by assumption. split; reflexivity.
  - intros Hext Hsize. unfold main.post_predict.
    rewrite predict_too_large by assumption. split; reflexivity.
  - intros Hext _. unfold main.post_predict.
    now rewrite predict_invalid_extension by assumption.
Qed.

Lemma predict_validates_in_order_witness :
  let w := sample_world None [] in
  let mp := loaded_predictor None [] in
  (main.predict w small_upload_settings mp
     (main.mk_upload "notes.TXT" [x01; x02; x03; x04; x05])
   = ([], inl (main.HTTPException 400
                 "Invalid file type. Allowed: .jpg, .jpeg, .png, .webp"))
   /\ main.status
        (main.post_predict w small_upload_settings mp
           (main.mk_upload "notes.TXT" [x01; x02; x03; x04; x05])) = 400%Z)
  /\ (main.predict w small_upload_settings mp
        (main.mk_upload "photo.PNG" [x01; x02; x03; x04; x05])
      = ([main.FileRead],
         inl (main.HTTPException 413 "File too large. Max size: 10.0MB"))
      /\ main.status
           (main.post_predict w small_upload_settings mp
              (main.mk_upload "photo.PNG" [x01; x02; x03; x04; x05]))
         = 413%Z).
Proof.
  intros w mp. split.
  - apply (proj1 (predict_validates_in_order w small_upload_settings mp
                    (main.mk_upload "notes.TXT" [x01; x02; x03; x04; x05]))).
    reflexivity.
  - apply (proj1 (proj2 (predict_validates_in_order w small_upload_settings mp
                    (main.mk_upload "photo.PNG" [x01; x02; x03; x04; x05])))).
    + reflexivity.
    + simpl. lia.
Defined.

(** C10: an upload whose file name has no suffix fails with status 400 as
    soon as the empty string is not an allowed extension, which is the case
    of the default set; the upload is neither read nor decoded. *)
Theorem predict_rejects_missing_extension (w : World) (settings : Settings)
    (model_predictor : litemodel.ModelPredictor) (file : main.UploadFile) :
  suffix (main.filename file) = "" ->
  set_mem "" (allowed_extensions settings) = false ->
  main.predict w settings model_predictor file
  = ([], inl (main.HTTPException 400
                (String.append "Invalid file type. Allowed: "
                   (repr_set w (allowed_extensions settings)))))
  /\ main.status (main.post_predict w settings model_predictor file) = 400%Z
  /\ set_mem "" (allowed_extensions default_settings) = false.
Proof.
  intros Hsuffix Hempty.
  assert (Hext : set_mem (lower (suffix (main.filename file)))
                   (allowed_extensions settings) = false).
  { rewrite Hsuffix. exact Hempty. }
  unfold main.post_predict.
  rewrite predict_invalid_extension by assumption.
  repeat split.
Qed.

Lemma predict_rejects_missing_extension_witness :
  let w := sample_world None [] in
  let mp := loaded_predictor None [] in
  let file := main.mk_upload "uploads/README" [x01; x02] in
  main.predict w default_settings mp file
  = ([], inl (main.HTTPException 400
                "Invalid file type. Allowed: .jpg, .jpeg, .png, .webp"))
  /\ main.status (main.post_predict w default_settings mp file) = 400%Z
  /\ set_mem "" (allowed_extensions default_settings) = false.
Proof.
  intros w mp file.
  apply (predict_rejects_missing_extension w default_settings mp file);
    reflexivity.
Defined.

(* ================================================================== *)
(** * The model session *)
(* ================================================================== *)

Lemma is_loaded_eq (self : litemodel.ModelPredictor) :
  litemodel.is_loaded self
  = (inr (litemodel._model_loaded self &&
          match litemodel._session self with
          | Some _ => true
          | None => false
          end), self).
Proof. reflexivity. Qed.

(** [preprocess] assigns no attribute. *)
Lemma preprocess_reads_only (w : World) (image : Image)
    (self : litemodel.ModelPredictor) :
  snd (litemodel.preprocess w image self) = self.
Proof.
  unfold litemodel.preprocess, litemodel.bind, litemodel.call, litemodel.lift,
    litemodel.get, litemodel.ret, litemodel.raise.
  destruct (negb (mode image =? "RGB")%string).
  - destruct (from_foreign (Image_convert w image "RGB")); simpl;
      [reflexivity |].
    destruct (from_foreign (Image_resize w i _)); simpl; [reflexivity |].
    destruct (transpose_2_0_1 _); reflexivity.
  - simpl.
    destruct (from_foreign (Image_resize w image _)); simpl; [reflexivity |].
    destruct (transpose_2_0_1 _); reflexivity.
Qed.

(** [predict] assigns no attribute. *)
Lemma predict_reads_only (w : World) (settings : Settings) (image : Image)
    (self : litemodel.ModelPredictor) :
  snd (litemodel.predict w settings image self) = self.
Proof.
  unfold litemodel.predict. unfold litemodel.bind at 1.
  rewrite is_loaded_eq.
  destruct (negb _); [reflexivity |].
  unfold litemodel.bind at 1.
  pose proof (preprocess_reads_only w image self) as Hpre.
  destruct (litemodel.preprocess w image self) as [[e | input_data] self'];
    simpl in Hpre; subst self'; [reflexivity |].
  unfold litemodel.bind at 1, litemodel.get at 1.
  destruct (litemodel._session self) as [session |]; [| reflexivity].
  unfold litemodel.bind, litemodel.get, litemodel.call, litemodel.lift,
    litemodel.index, litemodel.ret, litemodel.raise.
  destruct (from_foreign (run session _ input_data)) as [e | outputs];
    [reflexivity |].
  destruct (nth_error outputs 0) as [output0 |]; [| reflexivity].
  destruct (nth_error output0 0) as [predictions_raw |]; [| reflexivity].
  destruct (litemodel.postprocess w settings _ predictions_raw); reflexivity.
Qed.

Lemma get_model_info_reads_only (self : litemodel.ModelPredictor) :
  snd (litemodel.get_model_info self) = self.
Proof.
  unfold litemodel.get_model_info. unfold litemodel.bind at 1.
  rewrite is_loaded_eq. destruct (negb _); reflexivity.
Qed.

(** Before the guard lets it through, [predict] raises
    [RuntimeError("Model not loaded")]. *)
Lemma predict_not_loaded (w : World) (settings : Settings) (image : Image)
    (self : litemodel.ModelPredictor) :
  fst (litemodel.is_loaded self) = inr false ->
  litemodel.predict w settings image self = (inl NotLoadedError, self).
Proof.
  rewrite is_loaded_eq. simpl. intros H. injection H as H.
  unfold litemodel.predict. unfold litemodel.bind at 1.
  rewrite is_loaded_eq, H. reflexivity.
Qed.

Lemma format_predictions_error_class (w : World) (settings : Settings)
    (class_names : list string) (predictions_raw : list float)
    (idxs : list nat) :
  forall (acc : list PredictionResult) (e : PyError),
    litemodel.format_predictions w settings class_names predictions_raw
      idxs acc = inl e ->
    err_class e = ValidationError \/ err_class e = IndexError.
Proof.
  induction idxs as [| idx rest IH]; simpl; intros acc e H; [discriminate |].
  destruct (nth_error predictions_raw idx) as [c |];
    [| inversion H; subst; now right].
  destruct (fge _ _); [| now apply IH in H].
  unfold new_PredictionResult in H.
  destruct (valid_confidence _); [now apply IH in H |].
  inversion H. now left.
Qed.

Lemma from_foreign_error_class {A : Type} (r : foreign A) (e : PyError) :
  from_foreign r = inl e -> exists cls, err_class e = External cls.
Proof.
  destruct r as [[cls msg] | a]; simpl; intros H; inversion H; subst.
  now exists cls.
Qed.

(** Past the guard, nothing [predict] raises is a [RuntimeError]. *)
Lemma predict_loaded_error_class (w : World) (settings : Settings)
    (image : Image) (self : litemodel.ModelPredictor) (e : PyError) :
  fst (litemodel.is_loaded self) = inr true ->
  fst (litemodel.predict w settings image self) = inl e ->
  err_class e <> RuntimeError.
Proof.
  destruct self as [inst [session |] names input_name height width [|]];
    try discriminate.
  intros _.
  unfold litemodel.predict, litemodel.is_loaded, litemodel.preprocess,
    litemodel.bind, litemodel.call, litemodel.lift, litemodel.get,
    litemodel.index, litemodel.ret, litemodel.raise.
  cbn [litemodel._model_loaded litemodel._session litemodel._input_width
       litemodel._input_height litemodel._input_name litemodel._class_names
       andb negb fst snd].
  repeat
    match goal with
    | |- context [from_foreign ?r] =>
        let E := fresh "E" in
        destruct (from_foreign r) eqn:E;
        [apply from_foreign_error_class in E as [? E] |]
    | |- context [if ?b then _ else _] => destruct b
    | |- context [match ?x with Some _ => _ | None => _ end] => destruct x
    | |- context [litemodel.postprocess ?a ?b ?c ?d] =>
        let E := fresh "E" in
        destruct (litemodel.postprocess a b c d) eqn:E;
        [apply format_predictions_error_class in E |]
    | |- _ => progress cbn [fst snd]
    end;
    intros H; inversion H; subst; simpl;
    try match goal with
        | Hc : _ \/ _ |- _ => destruct Hc as [Hc | Hc]; rewrite Hc
        end;
    congruence.
Qed.

Ltac unfold_methods :=
  unfold litemodel.new_ModelPredictor, litemodel._load_model,
    litemodel.get_model_info, litemodel.is_loaded, litemodel.bind,
    litemodel.call, litemodel.lift, litemodel.get, litemodel.set,
    litemodel.index, litemodel.ret, litemodel.raise in *.

(** When every step of [_load_model] succeeds it returns, with the session,
    the input name and shape and the labels assigned and the flag set. *)
Lemma load_model_success (w : World) (settings : Settings)
    (self : litemodel.ModelPredictor) (session : InferenceSession)
    (input0 : NodeArg) (others : list NodeArg) (dim2 dim3 : Dim)
    (names : list string) :
  path_exists w (model_path settings) = true ->
  ort_InferenceSession w (model_path settings) = inr session ->
  get_inputs session = input0 :: others ->
  nth_error (node_shape input0) 2 = Some dim2 ->
  nth_error (node_shape input0) 3 = Some dim3 ->
  load_labels w settings = inr names ->
  litemodel._load_model w settings self
  = (inr tt,
     litemodel.mk_predictor (litemodel._instance self) (Some session) names
       (name input0) (litemodel.fixed_or_224 dim2)
       (litemodel.fixed_or_224 dim3) true).
Proof.
  intros Hpath Hsess Hin H2 H3 Hlab.
  unfold load_labels in Hlab. unfold_methods.
  rewrite Hpath, Hsess. cbn [negb from_foreign]. rewrite Hin.
  cbn [nth_error].
  destruct (node_shape input0) as [| d0 [| d1 [| d2 [| d3 ds]]]];
    try discriminate.
  injection H2 as ->. injection H3 as ->. cbn.
  destruct (path_exists w (class_names_path settings)).
  - destruct (from_foreign (readlines w (class_names_path settings)));
      [discriminate |].
    injection Hlab as <-. reflexivity.
  - injection Hlab as <-. reflexivity.
Qed.

(** [_load_model] sets the flag exactly when it returns, and it returns
    only when every step has succeeded. *)
Lemma load_model_inversion (w : World) (settings : Settings)
    (self : litemodel.ModelPredictor) :
  litemodel._model_loaded self = false ->
  (litemodel._model_loaded (snd (litemodel._load_model w settings self)) = true
   <-> fst (litemodel._load_model w settings self) = inr tt)
  /\ (fst (litemodel._load_model w settings self) = inr tt ->
      exists session input0 others dim2 dim3 names,
        path_exists w (model_path settings) = true
        /\ ort_InferenceSession w (model_path settings) = inr session
        /\ get_inputs session = input0 :: others
        /\ nth_error (node_shape input0) 2 = Some dim2
        /\ nth_error (node_shape input0) 3 = Some dim3
        /\ load_labels w settings = inr names).
Proof.
  intros Hflag. unfold load_labels. unfold_methods.
  destruct (path_exists w (model_path settings)) eqn:Hpath; simpl;
    [| split; [split |]; intros; congruence].
  destruct (ort_InferenceSession w (model_path settings))
    as [[cls msg] | session] eqn:Hsess; simpl;
    [split; [split |]; intros; congruence |].
  destruct (get_inputs session) as [| input0 others] eqn:Hin; simpl;
    [split; [split |]; intros; congruence |].
  destruct (node_shape input0) as [| d0 [| d1 [| dim2 [| dim3 ds]]]] eqn:Hshape;
    simpl; try (split; [split |]; intros; congruence).
  destruct (path_exists w (class_names_path settings)) eqn:Hlab; simpl.
  - destruct (readlines w (class_names_path settings))
      as [[cls msg] | lines] eqn:Hlines; simpl;
      [split; [split |]; intros; congruence |].
    split; [split; reflexivity |].
    intros _. exists session, input0, others, dim2, dim3, (map strip lines).
    repeat split;
      first [assumption | reflexivity | rewrite Hshape; reflexivity
                       | rewrite ?Hlab, ?Hlines; reflexivity].
  - split; [split; reflexivity |].
    intros _. exists session, input0, others, dim2, dim3, [].
    repeat split;
      first [assumption | reflexivity | rewrite Hshape; reflexivity
                       | rewrite ?Hlab, ?Hlines; reflexivity].
Qed.

(** Once the flag is set no call changes the session. *)
Lemma step_keeps_session (op : litemodel.operation)
    (self : litemodel.ModelPredictor) :
  litemodel._model_loaded self = true ->
  same_session (litemodel.step op self) self.
Proof.
  intros Hflag. destruct op as [w settings | | w settings image |]; simpl.
  - unfold litemodel.new_ModelPredictor, litemodel.bind, litemodel.set,
      litemodel.get, litemodel.ret.
    destruct (litemodel._instance self) eqn:Hinst; simpl; rewrite Hflag;
      simpl; repeat split; reflexivity.
  - repeat split; reflexivity.
  - rewrite predict_reads_only. repeat split; reflexivity.
  - rewrite get_model_info_reads_only. repeat split; reflexivity.
Qed.

Lemma steps_keep_session (ops : list litemodel.operation) :
  forall self : litemodel.ModelPredictor,
    litemodel._model_loaded self = true ->
    same_session (litemodel.steps ops self) self.
Proof.
  induction ops as [| op ops IH]; intros self Hflag.
  - repeat split; reflexivity.
  - change (litemodel.steps (op :: ops) self)
      with (litemodel.steps ops (litemodel.step op self)).
    pose proof (step_keeps_session op self Hflag) as Hstep.
    assert (Hflag' : litemodel._model_loaded (litemodel.step op self) = true).
    { destruct Hstep as (_ & _ & _ & _ & _ & ->). exact Hflag. }
    specialize (IH _ Hflag').
    unfold same_session in *.
    destruct IH as (I1 & I2 & I3 & I4 & I5 & I6).
    destruct Hstep as (S1 & S2 & S3 & S4 & S5 & S6).
    repeat split; etransitivity; eassumption.
Qed.




(** [lstrip] removes a prefix of whitespace characters and stops at the
    first character that is not whitespace. *)
Lemma lstrip_spec (chars : list string) :
  exists pre : list string,
    chars = pre ++ lstrip chars
    /\ Forall (fun ch => isspace ch = true) pre
    /\ (forall ch : string,
          hd_error (lstrip chars) = Some ch -> isspace ch = false).
Proof.
  induction chars as [| ch rest IH]; simpl.
  - exists []. split; [reflexivity |]. split; [constructor | discriminate].
  - destruct (isspace ch) eqn:E.
    + destruct IH as (pre & Heq & Hpre & Hhd).
      exists (ch :: pre). split; [simpl; now f_equal |].
      split; [now constructor | exact Hhd].
    + exists []. split; [reflexivity |]. split; [constructor |].
      intros c Hc. injection Hc as <-. exact E.
Qed.

(** [strip] removes the whitespace at the two ends and nothing else. *)
Lemma strip_trimmed (line : string) : trimmed line (strip line).
Proof.
  unfold trimmed, strip.
  destruct (lstrip_spec (characters line)) as (pre & Hline & Hpre & Hhd).
  destruct (lstrip_spec (rev (lstrip (characters line))))
    as (post & Hrev & Hpost & Hlast).
  remember (lstrip (rev (lstrip (characters line)))) as r eqn:Hr.
  assert (Hmid : lstrip (characters line) = rev r ++ rev post).
  { rewrite <- rev_app_distr, <- Hrev. now rewrite rev_involutive. }
  exists pre, (rev r), (rev post).
  split; [now rewrite <- Hmid |].
  split; [reflexivity |].
  split; [exact Hpre |].
  split; [now apply Forall_rev |].
  split.
  - intros ch Hch. apply Hhd. rewrite Hmid.
    destruct (rev r); [discriminate | exact Hch].
  - intros ch Hch. rewrite rev_involutive in Hch. now apply Hlast.
Qed.

Lemma strip_lines_trimmed (lines : list string) :
  Forall2 trimmed lines (map strip lines).
Proof.
  induction lines as [| line lines IH]; simpl; constructor;
    [apply strip_trimmed | exact IH].
Qed.

(** C7: when the model artifact loads, a missing label file is not an
    error: [_load_model] returns with the flag set and no label, and every
    prediction is then labelled with the decimal form of its class index;
    when the label file exists its lines become the labels, one label per
    line and in order, each the line without the whitespace characters (in
    Python's sense, the Unicode ones included) at its two ends. *)
Theorem load_without_label_file (w : World) (settings : Settings)
    (self : litemodel.ModelPredictor) (session : InferenceSession)
    (input0 : NodeArg) (others : list NodeArg) (dim2 dim3 : Dim) :
  path_exists w (model_path settings) = true ->
  ort_InferenceSession w (model_path settings) = inr session ->
  get_inputs session = input0 :: others ->
  nth_error (node_shape input0) 2 = Some dim2 ->
  nth_error (node_shape input0) 3 = Some dim3 ->
  (path_exists w (class_names_path settings) = false ->
   fst (litemodel._load_model w settings self) = inr tt
   /\ litemodel._model_loaded (snd (litemodel._load_model w settings self))
      = true
   /\ litemodel._class_names (snd (litemodel._load_model w settings self))
      = []
   /\ (forall (w' : World) (settings' : Settings)
         (predictions_raw : list float) (preds : list PredictionResult),
         litemodel.postprocess w' settings'
           (litemodel._class_names
              (snd (litemodel._load_model w settings self)))
           predictions_raw = inr preds ->
         map class_name preds
         = map str_of_index (kept_indices w' settings' predictions_raw)))
  /\ (forall lines : list string,
        path_exists w (class_names_path settings) = true ->
        readlines w (class_names_path settings) = inr lines ->
        fst (litemodel._load_model w settings self) = inr tt
        /\ litemodel._model_loaded
             (snd (litemodel._load_model w settings self)) = true
        /\ litemodel._class_names
             (snd (litemodel._load_model w settings self))
           = map strip lines
        /\ Forall2 trimmed lines
             (litemodel._class_names
                (snd (litemodel._load_model w settings self)))).
Proof.
  intros Hpath Hsess Hin H2 H3. split.
  - intros Habsent.
    rewrite (load_model_success w settings self session input0 others
               dim2 dim3 []); try assumption.
    + repeat split. simpl. intros w' settings' predictions_raw preds Hret.
      apply postprocess_inr in Hret as [-> _].
      rewrite map_map. apply map_ext. intros idx.
      unfold result_of, litemodel.label_of. simpl.
      now destruct idx.
    + unfold load_labels. now rewrite Habsent.
  - intros lines Hpresent Hlines.
    rewrite (load_model_success w settings self session input0 others
               dim2 dim3 (map strip lines)); try assumption.
    + split; [reflexivity |]. split; [reflexivity |].
      split; [reflexivity |]. simpl. apply strip_lines_trimmed.
    + unfold load_labels. now rewrite Hpresent, Hlines.
Qed.

Lemma load_without_label_file_witness :
  let w := sample_world None [Fin (9 # 10)] in
  let w' := sample_world (Some unicode_label_lines) [Fin (9 # 10)] in
  (fst (litemodel._load_model w default_settings litemodel.class_defaults)
   = inr tt
   /\ litemodel._class_names
        (snd (litemodel._load_model w default_settings
                litemodel.class_defaults)) = []
   /\ litemodel.postprocess w default_settings
        (litemodel._class_names
           (snd (litemodel._load_model w default_settings
                   litemodel.class_defaults)))
        [Fin (1 # 10); Fin (9 # 10)]
      = inr [mk_prediction "1" (Fin (9 # 10))])
  /\ litemodel._class_names
       (snd (litemodel._load_model w' default_settings
               litemodel.class_defaults))
     = ["tench, Tinca tinca"; "goldfish"; "great white shark"].
Proof.
  intros w w'. split.
  - destruct (load_without_label_file w default_settings
                litemodel.class_defaults
                (sample_session [Fin (9 # 10)])
                (mk_node_arg "images"
                   [DimStr "batch"; DimInt 3; DimInt 2; DimInt 2])
                [] (DimInt 2) (DimInt 2)
                eq_refl eq_refl eq_refl eq_refl eq_refl) as [Habsent _].
    destruct (Habsent eq_refl) as (Hret & _ & Hnames & Hlabels).
    split; [exact Hret |]. split; [exact Hnames |].
    vm_compute. reflexivity.
  - destruct (load_without_label_file w' default_settings
                litemodel.class_defaults
                (sample_session [Fin (9 # 10)])
                (mk_node_arg "images"
                   [DimStr "batch"; DimInt 3; DimInt 2; DimInt 2])
                [] (DimInt 2) (DimInt 2)
                eq_refl eq_refl eq_refl eq_refl eq_refl) as [_ Hpresent].
    destruct (Hpresent _ eq_refl eq_refl) as (_ & _ & Hnames & _).
    exact Hnames.
Defined.

(** C8: [predict] raises [RuntimeError("Model not loaded")], leaving the
    session untouched, whenever the flag is false or the session handle is
    absent; it never raises it when [is_loaded] holds, and [is_loaded] holds
    after a successful [_load_model] and after any later sequence of
    calls. *)
Theorem predict_not_loaded_error (w : World) (settings : Settings)
    (image : Image) (self : litemodel.ModelPredictor) :
  (litemodel._model_loaded self = false \/ litemodel._session self = None ->
   litemodel.predict w settings image self = (inl NotLoadedError, self))
  /\ (fst (litemodel.is_loaded self) = inr true ->
      fst (litemodel.predict w settings image self) <> inl NotLoadedError)
  /\ (forall (w0 : World) (settings0 : Settings)
        (ops : list litemodel.operation),
        fst (litemodel._load_model w0 settings0 self) = inr tt ->
        fst (litemodel.is_loaded
               (litemodel.steps ops
                  (snd (litemodel._load_model w0 settings0 self))))
        = inr true).
Proof.
  split; [| split].
  - intros Hnot. apply predict_not_loaded. rewrite is_loaded_eq. simpl.
    destruct Hnot as [-> | ->]; [reflexivity |].
    now rewrite andb_false_r.
  - intros Hloaded Hraise.
    apply (predict_loaded_error_class w settings image self NotLoadedError
             Hloaded Hraise).
    reflexivity.
  - intros w0 settings0 ops Hret.
    assert (Hstate :
      litemodel._model_loaded (snd (litemodel._load_model w0 settings0 self))
      = true
      /\ exists session,
           litemodel._session (snd (litemodel._load_model w0 settings0 self))
           = Some session).
    { revert Hret. unfold_methods.
      destruct (path_exists w0 (model_path settings0)); simpl;
        [| discriminate].
      destruct (ort_InferenceSession w0 (model_path settings0))
        as [[cls msg] | session]; simpl; [discriminate |].
      destruct (get_inputs session) as [| input0 others]; simpl;
        [discriminate |].
      destruct (node_shape input0) as [| d0 [| d1 [| dim2 [| dim3 ds]]]];
        simpl; try discriminate.
      destruct (path_exists w0 (class_names_path settings0)); simpl.
      - destruct (readlines w0 (class_names_path settings0))
          as [[cls msg] | lines]; simpl; [discriminate |].
        intros _. split; [reflexivity | now exists session].
      - intros _. split; [reflexivity | now exists session]. }
    destruct Hstate as [Hflag [session Hsession]].
    destruct (steps_keep_session ops _ Hflag) as (Hs & _ & _ & _ & _ & Hl).
    rewrite is_loaded_eq. simpl. now rewrite Hl, Hs, Hflag, Hsession.
Qed.

Lemma predict_not_loaded_error_witness :
  litemodel.predict (sample_world None [Fin (9 # 10)]) default_settings
    sample_image litemodel.class_defaults
  = (inl NotLoadedError, litemodel.class_defaults)
  /\ fst (litemodel.predict (sample_world None [Fin (9 # 10)])
            default_settings sample_image
            (loaded_predictor None [Fin (9 # 10)]))
     <> inl NotLoadedError.
Proof.
  split.
  - apply (proj1 (predict_not_loaded_error (sample_world None [Fin (9 # 10)])
                    default_settings sample_image litemodel.class_defaults)).
    left. reflexivity.
  - apply (proj1 (proj2 (predict_not_loaded_error
                           (sample_world None [Fin (9 # 10)])
                           default_settings sample_image
                           (loaded_predictor None [Fin (9 # 10)])))).
    reflexivity.
Defined.

(* ================================================================== *)
(** * The preprocessing geometry *)
(* ================================================================== *)

Lemma flat_map_length_blocks {A : Type} (f : nat -> list A) (n : nat)
    (l : list nat) :
  (forall i, List.length (f i) = n) ->
  List.length (flat_map f l) = List.length l * n.
Proof.
  intros Hf. induction l as [| i l IH]; simpl; [reflexivity |].
  rewrite length_app, Hf, IH. reflexivity.
Qed.

(** Element [i * n + j] of the concatenation of blocks of length [n] is
    element [j] of block [i]. *)
Lemma nth_flat_map_blocks {A : Type} (f : nat -> list A) (n : nat) (d : A) :
  (forall i, List.length (f i) = n) ->
  forall m i j : nat,
    i < m -> j < n ->
    nth (i * n + j) (flat_map f (seq 0 m)) d = nth j (f i) d.
Proof.
  intros Hf. induction m as [| m IH]; intros i j Hi Hj; [lia |].
  rewrite seq_S, flat_map_app. simpl.
  pose proof (flat_map_length_blocks f n (seq 0 m) Hf) as Hlen.
  rewrite length_seq in Hlen.
  destruct (Nat.eq_dec i m) as [-> | Hne].
  - rewrite app_nth2 by lia. rewrite Hlen.
    replace (m * n + j - m * n) with j by lia.
    now rewrite app_nil_r.
  - rewrite app_nth1 by nia. apply IH; lia.
Qed.

Lemma nth_map_seq {A : Type} (g : nat -> A) (n x : nat) (d : A) :
  x < n -> nth x (map g (seq 0 n)) d = g x.
Proof.
  intros Hx. rewrite (nth_indep _ d (g 0)) by now rewrite length_map, length_seq.
  rewrite (map_nth g (seq 0 n) 0 x). now rewrite seq_nth.
Qed.

(** A sample divided by 255 lies in the unit interval. *)
Lemma sample_in_unit_interval (b : byte) :
  fle (Fin 0) (np_divide (litemodel.float_of_byte b) 255) = true
  /\ fle (np_divide (litemodel.float_of_byte b) 255) (Fin 1) = true.
Proof. destruct b; vm_compute; split; reflexivity. Qed.

Section Transpose.

Variable a : ndarray.
Variables d0 d1 d2 : nat.
Hypothesis Hshape : shape a = [d0; d1; d2].
Hypothesis Hdata : List.length (data a) = d0 * d1 * d2.

Lemma transpose_shape :
  exists t : ndarray,
    transpose_2_0_1 a = Some t
    /\ shape t = [d2; d0; d1]
    /\ List.length (data t) = d2 * d0 * d1.
Proof.
  unfold transpose_2_0_1. rewrite Hshape.
  eexists. split; [reflexivity |]. split; [reflexivity |]. simpl.
  rewrite (flat_map_length_blocks _ (d0 * d1)), length_seq; [lia |].
  intros c. rewrite (flat_map_length_blocks _ d1), length_seq; [lia |].
  intros h. now rewrite length_map, length_seq.
Qed.

Lemma transpose_item (t : ndarray) (c h x : nat) :
  transpose_2_0_1 a = Some t ->
  c < d2 -> h < d0 -> x < d1 ->
  item (data t) ((c * d0 + h) * d1 + x)
  = item (data a) ((h * d1 + x) * d2 + c).
Proof.
  unfold transpose_2_0_1. rewrite Hshape. intros Ht Hc Hh Hx.
  injection Ht as <-. simpl. unfold item at 1.
  replace ((c * d0 + h) * d1 + x) with (c * (d0 * d1) + (h * d1 + x)) by lia.
  rewrite (nth_flat_map_blocks _ (d0 * d1)); try assumption; [| | nia].
  - rewrite (nth_flat_map_blocks _ d1); try assumption.
    + now rewrite nth_map_seq.
    + intros i. now rewrite length_map, length_seq.
  - intros i. rewrite (flat_map_length_blocks _ d1), length_seq; [lia |].
    intros j. now rewrite length_map, length_seq.
Qed.

(** Every element of the transposed array is an element of the array. *)
Lemma transpose_elements (t : ndarray) (P : float -> Prop) :
  transpose_2_0_1 a = Some t ->
  Forall P (data a) -> Forall P (data t).
Proof.
  unfold transpose_2_0_1. rewrite Hshape. intros Ht HP.
  injection Ht as <-. simpl.
  apply Forall_flat_map, Forall_forall. intros c Hc.
  apply Forall_flat_map, Forall_forall. intros h Hh.
  apply Forall_map, Forall_forall. intros x Hx.
  apply in_seq in Hc, Hh, Hx.
  rewrite Forall_forall in HP. apply HP. unfold item. apply nth_In.
  rewrite Hdata.
  assert (Hrow : h * d1 + x < d0 * d1) by nia.
  revert Hrow. generalize (h * d1 + x), (d0 * d1). intros k m Hk. nia.
Qed.

End Transpose.

Lemma np_array_rgb (image : Image) (H W : nat) :
  size image = (W, H) -> bands image = 3 ->
  litemodel.np_array_float32 image
  = mk_ndarray [H; W; 3] (map litemodel.float_of_byte (samples image)).
Proof.
  intros Hsize Hbands. unfold litemodel.np_array_float32.
  now rewrite Hsize, Hbands.
Qed.

Lemma item_normalized (image : Image) (k : nat) :
  k < List.length (samples image) ->
  item (map (fun x => np_divide x 255)
          (map litemodel.float_of_byte (samples image))) k
  = np_divide (litemodel.float_of_byte (nth k (samples image) x00)) 255.
Proof.
  intros Hk. unfold item. rewrite map_map.
  rewrite (nth_indep _ NaN
             (np_divide (litemodel.float_of_byte x00) 255))
    by now rewrite length_map.
  apply (map_nth (fun b => np_divide (litemodel.float_of_byte b) 255)).
Qed.

(** Among the multiples of [s], one within half of [s] from [q] is nearest
    to [q]. *)
Lemma nearest_multiple (s q : Q) (m k : Z) :
  (0 < s)%Q ->
  (Qabs (inject_Z m * s - q) * 2 <= s)%Q ->
  (Qabs (inject_Z m * s - q) <= Qabs (inject_Z k * s - q))%Q.
Proof.
  intros Hs Hhalf.
  destruct (Z.eq_dec k m) as [-> | Hne]; [apply Qle_refl |].
  assert (Hcases : (k <= m - 1 \/ m + 1 <= k)%Z) by lia.
  revert Hhalf.
  set (a := (inject_Z m * s)%Q). set (b := (inject_Z k * s)%Q).
  assert (Hab : (b <= a - s \/ a + s <= b)%Q).
  { destruct Hcases as [Hlt | Hgt].
    - left. unfold a, b.
      assert (H : (inject_Z k <= inject_Z m - 1)%Q).
      { rewrite (Zle_Qle k (m - 1)) in Hlt.
        unfold Z.sub in Hlt. rewrite inject_Z_plus in Hlt. exact Hlt. }
      apply (Qmult_le_compat_r _ _ s) in H; [| now apply Qlt_le_weak].
      lra.
    - right. unfold a, b.
      assert (H : (inject_Z m + 1 <= inject_Z k)%Q).
      { rewrite (Zle_Qle (m + 1) k) in Hgt.
        rewrite inject_Z_plus in Hgt. exact Hgt. }
      apply (Qmult_le_compat_r _ _ s) in H; [| now apply Qlt_le_weak].
      lra. }
  clearbody a b. intros Hhalf.
  apply Qabs_case; intros H1; apply Qabs_case; intros H2;
    revert Hhalf; apply Qabs_case; intros H3 Hhalf; lra.
Qed.

Lemma pow2_pos (e : Z) : (0 < 2 ^ e)%Q.
Proof. apply Qpower_0_lt. reflexivity. Qed.

Lemma pow2_split (e e' : Z) :
  (e <= e')%Z -> (2 ^ e' == inject_Z (2 ^ (e' - e)) * 2 ^ e)%Q.
Proof.
  intros Hle. rewrite Zpower_Qpower by lia.
  rewrite <- Qpower_plus by discriminate.
  now replace (e' - e + e)%Z with e' by lia.
Qed.

(** A value with a 24-bit significand [m] and exponent [e], within half a
    unit in the last place of [q], is the binary32 value nearest to [q] as
    soon as [q] is not below the binade of that exponent: the binary32
    values of a higher exponent are multiples of [2^e], and those of a lower
    one lie below the binade. *)
Lemma nearest_binary32_intro (q v : Q) (m e : Z) :
  (0 <= m < 2 ^ 24)%Z ->
  (-149 <= e <= 104)%Z ->
  (v == inject_Z m * 2 ^ e)%Q ->
  (inject_Z (2 ^ 23) * 2 ^ e <= q)%Q ->
  (Qabs (v - q) * 2 <= 2 ^ e)%Q ->
  nearest_binary32 q v.
Proof.
  intros Hm He Hv Hlow Hhalf. split.
  - exists m, e. split; [lia |]. split; [exact He | exact Hv].
  - intros v' (m' & e' & Hm' & He' & Hv').
    rewrite Hv in Hhalf |- *. rewrite Hv'.
    destruct (Z_le_gt_dec e e') as [Hle | Hgt].
    + rewrite (pow2_split e e' Hle).
      rewrite Qmult_assoc, <- inject_Z_mult.
      apply nearest_multiple; [apply pow2_pos | exact Hhalf].
    + apply Qle_trans with (Qabs (inject_Z (2 ^ 23) * 2 ^ e - q)).
      * apply nearest_multiple; [apply pow2_pos | exact Hhalf].
      * assert (Hbelow : (inject_Z m' * 2 ^ e'
                          <= inject_Z (2 ^ 23) * 2 ^ e)%Q).
        { rewrite (pow2_split e' e) by lia.
          rewrite Qmult_assoc, <- inject_Z_mult.
          apply Qmult_le_compat_r; [| apply Qlt_le_weak, pow2_pos].
          rewrite <- Zle_Qle.
          assert (H2 : (2 * 2 ^ 23 <= 2 ^ 23 * 2 ^ (e - e'))%Z).
          { rewrite Z.mul_comm. apply Z.mul_le_mono_nonneg_l; [lia |].
            replace (e - e')%Z with (1 + (e - e' - 1))%Z by lia.
            rewrite Z.pow_add_r by lia.
            assert (0 < 2 ^ (e - e' - 1))%Z by (apply Z.pow_pos_nonneg; lia).
            lia. }
          change (2 ^ 24)%Z with (2 * 2 ^ 23)%Z in Hm'. lia. }
        revert Hlow Hbelow.
        generalize (inject_Z m' * 2 ^ e')%Q, (inject_Z (2 ^ 23) * 2 ^ e)%Q.
        intros x y Hlow Hbelow.
        apply Qabs_case; intros H1; apply Qabs_case; intros H2; lra.
Qed.

Lemma nearest_binary32_zero (q : Q) : (q == 0)%Q -> nearest_binary32 q 0.
Proof.
  intros Hq. split.
  - exists 0%Z, 0%Z. split; [reflexivity |]. split; [lia | reflexivity].
  - intros v' _. rewrite Hq.
    apply Qle_trans with 0%Q; [discriminate | apply Qabs_nonneg].
Qed.

Ltac rounded_sample :=
  match goal with
  | |- exists v : Q, np_divide ?x 255 = Fin v /\ nearest_binary32 ?q v /\ _ =>
      let r := eval vm_compute in (np_divide x 255) in
      let p := eval vm_compute in (binary32_parts q) in
      match r with
      | Fin ?v0 =>
          match p with
          | (?m, ?e) =>
              exists v0; split; [vm_compute; reflexivity |];
              split;
              [ apply (nearest_binary32_intro q v0 m e);
                [ split; [discriminate | reflexivity]
                | split; discriminate
                | vm_compute; reflexivity
                | vm_compute; discriminate
                | vm_compute; discriminate ]
              | split; vm_compute; discriminate ]
          end
      end
  end.

(** What the division makes of one sample: the binary32 value nearest to
    the sample over 255, which lies in [0, 1]. *)
Lemma sample_division_rounded (b : byte) :
  exists v : Q,
    np_divide (litemodel.float_of_byte b) 255 = Fin v
    /\ nearest_binary32 (inject_Z (Z.of_N (Byte.to_N b)) / 255) v
    /\ (0 <= v <= 1)%Q.
Proof.
  destruct b; try rounded_sample.
  exists 0%Q. split; [vm_compute; reflexivity |].
  split; [apply nearest_binary32_zero; reflexivity |].
  split; discriminate.
Qed.

(** C5: for a decoded RGB image and the input shape (H, W) of the session,
    once PIL has resized the image to W x H the preprocessing returns a
    [float32] tensor of shape (1, 3, H, W) with 3*H*W elements, all in
    [0, 1]: the element at [0, c, h, x] is the 8-bit sample [h, x, c] of the
    resized image divided by 255, that is the binary32 value nearest to
    that quotient; no attribute of the session is assigned. *)
Theorem preprocess_tensor (w : World) (self : litemodel.ModelPredictor)
    (image resized : Image) (H W : nat) :
  mode image = "RGB" ->
  litemodel._input_height self = H ->
  litemodel._input_width self = W ->
  Image_resize w image (W, H) = inr resized ->
  size resized = (W, H) ->
  bands resized = 3 ->
  List.length (samples resized) = H * W * 3 ->
  exists t : ndarray,
    litemodel.preprocess w image self = (inr t, self)
    /\ shape t = [1; 3; H; W]
    /\ List.length (data t) = 1 * 3 * H * W
    /\ Forall (fun v => fle (Fin 0) v = true /\ fle v (Fin 1) = true) (data t)
    /\ (forall c h x : nat,
          c < 3 -> h < H -> x < W ->
          exists v : Q,
            item (data t) ((c * H + h) * W + x) = Fin v
            /\ nearest_binary32
                 (inject_Z
                    (Z.of_N
                       (Byte.to_N
                          (nth ((h * W + x) * 3 + c) (samples resized) x00)))
                  / 255) v
            /\ (0 <= v <= 1)%Q).
Proof.
  intros Hmode Hheight Hwidth Hresize Hsize Hbands Hlen.
  set (a := divide_255 (litemodel.np_array_float32 resized)).
  assert (Ha : a = mk_ndarray [H; W; 3]
                     (map (fun x => np_divide x 255)
                        (map litemodel.float_of_byte (samples resized)))).
  { unfold a. now rewrite (np_array_rgb resized H W). }
  assert (Hshape : shape a = [H; W; 3]) by now rewrite Ha.
  assert (Hdata : List.length (data a) = H * W * 3).
  { rewrite Ha. simpl. now rewrite !length_map. }
  destruct (transpose_shape a H W 3 Hshape Hdata) as (t & Ht & Htshape & Htlen).
  exists (expand_dims_0 t). split; [| split; [| split; [| split]]].
  - unfold litemodel.preprocess, litemodel.bind, litemodel.call,
      litemodel.lift, litemodel.get, litemodel.ret, litemodel.raise.
    rewrite Hmode, String.eqb_refl. cbn [negb]. cbv beta iota.
    rewrite Hwidth, Hheight, Hresize. cbn [from_foreign]. cbv beta iota.
    fold a. now rewrite Ht.
  - simpl. now rewrite Htshape.
  - simpl. rewrite Htlen. lia.
  - simpl. apply (transpose_elements a H W 3 Hshape Hdata t _ Ht).
    rewrite Ha. simpl. rewrite map_map.
    apply Forall_map, Forall_forall. intros b _.
    apply sample_in_unit_interval.
  - intros c h x Hc Hh Hx. simpl.
    rewrite (transpose_item a H W 3 Hshape Hdata t c h x Ht Hc Hh Hx).
    rewrite Ha. simpl. rewrite item_normalized.
    + apply sample_division_rounded.
    + rewrite Hlen.
      assert (Hrow : h * W + x < H * W) by nia.
      revert Hrow. generalize (h * W + x), (H * W). intros k m Hk. nia.
Qed.

Lemma preprocess_tensor_witness :
  let w := gradient_world in
  let self := loaded_predictor None [Fin (9 # 10)] in
  litemodel.preprocess w sample_image self
  = (inr (mk_ndarray [1; 3; 2; 2]
            [Fin 0; Fin (13421773 # 67108864);
             Fin (16711423 # 33554432); Fin (8322815 # 8388608);
             Fin (8421505 # 2147483648); Fin (13421773 # 33554432);
             Fin (8421505 # 16777216); Fin (16711423 # 16777216);
             Fin (8421505 # 1073741824); Fin (5033165 # 8388608);
             Fin (4243649 # 8388608); Fin 1]), self)
  /\ exists t : ndarray,
    litemodel.preprocess w sample_image self = (inr t, self)
    /\ shape t = [1; 3; 2; 2]
    /\ List.length (data t) = 1 * 3 * 2 * 2
    /\ Forall (fun v => fle (Fin 0) v = true /\ fle v (Fin 1) = true) (data t)
    /\ (forall c h x : nat,
          c < 3 -> h < 2 -> x < 2 ->
          exists v : Q,
            item (data t) ((c * 2 + h) * 2 + x) = Fin v
            /\ nearest_binary32
                 (inject_Z
                    (Z.of_N
                       (Byte.to_N
                          (nth ((h * 2 + x) * 3 + c)
                             (samples gradient_image) x00)))
                  / 255) v
            /\ (0 <= v <= 1)%Q).
Proof.
  intros w self. split; [vm_compute; reflexivity |].
  apply (preprocess_tensor w self sample_image gradient_image 2 2);
    reflexivity.
Defined.

(* ================================================================== *)
(** * Errors at the boundary *)
(* ================================================================== *)

(** Past the guard and the preprocessing, [predict] is the ranking of the
    first row of the first output. *)
Lemma predict_ranks (w : World) (settings : Settings) (image : Image)
    (self : litemodel.ModelPredictor) (t : ndarray)
    (session : InferenceSession) (outputs : list (list (list float)))
    (output0 : list (list float)) (predictions_raw : list float) :
  fst (litemodel.is_loaded self) = inr true ->
  litemodel.preprocess w image self = (inr t, self) ->
  litemodel._session self = Some session ->
  run session (litemodel._input_name self) t = inr outputs ->
  nth_error outputs 0 = Some output0 ->
  nth_error output0 0 = Some predictions_raw ->
  litemodel.predict w settings image self
  = (match litemodel.postprocess w settings (litemodel._class_names self)
             predictions_raw with
     | inl e => inl e
     | inr preds => inr (preds, elapsed_ms w)
     end, self).
Proof.
  rewrite is_loaded_eq. simpl. intros Hl. injection Hl as Hl.
  intros Hpre Hsession Hrun Hout Hrow.
  destruct outputs as [| o outputs']; [discriminate |].
  injection Hout as ->.
  destruct output0 as [| r output0']; [discriminate |].
  injection Hrow as ->.
  unfold litemodel.predict. unfold litemodel.bind at 1.
  rewrite is_loaded_eq, Hl. cbn [negb]. cbv beta iota.
  unfold litemodel.bind at 1. rewrite Hpre.
  unfold litemodel.bind at 1, litemodel.get at 1. rewrite Hsession.
  unfold litemodel.bind, litemodel.get, litemodel.call, litemodel.lift,
    litemodel.index, litemodel.ret.
  rewrite Hrun. cbn [from_foreign nth_error].
  destruct (litemodel.postprocess w settings _ predictions_raw); reflexivity.
Qed.

Lemma exists_invalid_not_all_valid (predictions_raw : list float)
    (idxs : list nat) :
  Exists (fun idx =>
            valid_confidence (py_round (item predictions_raw idx) 4) = false)
    idxs ->
  ~ Forall (rounds_into_range predictions_raw) idxs.
Proof.
  intros Hex Hall. apply Exists_exists in Hex as [idx [Hin Hbad]].
  rewrite Forall_forall in Hall. specialize (Hall idx Hin).
  unfold rounds_into_range in Hall. congruence.
Qed.

(** C9 (as amended): [PredictionResult] accepts a confidence in [0, 1]
    unchanged and raises on any other instead of clamping it.  The value it
    is given is the raw score rounded to four decimals: [np.argsort]
    returning indices of the score vector, when that rounded value is outside
    [0, 1] for some class that passes the threshold among the top indices,
    the ranking step raises the validation error, and a request that reaches
    the model this way is answered with status 500 and the text of that error
    as detail; when every such rounded value is in [0, 1] the ranking step
    returns. *)
Theorem out_of_range_confidence_raises (w : World) (settings : Settings) :
  (forall (label : string) (c : float),
     valid_confidence c = false ->
     new_PredictionResult w label c
     = inl (mk_error ValidationError (validation_message w c)))
  /\ (forall (label : string) (c : float),
        valid_confidence c = true ->
        new_PredictionResult w label c = inr (mk_prediction label c))
  /\ (forall (class_names : list string) (predictions_raw : list float),
        indices_in_range predictions_raw (np_argsort w predictions_raw) ->
        Exists (fun idx =>
                  valid_confidence (py_round (item predictions_raw idx) 4)
                  = false)
          (kept_indices w settings predictions_raw) ->
        exists c : float,
          valid_confidence c = false
          /\ litemodel.postprocess w settings class_names predictions_raw
             = inl (mk_error ValidationError (validation_message w c)))
  /\ (forall (class_names : list string) (predictions_raw : list float),
        indices_in_range predictions_raw (np_argsort w predictions_raw) ->
        Forall (rounds_into_range predictions_raw)
          (kept_indices w settings predictions_raw) ->
        litemodel.postprocess w settings class_names predictions_raw
        = inr (map (result_of class_names predictions_raw)
                   (kept_indices w settings predictions_raw)))
  /\ (forall (model_predictor : litemodel.ModelPredictor)
        (file : main.UploadFile) (image : Image) (t : ndarray)
        (session : InferenceSession) (outputs : list (list (list float)))
        (output0 : list (list float)) (predictions_raw : list float),
        set_mem (lower (suffix (main.filename file)))
          (allowed_extensions settings) = true ->
        (Z.of_nat (List.length (main.contents file))
         <= max_upload_size settings)%Z ->
        main.load_image w (main.contents file) = inr image ->
        fst (litemodel.is_loaded model_predictor) = inr true ->
        litemodel.preprocess w image model_predictor
        = (inr t, model_predictor) ->
        litemodel._session model_predictor = Some session ->
        run session (litemodel._input_name model_predictor) t = inr outputs ->
        nth_error outputs 0 = Some output0 ->
        nth_error output0 0 = Some predictions_raw ->
        indices_in_range predictions_raw (np_argsort w predictions_raw) ->
        Exists (fun idx =>
                  valid_confidence (py_round (item predictions_raw idx) 4)
                  = false)
          (kept_indices w settings predictions_raw) ->
        exists c : float,
          valid_confidence c = false
          /\ main.post_predict w settings model_predictor file
             = main.mk_json 500 (main.DetailBody (validation_message w c))).
Proof.
  split; [| split; [| split; [| split]]].
  - intros label c Hc. unfold new_PredictionResult. now rewrite Hc.
  - intros label c Hc. unfold new_PredictionResult. now rewrite Hc.
  - intros class_names predictions_raw Hrange Hex.
    apply postprocess_invalid; [exact Hrange |].
    now apply exists_invalid_not_all_valid.
  - intros class_names predictions_raw Hrange Hall.
    now apply postprocess_valid.
  - intros model_predictor file image t session outputs output0
      predictions_raw Hext Hsize Himg Hloaded Hpre Hsession Hrun Hout Hrow
      Hrange Hex.
    apply exists_invalid_not_all_valid in Hex.
    destruct (postprocess_invalid w settings
                (litemodel._class_names model_predictor) predictions_raw
                Hrange Hex)
      as [c [Hc Hraise]].
    exists c. split; [exact Hc |].
    unfold main.post_predict.
    rewrite (predict_model_error w settings model_predictor file image
               (mk_error ValidationError (validation_message w c)));
      try assumption; [reflexivity |].
    rewrite (predict_ranks w settings image model_predictor t session
               outputs output0 predictions_raw); try assumption.
    simpl. now rewrite Hraise.
Qed.

Lemma out_of_range_confidence_raises_witness :
  let w := sample_world None [Fin 2] in
  (exists c : float,
     valid_confidence c = false
     /\ litemodel.postprocess w default_settings [] [Fin 2]
        = inl (mk_error ValidationError (validation_message w c)))
  /\ (exists c : float,
        valid_confidence c = false
        /\ main.post_predict w default_settings (loaded_predictor None [Fin 2])
             (main.mk_upload "bus.jpg" [x01])
           = main.mk_json 500 (main.DetailBody (validation_message w c))).
Proof.
  intros w.
  pose proof (out_of_range_confidence_raises w default_settings)
    as (_ & _ & Hrank & _ & Hroute).
  split.
  - apply Hrank.
    + vm_compute. repeat constructor.
    + vm_compute. constructor. reflexivity.
  - apply (Hroute (loaded_predictor None [Fin 2])
             (main.mk_upload "bus.jpg" [x01]) sample_image
             (mk_ndarray [1; 3; 2; 2]
                (repeat (Fin (8421505 # 16777216)) 12))
             (sample_session [Fin 2]) [[[Fin 2]]] [[Fin 2]] [Fin 2]);
      try reflexivity.
    + simpl. lia.
    + vm_compute. repeat constructor.
    + vm_compute. constructor. reflexivity.
Defined.

(** C9 (as stated) fails just above 1: the score 1.000030517578125
    (1 + 2^-15) passes the threshold and lies outside [0, 1], yet it rounds to
    1.0, the result is built, and the request is answered with status 200. *)
Lemma out_of_range_score_accepted :
  let raw := [Fin (32769 # 32768)] in
  let w := sample_world None raw in
  fle (item raw 0) (Fin 1) = false
  /\ passes default_settings raw 0 = true
  /\ litemodel.postprocess w default_settings [] raw
     = inr [mk_prediction "0" (Fin 1)]
  /\ main.post_predict w default_settings (loaded_predictor None raw)
       (main.mk_upload "bus.jpg" [x01])
     = main.mk_json 200
         (main.PredictionBody
            (mk_response true [mk_prediction "0" (Fin 1)] "yolo11l-cls"
               (Fin (247 # 20)))).
Proof. vm_compute. repeat split; reflexivity. Qed.

(** C3 (as amended): [predict] lets no exception other than an
    [HTTPException] out, so the handler registered for 500, the only place
    that answers "An unexpected error occurred", is never reached from this
    route.  A response with status 500 carries as detail the text of the
    exception the model call raised; a response with status 413 names the
    maximum size; a response with status 400 names the allowed extensions or
    carries the text of the decoding error. *)
Theorem predict_error_details (w : World) (settings : Settings)
    (model_predictor : litemodel.ModelPredictor) (file : main.UploadFile) :
  (main.status (main.post_predict w settings model_predictor file) = 500%Z ->
   exists (image : Image) (e : PyError),
     main.load_image w (main.contents file) = inr image
     /\ fst (litemodel.predict w settings image model_predictor) = inl e
     /\ main.content (main.post_predict w settings model_predictor file)
        = main.DetailBody (err_msg e))
  /\ (main.status (main.post_predict w settings model_predictor file)
      = 413%Z ->
      main.content (main.post_predict w settings model_predictor file)
      = main.DetailBody
          (String.append "File too large. Max size: "
             (String.append (repr_megabytes w (max_upload_size settings))
                "MB")))
  /\ (main.status (main.post_predict w settings model_predictor file)
      = 400%Z ->
      main.content (main.post_predict w settings model_predictor file)
      = main.DetailBody
          (String.append "Invalid file type. Allowed: "
             (repr_set w (allowed_extensions settings)))
      \/ exists e : PyError,
           main.load_image w (main.contents file) = inl e
           /\ main.content (main.post_predict w settings model_predictor file)
              = main.DetailBody
                  (String.append "Invalid image file: " (err_msg e)))
  /\ (forall e : PyError,
        snd (main.predict w settings model_predictor file)
        <> inl (main.Unhandled e))
  /\ (forall e : PyError,
        main.body_detail (main.content (main.internal_error_handler e))
        = Some "An unexpected error occurred").
Proof.
  unfold main.post_predict.
  destruct (predict_cases w settings model_predictor file)
    as [Hext | [[Hext Hsize] | (Hext & Hsize & [[e Himg] | [image [Himg Hmodel]]])]].
  - rewrite (predict_invalid_extension w settings model_predictor file Hext).
    simpl. repeat split; try discriminate; auto.
  - rewrite (predict_too_large w settings model_predictor file Hext Hsize).
    simpl. repeat split; try discriminate; auto.
  - rewrite (predict_bad_image w settings model_predictor file e
               Hext Hsize Himg).
    simpl. repeat split; try discriminate; eauto.
  - destruct Hmodel as [[e Hmodel] | [predictions [inference_time Hmodel]]].
    + rewrite (predict_model_error w settings model_predictor file image e
                 Hext Hsize Himg Hmodel).
      simpl. repeat split; try discriminate; eauto.
    + rewrite (predict_success w settings model_predictor file image
                 predictions inference_time Hext Hsize Himg Hmodel).
      simpl. repeat split; try discriminate; auto.
Qed.

Lemma predict_error_details_witness :
  let w := sample_world None [Fin 2] in
  let response :=
    main.post_predict w default_settings (loaded_predictor None [Fin 2])
      (main.mk_upload "bus.jpg" [x01]) in
  exists (image : Image) (e : PyError),
    main.load_image w [x01] = inr image
    /\ fst (litemodel.predict w default_settings image
              (loaded_predictor None [Fin 2])) = inl e
    /\ main.content response = main.DetailBody (err_msg e).
Proof.
  intros w response.
  apply (proj1 (predict_error_details w default_settings
                  (loaded_predictor None [Fin 2])
                  (main.mk_upload "bus.jpg" [x01]))).
  reflexivity.
Defined.

(** C3 (as stated) fails on the 500 responses of this route.  A model whose
    score is 2.0 makes pydantic reject the result, and the detail of the
    response is the text of that error; a call before the model is loaded is
    answered with the detail "Model not loaded".  Neither is the generic
    message. *)
Lemma internal_error_detail_not_generic :
  let w := sample_world None [Fin 2] in
  let file := main.mk_upload "bus.jpg" [x01] in
  (main.post_predict w default_settings (loaded_predictor None [Fin 2]) file
   = main.mk_json 500
       (main.DetailBody (validation_message w (Fin 2)))
   /\ validation_message w (Fin 2) <> "An unexpected error occurred")
  /\ (main.post_predict w default_settings litemodel.class_defaults file
      = main.mk_json 500 (main.DetailBody "Model not loaded")
      /\ "Model not loaded" <> "An unexpected error occurred").
Proof.
  intros w file. repeat split; try reflexivity; discriminate.
Qed.

(* ================================================================== *)
(** * The [/predict] route as a whole *)
(* ================================================================== *)

(** The answer of [/predict] is decided by four tests in order: the lowered
    suffix, the length of the upload, the decoding, the model call.  The
    status is 400 exactly when the suffix is not allowed or the upload, of
    allowed suffix and size, does not decode; 413 exactly when the suffix is
    allowed and the upload is longer than the maximum (an upload of exactly
    the maximum passes); 500 exactly when the model call raises; 200 exactly
    when it returns; and there is no other status. *)
Theorem predict_status_table (w : World) (settings : Settings)
    (model_predictor : litemodel.ModelPredictor) (file : main.UploadFile) :
  let ext_ok :=
    set_mem (lower (suffix (main.filename file)))
      (allowed_extensions settings) in
  let size := Z.of_nat (List.length (main.contents file)) in
  let code :=
    main.status (main.post_predict w settings model_predictor file) in
  (code = 400%Z <->
   ext_ok = false
   \/ (ext_ok = true /\ (size <= max_upload_size settings)%Z
       /\ exists e, main.load_image w (main.contents file) = inl e))
  /\ (code = 413%Z <->
      ext_ok = true /\ (size > max_upload_size settings)%Z)
  /\ (code = 500%Z <->
      ext_ok = true /\ (size <= max_upload_size settings)%Z
      /\ exists image e,
           main.load_image w (main.contents file) = inr image
           /\ fst (litemodel.predict w settings image model_predictor)
              = inl e)
  /\ (code = 200%Z <->
      ext_ok = true /\ (size <= max_upload_size settings)%Z
      /\ exists image predictions inference_time,
           main.load_image w (main.contents file) = inr image
           /\ fst (litemodel.predict w settings image model_predictor)
              = inr (predictions, inference_time))
  /\ (code = 200%Z \/ code = 400%Z \/ code = 413%Z \/ code = 500%Z).
Proof.
  cbv zeta. unfold main.post_predict.
  destruct (predict_cases w settings model_predictor file)
    as [Hext | [[Hext Hsize]
               | (Hext & Hsize & [[e Himg] | [image [Himg Hmodel]]])]].
  - rewrite (predict_invalid_extension w settings model_predictor file Hext).
    rewrite Hext. simpl.
    repeat split; intros; try discriminate; auto;
      try (destruct H as [H _]; discriminate).
  - rewrite (predict_too_large w settings model_predictor file Hext Hsize).
    rewrite Hext. simpl.
    repeat split; intros; try discriminate; auto; try lia;
      try (destruct H as [H | (_ & H & _)]; [discriminate | lia]);
      try (destruct H as (_ & H & _); lia).
  - rewrite (predict_bad_image w settings model_predictor file e
               Hext Hsize Himg).
    rewrite Hext. simpl.
    repeat split; intros; try discriminate; eauto; try lia;
      try (destruct H as (_ & _ & ? & ? & H & _); congruence);
      try (destruct H as (_ & _ & ? & ? & ? & H & _); congruence).
  - destruct Hmodel as [[e Hmodel] | [predictions [inference_time Hmodel]]].
    + rewrite (predict_model_error w settings model_predictor file image e
                 Hext Hsize Himg Hmodel).
      rewrite Hext. simpl.
      repeat split; intros; try discriminate; eauto; try lia;
        try (destruct H as [H | (_ & _ & ? & H)]; congruence);
        try (destruct H as (_ & _ & image' & ? & ? & Himg' & H);
             rewrite Himg in Himg'; injection Himg' as <-; congruence).
    + rewrite (predict_success w settings model_predictor file image
                 predictions inference_time Hext Hsize Himg Hmodel).
      rewrite Hext. simpl.
      repeat split; intros; try discriminate; eauto 6; try lia;
        try (destruct H as [H | (_ & _ & ? & H)]; congruence);
        try (destruct H as (_ & _ & image' & ? & Himg' & H);
             rewrite Himg in Himg'; injection Himg' as <-; congruence).
Qed.





(* ================================================================== *)
(** * Which extensions can be matched *)
(* ================================================================== *)

Lemma lower_ascii_idempotent (c : ascii) :
  lower_ascii (lower_ascii c) = lower_ascii c.
Proof. destruct c as [[|] [|] [|] [|] [|] [|] [|] [|]]; reflexivity. Qed.

Lemma lower_idempotent (s : string) : lower (lower s) = lower s.
Proof.
  induction s as [| c s IH]; simpl; [reflexivity |].
  now rewrite lower_ascii_idempotent, IH.
Qed.

Lemma rfind_from_get (c : ascii) (s : string) :
  forall (pos : nat) (found : option nat) (i : nat),
    rfind_from c s pos found = Some i ->
    found = Some i \/ (pos <= i /\ String.get (i - pos) s = Some c).
Proof.
  induction s as [| x rest IH]; simpl; intros pos found i H; [now left |].
  apply IH in H as [H | [Hle Hget]].
  - destruct (Ascii.eqb x c) eqn:E; [| now left].
    injection H as <-. right. split; [lia |].
    rewrite Nat.sub_diag. apply Ascii.eqb_eq in E. now subst.
  - right. split; [lia |].
    replace (i - pos) with (S (i - S pos)) by lia. exact Hget.
Qed.

Lemma rfind_get (c : ascii) (s : string) (i : nat) :
  rfind c s = Some i -> String.get i s = Some c.
Proof.
  unfold rfind. intros H.
  apply rfind_from_get in H as [H | [_ H]]; [discriminate |].
  now rewrite Nat.sub_0_r in H.
Qed.

Lemma get_in_range (s : string) :
  forall i : nat, i < String.length s -> exists c, String.get i s = Some c.
Proof.
  induction s as [| x rest IH]; simpl; intros i Hi; [lia |].
  destruct i as [| i]; [eauto |]. apply IH. lia.
Qed.

(** [Path(p).suffix] is empty, or a dot followed by at least one
    character. *)
Lemma suffix_shape (p : string) :
  suffix p = ""
  \/ exists (c : ascii) (rest : string), suffix p = String "." (String c rest).
Proof.
  unfold suffix.
  destruct (rfind "." (path_name p)) as [i |] eqn:Hfind; [| now left].
  destruct ((0 <? i)%nat && (i <? String.length (path_name p) - 1)%nat)
    eqn:Hcond; [| now left].
  right. apply andb_prop in Hcond as [_ Hlt]. apply Nat.ltb_lt in Hlt.
  apply rfind_get in Hfind.
  pose proof (substring_correct1 (path_name p) i
                (String.length (path_name p) - i) 0 ltac:(lia)) as H0.
  pose proof (substring_correct1 (path_name p) i
                (String.length (path_name p) - i) 1 ltac:(lia)) as H1.
  simpl in H0. rewrite Hfind in H0.
  destruct (get_in_range (path_name p) (1 + i) ltac:(lia)) as [c Hc].
  rewrite Hc in H1.
  destruct (substring i (String.length (path_name p) - i) (path_name p))
    as [| a [| b rest]]; simpl in H0, H1; try discriminate.
  injection H0 as ->. injection H1 as ->. eauto.
Qed.

(** Every lowered suffix has the reachable form. *)
Lemma lowered_suffix_reachable (p : string) :
  reachable_extension (lower (suffix p)) = true.
Proof.
  unfold reachable_extension. rewrite lower_idempotent, String.eqb_refl.
  destruct (suffix_shape p) as [-> | (c & rest & ->)]; reflexivity.
Qed.

Lemma set_mem_In (x : string) (s : list string) :
  set_mem x s = true -> In x s.
Proof.
  unfold set_mem. intros H. apply existsb_exists in H as [y [Hin Heq]].
  apply String.eqb_eq in Heq. now subst.
Qed.

(** The extension test lowers the suffix of the file name and not the
    entries of the allowed set: an entry that contains an upper-case letter,
    or that is neither empty nor a dot followed by a character, matches no
    file name.  When every entry is such, every upload is refused with status
    400 before it is read. *)
Theorem unreachable_extensions_refuse_all (w : World) (settings : Settings)
    (model_predictor : litemodel.ModelPredictor) (file : main.UploadFile) :
  forallb (fun ext => negb (reachable_extension ext))
    (allowed_extensions settings) = true ->
  main.predict w settings model_predictor file
  = ([], inl (main.HTTPException 400
                (String.append "Invalid file type. Allowed: "
                   (repr_set w (allowed_extensions settings)))))
  /\ main.status (main.post_predict w settings model_predictor file) = 400%Z.
Proof.
  intros Hall.
  assert (Hext : set_mem (lower (suffix (main.filename file)))
                   (allowed_extensions settings) = false).
  { destruct (set_mem _ _) eqn:E; [| reflexivity].
    apply set_mem_In in E.
    rewrite forallb_forall in Hall. specialize (Hall _ E).
    now rewrite lowered_suffix_reachable in Hall. }
  unfold main.post_predict.
  rewrite (predict_invalid_extension w settings model_predictor file Hext).
  split; reflexivity.
Qed.

Lemma unreachable_extensions_refuse_all_witness :
  let w := sample_world None [] in
  main.predict w unreachable_extension_settings (loaded_predictor None [])
    (main.mk_upload "photo.JPG" [x01])
  = ([], inl (main.HTTPException 400
                "Invalid file type. Allowed: .JPG, png, ."))
  /\ main.status
       (main.post_predict w unreachable_extension_settings
          (loaded_predictor None []) (main.mk_upload "photo.JPG" [x01]))
     = 400%Z.
Proof.
  intros w.
  apply (unreachable_extensions_refuse_all w unreachable_extension_settings
           (loaded_predictor None []) (main.mk_upload "photo.JPG" [x01])).
  reflexivity.
Defined.

(* ================================================================== *)
(** * Startup, health and the life of the session *)
(* ================================================================== *)

Lemma call_is_loaded_eq (self : litemodel.ModelPredictor) :
  call_is_loaded self
  = litemodel._model_loaded self &&
    match litemodel._session self with Some _ => true | None => false end.
Proof. reflexivity. Qed.

Lemma call_is_loaded_true (self : litemodel.ModelPredictor) :
  call_is_loaded self = true <-> fst (litemodel.is_loaded self) = inr true.
Proof.
  rewrite call_is_loaded_eq, is_loaded_eq. simpl.
  split; [now intros -> | now intros [= ->]].
Qed.

(** A load that returns leaves the flag set and a session in place. *)
Lemma load_model_loaded (w : World) (settings : Settings)
    (self : litemodel.ModelPredictor) :
  fst (litemodel._load_model w settings self) = inr tt ->
  call_is_loaded (snd (litemodel._load_model w settings self)) = true.
Proof.
  rewrite call_is_loaded_eq. unfold_methods.
  destruct (path_exists w (model_path settings)); simpl; [| discriminate].
  destruct (ort_InferenceSession w (model_path settings))
    as [[cls msg] | session]; simpl; [discriminate |].
  destruct (get_inputs session) as [| input0 others]; simpl;
    [discriminate |].
  destruct (node_shape input0) as [| d0 [| d1 [| dim2 [| dim3 ds]]]];
    simpl; try discriminate.
  destruct (path_exists w (class_names_path settings)); simpl;
    [| reflexivity].
  destruct (readlines w (class_names_path settings))
    as [[cls msg] | lines]; simpl; [discriminate | reflexivity].
Qed.

Lemma steps_keep_loaded (ops : list litemodel.operation)
    (self : litemodel.ModelPredictor) :
  call_is_loaded self = true ->
  call_is_loaded (litemodel.steps ops self) = true.
Proof.
  rewrite !call_is_loaded_eq. intros H.
  apply andb_prop in H as [Hflag Hsession].
  destruct (steps_keep_session ops self Hflag) as (Hs & _ & _ & _ & _ & Hl).
  now rewrite Hl, Hs, Hflag, Hsession.
Qed.

(** [GET /health] answers 200 with status "healthy" and
    [model_loaded = true] exactly when the flag is set and the session is
    there, and 503 with status "unhealthy" and [model_loaded = false]
    otherwise; the body always repeats the configured model path and the
    uptime rounded to two decimals. *)
Theorem health_check_reports_session (settings : Settings) (uptime : float)
    (model_predictor : litemodel.ModelPredictor) :
  let reply := health_check settings uptime model_predictor in
  (reply_code reply = 200%Z <->
   litemodel._model_loaded model_predictor = true
   /\ litemodel._session model_predictor <> None)
  /\ (reply_code reply = 503%Z <->
      litemodel._model_loaded model_predictor = false
      \/ litemodel._session model_predictor = None)
  /\ (reply_code reply = 200%Z \/ reply_code reply = 503%Z)
  /\ (health_model_loaded (reply_body reply) = true
      <-> reply_code reply = 200%Z)
  /\ (health_status (reply_body reply) = "healthy"
      <-> reply_code reply = 200%Z)
  /\ (health_status (reply_body reply) = "unhealthy"
      <-> reply_code reply = 503%Z)
  /\ health_model_path (reply_body reply) = model_path settings
  /\ health_uptime_seconds (reply_body reply) = py_round uptime 2.
Proof.
  cbv zeta. unfold health_check. rewrite call_is_loaded_eq.
  destruct (litemodel._model_loaded model_predictor);
    destruct (litemodel._session model_predictor); simpl;
    repeat split; intros; try discriminate; try congruence; auto;
    try (destruct H; congruence); try tauto.
Qed.

(** [startup_event] returns exactly when [GET /health] would answer 200,
    and raises [RuntimeError("Failed to load model during startup")]
    otherwise.  After a load that returned, and after any later calls on the
    singleton, startup returns and health answers 200. *)
Theorem startup_agrees_with_health (settings : Settings) (uptime : float)
    (model_predictor : litemodel.ModelPredictor) :
  (startup_event model_predictor = inr tt <->
   reply_code (health_check settings uptime model_predictor) = 200%Z)
  /\ (startup_event model_predictor
      = inl (mk_error RuntimeError "Failed to load model during startup")
      <-> reply_code (health_check settings uptime model_predictor) = 503%Z)
  /\ (forall (w : World) (settings0 : Settings)
        (ops : list litemodel.operation),
        fst (litemodel._load_model w settings0 model_predictor) = inr tt ->
        let self :=
          litemodel.steps ops
            (snd (litemodel._load_model w settings0 model_predictor)) in
        startup_event self = inr tt
        /\ reply_code (health_check settings uptime self) = 200%Z).
Proof.
  split; [| split].
  - unfold startup_event, health_check.
    destruct (call_is_loaded model_predictor); simpl; split;
      intros; try discriminate; reflexivity.
  - unfold startup_event, health_check.
    destruct (call_is_loaded model_predictor); simpl; split;
      intros; try discriminate; reflexivity.
  - intros w settings0 ops Hret. cbv zeta.
    pose proof (steps_keep_loaded ops _
                  (load_model_loaded w settings0 model_predictor Hret))
      as Hloaded.
    unfold startup_event, health_check. rewrite Hloaded. split; reflexivity.
Qed.

Lemma startup_agrees_with_health_witness :
  let self :=
    litemodel.steps
      [litemodel.OpConstruct empty_world default_settings;
       litemodel.OpPredict (sample_world None [Fin 2]) default_settings
         sample_image]
      (snd (litemodel._load_model (sample_world None []) default_settings
              litemodel.class_defaults)) in
  startup_event self = inr tt
  /\ reply_code (health_check default_settings (Fin (7 # 2)) self) = 200%Z.
Proof.
  intros self.
  apply (proj2 (proj2 (startup_agrees_with_health default_settings
                         (Fin (7 # 2)) litemodel.class_defaults))
           (sample_world None []) default_settings).
  reflexivity.
Defined.

(** A load that raises, on a singleton whose flag is unset, leaves the flag
    unset and the labels as they were, whichever step failed (the session
    handle may already have been assigned).  The singleton then reports
    itself as not loaded: [predict] raises
    [RuntimeError("Model not loaded")], startup raises and health answers
    503.  When the model file is missing the load raises
    [FileNotFoundError] and nothing at all is assigned. *)
Theorem failed_load_leaves_unloaded (w : World) (settings : Settings)
    (self : litemodel.ModelPredictor) :
  litemodel._model_loaded self = false ->
  fst (litemodel._load_model w settings self) <> inr tt ->
  let self' := snd (litemodel._load_model w settings self) in
  litemodel._model_loaded self' = false
  /\ litemodel._class_names self' = litemodel._class_names self
  /\ litemodel._instance self' = litemodel._instance self
  /\ call_is_loaded self' = false
  /\ (forall (w' : World) (settings' : Settings) (image : Image),
        litemodel.predict w' settings' image self'
        = (inl NotLoadedError, self'))
  /\ startup_event self'
     = inl (mk_error RuntimeError "Failed to load model during startup")
  /\ (forall uptime : float,
        reply_code (health_check settings uptime self') = 503%Z)
  /\ (path_exists w (model_path settings) = false ->
      exists message : string,
        litemodel._load_model w settings self
        = (inl (mk_error FileNotFoundError message), self)).
Proof.
  intros Hflag Hfail. cbv zeta.
  assert (Hflag' : litemodel._model_loaded
                     (snd (litemodel._load_model w settings self)) = false).
  { destruct (litemodel._model_loaded
                (snd (litemodel._load_model w settings self))) eqn:E;
      [| reflexivity].
    exfalso. apply Hfail.
    now apply (load_model_inversion w settings self Hflag). }
  assert (Hnot : call_is_loaded
                   (snd (litemodel._load_model w settings self)) = false).
  { rewrite call_is_loaded_eq, Hflag'. reflexivity. }
  split; [exact Hflag' |].
  split; [| split; [| split; [exact Hnot | split; [| split; [| split]]]]].
  - revert Hfail. unfold_methods.
    destruct (path_exists w (model_path settings)); simpl; [| reflexivity].
    destruct (ort_InferenceSession w (model_path settings))
      as [[cls msg] | session]; simpl; [reflexivity |].
    destruct (get_inputs session) as [| input0 others]; simpl;
      [reflexivity |].
    destruct (node_shape input0) as [| d0 [| d1 [| dim2 [| dim3 ds]]]];
      simpl; try reflexivity.
    destruct (path_exists w (class_names_path settings)); simpl;
      [| congruence].
    destruct (readlines w (class_names_path settings))
      as [[cls msg] | lines]; simpl; [reflexivity | congruence].
  - unfold_methods.
    destruct (path_exists w (model_path settings)); simpl; [| reflexivity].
    destruct (ort_InferenceSession w (model_path settings))
      as [[cls msg] | session]; simpl; [reflexivity |].
    destruct (get_inputs session) as [| input0 others]; simpl;
      [reflexivity |].
    destruct (node_shape input0) as [| d0 [| d1 [| dim2 [| dim3 ds]]]];
      simpl; try reflexivity.
    destruct (path_exists w (class_names_path settings)); simpl;
      [| reflexivity].
    destruct (readlines w (class_names_path settings))
      as [[cls msg] | lines]; reflexivity.
  - intros w' settings' image. apply predict_not_loaded.
    rewrite is_loaded_eq. simpl. rewrite <- call_is_loaded_eq.
    now rewrite Hnot.
  - unfold startup_event. now rewrite Hnot.
  - intros uptime. unfold health_check. now rewrite Hnot.
  - intros Hmissing. unfold litemodel._load_model.
    rewrite Hmissing. eexists. reflexivity.
Qed.

Lemma failed_load_leaves_unloaded_witness :
  let self' :=
    snd (litemodel._load_model short_shape_world default_settings
           litemodel.class_defaults) in
  litemodel._session self' <> None
  /\ litemodel._model_loaded self' = false
  /\ call_is_loaded self' = false
  /\ litemodel.predict (sample_world None []) default_settings sample_image
       self'
     = (inl NotLoadedError, self').
Proof.
  intros self'.
  destruct (failed_load_leaves_unloaded short_shape_world default_settings
              litemodel.class_defaults eq_refl)
    as (Hflag & _ & _ & Hnot & Hpredict & _).
  - discriminate.
  - split; [discriminate |].
    split; [exact Hflag |]. split; [exact Hnot |]. apply Hpredict.
Defined.

Lemma load_failure_keeps_flag (w : World) (settings : Settings)
    (self : litemodel.ModelPredictor) :
  litemodel._model_loaded self = false ->
  fst (litemodel._load_model w settings self) <> inr tt ->
  litemodel._model_loaded (snd (litemodel._load_model w settings self))
  = false.
Proof.
  intros Hflag Hfail.
  destruct (litemodel._model_loaded
              (snd (litemodel._load_model w settings self))) eqn:E;
    [| reflexivity].
  exfalso. apply Hfail. now apply (load_model_inversion w settings self Hflag).
Qed.

(** While the flag is unset, a construction is a load on the created
    instance. *)
Lemma construct_unloaded (w : World) (settings : Settings)
    (self : litemodel.ModelPredictor) :
  litemodel._model_loaded self = false ->
  litemodel.new_ModelPredictor w settings self
  = litemodel._load_model w settings
      (if litemodel._instance self then self
       else litemodel.with_instance true self).
Proof.
  intros Hflag.
  unfold litemodel.new_ModelPredictor, litemodel.bind, litemodel.set,
    litemodel.get, litemodel.ret.
  destruct (litemodel._instance self); simpl; now rewrite Hflag.
Qed.

(** Once the flag is set, a construction returns without looking at the
    world. *)
Lemma construct_loaded (w : World) (settings : Settings)
    (self : litemodel.ModelPredictor) :
  litemodel._model_loaded self = true ->
  litemodel.new_ModelPredictor w settings self
  = (inr tt,
     if litemodel._instance self then self
     else litemodel.with_instance true self).
Proof.
  intros Hflag.
  unfold litemodel.new_ModelPredictor, litemodel.bind, litemodel.set,
    litemodel.get, litemodel.ret.
  destruct (litemodel._instance self); simpl; now rewrite Hflag.
Qed.

(** Nothing limits the singleton to one load attempt: a construction that
    raised leaves the flag unset, so the next construction loads again, and
    when every step then succeeds the singleton is loaded with the new
    session.  From then on a construction returns without reading anything,
    even in a world where the model file is gone. *)
Theorem construction_retries_until_loaded (w1 w2 w3 : World)
    (settings1 settings2 settings3 : Settings)
    (self : litemodel.ModelPredictor) (session : InferenceSession)
    (input0 : NodeArg) (others : list NodeArg) (dim2 dim3 : Dim)
    (labels : list string) :
  litemodel._model_loaded self = false ->
  fst (litemodel.new_ModelPredictor w1 settings1 self) <> inr tt ->
  path_exists w2 (model_path settings2) = true ->
  ort_InferenceSession w2 (model_path settings2) = inr session ->
  get_inputs session = input0 :: others ->
  nth_error (node_shape input0) 2 = Some dim2 ->
  nth_error (node_shape input0) 3 = Some dim3 ->
  load_labels w2 settings2 = inr labels ->
  let failed := snd (litemodel.new_ModelPredictor w1 settings1 self) in
  let loaded := litemodel.mk_predictor true (Some session) labels
                  (name input0) (litemodel.fixed_or_224 dim2)
                  (litemodel.fixed_or_224 dim3) true in
  call_is_loaded failed = false
  /\ litemodel.new_ModelPredictor w2 settings2 failed = (inr tt, loaded)
  /\ litemodel.new_ModelPredictor w3 settings3 loaded = (inr tt, loaded).
Proof.
  intros Hflag Hfail Hpath Hsess Hin H2 H3 Hlab. cbv zeta.
  rewrite (construct_unloaded w1 settings1 self Hflag) in *.
  set (created := if litemodel._instance self then self
                  else litemodel.with_instance true self) in *.
  assert (Hcreated : litemodel._model_loaded created = false).
  { unfold created. now destruct (litemodel._instance self). }
  assert (Hinst : litemodel._instance created = true).
  { unfold created. now destruct (litemodel._instance self) eqn:E. }
  pose proof (load_failure_keeps_flag w1 settings1 created Hcreated Hfail)
    as Hstill.
  assert (Hinst' : litemodel._instance
                     (snd (litemodel._load_model w1 settings1 created))
                   = true).
  { rewrite <- Hinst. clear. unfold_methods.
    destruct (path_exists w1 (model_path settings1)); simpl; [| reflexivity].
    destruct (ort_InferenceSession w1 (model_path settings1))
      as [[cls msg] | s]; simpl; [reflexivity |].
    destruct (get_inputs s) as [| i0 os]; simpl; [reflexivity |].
    destruct (node_shape i0) as [| d0 [| d1 [| d2 [| d3 ds]]]];
      simpl; try reflexivity.
    destruct (path_exists w1 (class_names_path settings1)); simpl;
      [| reflexivity].
    destruct (readlines w1 (class_names_path settings1))
      as [[cls msg] | lines]; reflexivity. }
  split; [| split].
  - rewrite call_is_loaded_eq, Hstill. reflexivity.
  - rewrite (construct_unloaded w2 settings2 _ Hstill), Hinst'.
    rewrite (load_model_success w2 settings2 _ session input0 others
               dim2 dim3 labels); try assumption.
    now rewrite Hinst'.
  - now rewrite construct_loaded.
Qed.

Lemma construction_retries_until_loaded_witness :
  let failed :=
    snd (litemodel.new_ModelPredictor empty_world default_settings
           litemodel.class_defaults) in
  let loaded :=
    litemodel.mk_predictor true (Some (sample_session [Fin (9 # 10)]))
      ["tench"] "images" 2 2 true in
  call_is_loaded failed = false
  /\ litemodel.new_ModelPredictor
       (sample_world (Some ["tench "]) [Fin (9 # 10)]) default_settings failed
     = (inr tt, loaded)
  /\ litemodel.new_ModelPredictor empty_world default_settings loaded
     = (inr tt, loaded).
Proof.
  intros failed loaded.
  apply (construction_retries_until_loaded empty_world
           (sample_world (Some ["tench "]) [Fin (9 # 10)]) empty_world
           default_settings default_settings default_settings
           litemodel.class_defaults (sample_session [Fin (9 # 10)])
           (mk_node_arg "images"
              [DimStr "batch"; DimInt 3; DimInt 2; DimInt 2])
           [] (DimInt 2) (DimInt 2) ["tench"]);
    try reflexivity.
  discriminate.
Defined.

(* ================================================================== *)
(** * What the session reports and what the model receives *)
(* ================================================================== *)

(** The shape of the tensor the preprocessing returns, once PIL has resized
    an RGB image to the input size. *)
Lemma preprocess_shape (w : World) (self : litemodel.ModelPredictor)
    (image resized : Image) :
  mode image = "RGB" ->
  Image_resize w image
    (litemodel._input_width self, litemodel._input_height self)
  = inr resized ->
  size resized = (litemodel._input_width self, litemodel._input_height self) ->
  bands resized = 3 ->
  List.length (samples resized)
  = litemodel._input_height self * litemodel._input_width self * 3 ->
  exists t : ndarray,
    litemodel.preprocess w image self = (inr t, self)
    /\ shape t
       = [1; 3; litemodel._input_height self; litemodel._input_width self].
Proof.
  intros Hmode Hresize Hsize Hbands Hlen.
  set (H := litemodel._input_height self) in *.
  set (W := litemodel._input_width self) in *.
  set (a := divide_255 (litemodel.np_array_float32 resized)).
  assert (Hshape : shape a = [H; W; 3]).
  { unfold a. now rewrite (np_array_rgb resized H W). }
  assert (Hdata : List.length (data a) = H * W * 3).
  { unfold a. rewrite (np_array_rgb resized H W) by assumption.
    simpl. now rewrite !length_map. }
  destruct (transpose_shape a H W 3 Hshape Hdata) as (t & Ht & Htshape & _).
  exists (expand_dims_0 t). split.
  - unfold litemodel.preprocess, litemodel.bind, litemodel.call,
      litemodel.lift, litemodel.get, litemodel.ret, litemodel.raise.
    rewrite Hmode, String.eqb_refl. cbn [negb]. cbv beta iota.
    fold W H. rewrite Hresize. cbn [from_foreign]. cbv beta iota.
    fold a. now rewrite Ht.
  - simpl. now rewrite Htshape.
Qed.

(** [get_model_info] answers [{"loaded": False}] until the singleton is
    loaded.  Once it is, it reports the number of labels (zero when the
    label file was absent) and the input shape (1, 3, height, width), where a
    dimension the model leaves symbolic counts as 224; and that shape is the
    shape of the tensor the preprocessing hands to the model. *)
Theorem model_info_matches_session (w : World)
    (self : litemodel.ModelPredictor) (image resized : Image) :
  (call_is_loaded self = false ->
   litemodel.get_model_info self = (inr litemodel.InfoNotLoaded, self))
  /\ (call_is_loaded self = true ->
      litemodel.get_model_info self
      = (inr (litemodel.InfoLoaded "YOLO11l Classification (ONNX)"
                (List.length (litemodel._class_names self))
                [1; 3; litemodel._input_height self;
                 litemodel._input_width self]), self))
  /\ (forall (w0 : World) (settings : Settings)
        (self0 : litemodel.ModelPredictor) (session : InferenceSession)
        (input0 : NodeArg) (others : list NodeArg) (dim2 dim3 : Dim)
        (labels : list string),
        path_exists w0 (model_path settings) = true ->
        ort_InferenceSession w0 (model_path settings) = inr session ->
        get_inputs session = input0 :: others ->
        nth_error (node_shape input0) 2 = Some dim2 ->
        nth_error (node_shape input0) 3 = Some dim3 ->
        load_labels w0 settings = inr labels ->
        fst (litemodel.get_model_info
               (snd (litemodel._load_model w0 settings self0)))
        = inr (litemodel.InfoLoaded "YOLO11l Classification (ONNX)"
                 (List.length labels)
                 [1; 3;
                  match dim2 with DimInt n => n | _ => 224 end;
                  match dim3 with DimInt n => n | _ => 224 end]))
  /\ (call_is_loaded self = true ->
      mode image = "RGB" ->
      Image_resize w image
        (litemodel._input_width self, litemodel._input_height self)
      = inr resized ->
      size resized
      = (litemodel._input_width self, litemodel._input_height self) ->
      bands resized = 3 ->
      List.length (samples resized)
      = litemodel._input_height self * litemodel._input_width self * 3 ->
      exists (t : ndarray) (kind : string) (num_classes : nat),
        litemodel.preprocess w image self = (inr t, self)
        /\ fst (litemodel.get_model_info self)
           = inr (litemodel.InfoLoaded kind num_classes (shape t))).
Proof.
  assert (Hinfo : forall s : litemodel.ModelPredictor,
            call_is_loaded s = true ->
            litemodel.get_model_info s
            = (inr (litemodel.InfoLoaded "YOLO11l Classification (ONNX)"
                      (List.length (litemodel._class_names s))
                      [1; 3; litemodel._input_height s;
                       litemodel._input_width s]), s)).
  { intros s Hl. rewrite call_is_loaded_eq in Hl.
    unfold litemodel.get_model_info. unfold litemodel.bind at 1.
    rewrite is_loaded_eq, Hl. reflexivity. }
  split; [| split; [exact (Hinfo self) | split]].
  - intros Hl. rewrite call_is_loaded_eq in Hl.
    unfold litemodel.get_model_info. unfold litemodel.bind at 1.
    rewrite is_loaded_eq, Hl. reflexivity.
  - intros w0 settings self0 session input0 others dim2 dim3 labels
      Hpath Hsess Hin H2 H3 Hlab.
    rewrite (load_model_success w0 settings self0 session input0 others
               dim2 dim3 labels) by assumption.
    simpl snd. rewrite Hinfo by reflexivity. reflexivity.
  - intros Hl Hmode Hresize Hsize Hbands Hlen.
    destruct (preprocess_shape w self image resized Hmode Hresize Hsize
                Hbands Hlen) as (t & Hpre & Hshape).
    exists t. do 2 eexists. split; [exact Hpre |].
    rewrite (Hinfo self Hl), Hshape. reflexivity.
Qed.

Lemma model_info_matches_session_witness :
  let w := sample_world None [Fin (9 # 10)] in
  let self := loaded_predictor (Some ["tench"; "goldfish"]) [Fin (9 # 10)] in
  litemodel.get_model_info self
  = (inr (litemodel.InfoLoaded "YOLO11l Classification (ONNX)" 2
            [1; 3; 2; 2]), self)
  /\ exists (t : ndarray) (kind : string) (num_classes : nat),
       litemodel.preprocess w sample_image self = (inr t, self)
       /\ fst (litemodel.get_model_info self)
          = inr (litemodel.InfoLoaded kind num_classes (shape t)).
Proof.
  intros w self.
  destruct (model_info_matches_session w self sample_image
              (mk_image "RGB" (2, 2) 3 (repeat x80 12)))
    as (_ & Hloaded & _ & Hshape).
  split.
  - apply Hloaded. reflexivity.
  - apply Hshape; reflexivity.
Defined.

(** The label of a returned entry is the entry of the label table at its
    class index when the table reaches that far, and the decimal form of the
    index otherwise; so with a table at least as long as the score vector
    every label comes from the table, and with a shorter one the classes past
    its end are still returned, under their numbers. *)
Theorem labels_follow_table (w : World) (settings : Settings)
    (class_names : list string) (predictions_raw : list float)
    (preds : list PredictionResult) :
  litemodel.postprocess w settings class_names predictions_raw = inr preds ->
  map class_name preds
  = map (litemodel.label_of class_names)
        (kept_indices w settings predictions_raw)
  /\ Forall (fun idx =>
               (idx < List.length class_names ->
                nth_error class_names idx
                = Some (litemodel.label_of class_names idx))
               /\ (List.length class_names <= idx ->
                   litemodel.label_of class_names idx = str_of_index idx))
        (kept_indices w settings predictions_raw)
  /\ (List.length predictions_raw <= List.length class_names ->
      Forall (fun p => In (class_name p) class_names) preds).
Proof.
  intros Hret.
  pose proof Hret as Hinv. unfold litemodel.postprocess in Hinv.
  apply format_predictions_inr in Hinv as (_ & _ & Hrange).
  apply postprocess_inr in Hret as [-> _].
  split; [| split].
  - rewrite map_map. reflexivity.
  - apply Forall_forall. intros idx _. unfold litemodel.label_of. split.
    + intros Hlt. apply Nat.ltb_lt in Hlt as Hb. rewrite Hb.
      now apply nth_error_nth'.
    + intros Hge. destruct (Nat.ltb_spec idx (List.length class_names));
        [lia | reflexivity].
  - intros Hlen. apply Forall_map, Forall_forall. intros idx Hin.
    apply filter_In in Hin as [Hin _].
    unfold indices_in_range in Hrange. rewrite Forall_forall in Hrange.
    specialize (Hrange idx Hin).
    unfold result_of, litemodel.label_of. simpl.
    destruct (Nat.ltb_spec idx (List.length class_names)); [| lia].
    now apply nth_In.
Qed.

Lemma labels_follow_table_witness :
  let w := sample_world None [] in
  let raw := [Fin (3 # 10); Fin (9 # 10); Fin (6 # 10)] in
  map class_name
    [mk_prediction "goldfish" (Fin (9 # 10)); mk_prediction "2" (Fin (3 # 5));
     mk_prediction "tench" (Fin (3 # 10))]
  = map (litemodel.label_of ["tench"; "goldfish"])
        (kept_indices w default_settings raw).
Proof.
  intros w raw.
  apply (labels_follow_table w default_settings ["tench"; "goldfish"] raw).
  vm_compute. reflexivity.
Defined.

(** What [predict] does with a degenerate answer of the backend: with no
    output at all, or a first output without rows, [outputs[0][0]] raises
    [IndexError]; with an empty score vector the ranking has nothing to
    return and [predict] returns the empty list, without error.  The session
    is left as it was in each case. *)
Theorem predict_degenerate_outputs (w : World) (settings : Settings)
    (image : Image) (self : litemodel.ModelPredictor) (t : ndarray)
    (session : InferenceSession) :
  call_is_loaded self = true ->
  litemodel.preprocess w image self = (inr t, self) ->
  litemodel._session self = Some session ->
  (run session (litemodel._input_name self) t = inr [] ->
   exists e : PyError,
     litemodel.predict w settings image self = (inl e, self)
     /\ err_class e = IndexError)
  /\ (forall others,
        run session (litemodel._input_name self) t = inr ([] :: others) ->
        exists e : PyError,
          litemodel.predict w settings image self = (inl e, self)
          /\ err_class e = IndexError)
  /\ (forall rows others,
        run session (litemodel._input_name self) t
        = inr (([] :: rows) :: others) ->
        np_argsort w [] = [] ->
        litemodel.predict w settings image self
        = (inr ([], elapsed_ms w), self)).
Proof.
  intros Hloaded Hpre Hsession.
  rewrite call_is_loaded_eq in Hloaded.
  assert (Hunfold : forall outputs,
            run session (litemodel._input_name self) t = inr outputs ->
            litemodel.predict w settings image self
            = (match nth_error outputs 0 with
               | None => inl (mk_error IndexError "list index out of range")
               | Some output0 =>
                   match nth_error output0 0 with
                   | None =>
                       inl (mk_error IndexError "list index out of range")
                   | Some predictions_raw =>
                       match litemodel.postprocess w settings
                               (litemodel._class_names self)
                               predictions_raw with
                       | inl e => inl e
                       | inr preds => inr (preds, elapsed_ms w)
                       end
                   end
               end, self)).
  { intros outputs Hrun.
    unfold litemodel.predict. unfold litemodel.bind at 1.
    rewrite is_loaded_eq, Hloaded. cbn [negb]. cbv beta iota.
    unfold litemodel.bind at 1. rewrite Hpre.
    unfold litemodel.bind at 1, litemodel.get at 1. rewrite Hsession.
    unfold litemodel.bind, litemodel.get, litemodel.call, litemodel.lift,
      litemodel.index, litemodel.ret, litemodel.raise.
    rewrite Hrun. cbn [from_foreign].
    destruct (nth_error outputs 0) as [output0 |]; [| reflexivity].
    destruct (nth_error output0 0) as [predictions_raw |]; [| reflexivity].
    destruct (litemodel.postprocess w settings _ predictions_raw);
      reflexivity. }
  split; [| split].
  - intros Hrun. rewrite (Hunfold _ Hrun). simpl.
    eexists. split; reflexivity.
  - intros others Hrun. rewrite (Hunfold _ Hrun). simpl.
    eexists. split; reflexivity.
  - intros rows others Hrun Hsort. rewrite (Hunfold _ Hrun). simpl.
    unfold litemodel.postprocess, litemodel.top_indices. rewrite Hsort.
    simpl. unfold slice_to. simpl.
    destruct (Z.min 0 (max_predictions settings) <? 0)%Z;
      now rewrite firstn_nil.
Qed.

Lemma predict_degenerate_outputs_witness :
  let w := sample_world None [] in
  let self := loaded_predictor None [] in
  litemodel.predict w default_settings sample_image self
  = (inr ([], elapsed_ms w), self).
Proof.
  intros w self.
  apply (proj2 (proj2 (predict_degenerate_outputs w default_settings
                         sample_image self
                         (mk_ndarray [1; 3; 2; 2]
                            (repeat (Fin (8421505 # 16777216)) 12))
                         (sample_session [])
                         eq_refl eq_refl eq_refl))
           [] []);
    reflexivity.
Defined.

(* ================================================================== *)
(** * The prediction counters *)
(* ================================================================== *)

(** The body of [predict] ends normally exactly for the requests answered
    with status 200. *)
Lemma body_outcome_status (w : World) (settings : Settings)
    (model_predictor : litemodel.ModelPredictor) (file : main.UploadFile) :
  match snd (main.predict_body w settings model_predictor file) with
  | inr _ =>
      main.status (main.post_predict w settings model_predictor file) = 200%Z
  | inl _ =>
      main.status (main.post_predict w settings model_predictor file)
      <> 200%Z
  end.
Proof.
  unfold main.post_predict, main.predict, main.predict_body.
  destruct (negb (set_mem _ _)); [simpl; discriminate |].
  destruct (_ >? _)%Z; [simpl; discriminate |].
  destruct (main.load_image w (main.contents file)) as [e | image];
    [simpl; discriminate |].
  destruct (fst (litemodel.predict w settings image model_predictor))
    as [e | [predictions inference_time]]; simpl; [discriminate | reflexivity].
Qed.

Lemma handle_request_counts (settings : Settings)
    (model_predictor : litemodel.ModelPredictor) (m : Metrics) (r : Request) :
  enable_metrics settings = true ->
  let response := fst (handle_request settings model_predictor m r) in
  let m' := snd (handle_request settings model_predictor m r) in
  prediction_requests_total m' "success"
  = prediction_requests_total m "success" + count_status 200 [response]
  /\ prediction_requests_total m' "error"
     = prediction_requests_total m "error" + (1 - count_status 200 [response])
  /\ (forall label : string,
        label <> "success" -> label <> "error" ->
        prediction_requests_total m' label = prediction_requests_total m label)
  /\ prediction_request_latency m'
     = prediction_request_latency m ++ [request_elapsed r].
Proof.
  intros Hon. cbv zeta. unfold handle_request, predict_metrics, count_status.
  rewrite Hon. cbn [fst snd filter List.length].
  pose proof (body_outcome_status (request_world r) settings model_predictor
                (request_file r)) as Hstatus.
  destruct (snd (main.predict_body (request_world r) settings model_predictor
                   (request_file r))) as [[code detail | e] | response].
  - apply Z.eqb_neq in Hstatus. rewrite Hstatus. simpl.
    repeat split; try lia.
    intros label Hs He. apply String.eqb_neq in He. now rewrite He.
  - apply Z.eqb_neq in Hstatus. rewrite Hstatus. simpl.
    repeat split; try lia.
    intros label Hs He. apply String.eqb_neq in He. now rewrite He.
  - apply Z.eqb_eq in Hstatus. rewrite Hstatus. simpl.
    repeat split; try lia.
    intros label Hs He. apply String.eqb_neq in Hs. now rewrite Hs.
Qed.

Lemma serve_cons (settings : Settings)
    (model_predictor : litemodel.ModelPredictor) (r : Request)
    (rest : list Request) (m : Metrics) :
  serve settings model_predictor (r :: rest) m
  = (fst (handle_request settings model_predictor m r)
     :: fst (serve settings model_predictor rest
               (snd (handle_request settings model_predictor m r))),
     snd (serve settings model_predictor rest
            (snd (handle_request settings model_predictor m r)))).
Proof.
  cbn [serve].
  destruct (handle_request settings model_predictor m r) as [response m1].
  cbn [fst snd].
  destruct (serve settings model_predictor rest m1); reflexivity.
Qed.

(** With metrics enabled, every request to [/predict] is counted exactly
    once: [prediction_requests_total{status="success"}] grows by the number of
    responses with status 200, [{status="error"}] by the number of all the
    others (400, 413 and 500 alike), no other label is touched, and one
    latency is observed per request, in order.  With metrics disabled nothing
    is recorded. *)
Theorem prediction_counters_count_requests (settings : Settings)
    (model_predictor : litemodel.ModelPredictor) (requests : list Request) :
  forall m : Metrics,
    let responses := fst (serve settings model_predictor requests m) in
    let m' := snd (serve settings model_predictor requests m) in
    List.length responses = List.length requests
    /\ (enable_metrics settings = true ->
        prediction_requests_total m' "success"
        = prediction_requests_total m "success" + count_status 200 responses
        /\ prediction_requests_total m' "error"
           = prediction_requests_total m "error"
             + (List.length requests - count_status 200 responses)
        /\ (forall label : string,
              label <> "success" -> label <> "error" ->
              prediction_requests_total m' label
              = prediction_requests_total m label)
        /\ prediction_request_latency m'
           = prediction_request_latency m ++ map request_elapsed requests)
    /\ (enable_metrics settings = false -> m' = m).
Proof.
  induction requests as [| r rest IH]; intros m; cbv zeta.
  - simpl. split; [reflexivity |]. split; [| reflexivity].
    intros _. unfold count_status. simpl. rewrite app_nil_r.
    repeat split; lia.
  - rewrite serve_cons. cbn [fst snd].
    set (response := fst (handle_request settings model_predictor m r)).
    set (m1 := snd (handle_request settings model_predictor m r)).
    specialize (IH m1). cbv zeta in IH.
    set (responses := fst (serve settings model_predictor rest m1)) in *.
    set (m2 := snd (serve settings model_predictor rest m1)) in *.
    destruct IH as (Hlen & Hon & Hoff).
    split; [simpl; now rewrite Hlen |]. split.
    + intros Henabled.
      destruct (Hon Henabled) as (Hs & He & Hother & Hlat).
      pose proof (handle_request_counts settings model_predictor m r Henabled)
        as Hstep.
      cbv zeta in Hstep. fold response m1 in Hstep.
      destruct Hstep as (Hs1 & He1 & Hother1 & Hlat1).
      assert (Hcount : count_status 200 (response :: responses)
                       = count_status 200 [response]
                         + count_status 200 responses).
      { unfold count_status. simpl.
        destruct (main.status response =? 200)%Z; reflexivity. }
      assert (Hle1 : count_status 200 [response] <= 1).
      { unfold count_status. simpl.
        destruct (main.status response =? 200)%Z; simpl; lia. }
      assert (Hle : count_status 200 responses <= List.length rest).
      { unfold count_status.
        etransitivity; [apply filter_length_le | rewrite Hlen; lia]. }
      repeat split.
      * rewrite Hs, Hs1, Hcount. lia.
      * rewrite He, He1, Hcount. simpl List.length. lia.
      * intros label Hns Hne. rewrite Hother, Hother1 by assumption.
        reflexivity.
      * rewrite Hlat, Hlat1. rewrite <- app_assoc. reflexivity.
    + intros Hdisabled. rewrite (Hoff Hdisabled).
      unfold m1, handle_request, predict_metrics.
      now rewrite Hdisabled.
Qed.

Lemma prediction_counters_count_requests_witness :
  let self := loaded_predictor None [Fin (9 # 10)] in
  let responses := fst (serve default_settings self sample_requests
                          no_metrics) in
  let m' := snd (serve default_settings self sample_requests no_metrics) in
  map main.status responses = [200; 400; 400]%Z
  /\ prediction_requests_total m' "success" = 0 + count_status 200 responses
  /\ prediction_requests_total m' "error"
     = 0 + (3 - count_status 200 responses).
Proof.
  intros self responses m'.
  split; [reflexivity |].
  destruct (prediction_counters_count_requests default_settings self
              sample_requests no_metrics) as (_ & Hon & _).
  destruct (Hon eq_refl) as (Hs & He & _).
  split; [exact Hs | exact He].
Defined.

(* ================================================================== *)
(** * The health page *)
(* ================================================================== *)

(** The context of the health page always says "healthy", whether or not
    the model is loaded; only its [model_loaded] entry follows the session.
    The uptime it shows is split into hours, minutes and seconds that add up
    to the uptime in seconds, with minutes and seconds below 60 and, for a
    non-negative uptime, non-negative hours. *)
Theorem health_ui_context (version environment now : string)
    (uptime_seconds : Z) (model_predictor : litemodel.ModelPredictor) :
  let ctx := health_ui version environment now uptime_seconds
               model_predictor in
  ctx_status ctx = "healthy"
  /\ (ctx_model_loaded ctx = "Yes" <-> call_is_loaded model_predictor = true)
  /\ (ctx_model_loaded ctx = "No" <-> call_is_loaded model_predictor = false)
  /\ exists hours minutes seconds : Z,
       ctx_uptime ctx = uptime_str hours minutes seconds
       /\ (uptime_seconds = hours * 3600 + minutes * 60 + seconds)%Z
       /\ (0 <= minutes < 60)%Z
       /\ (0 <= seconds < 60)%Z
       /\ ((0 <= uptime_seconds)%Z -> (0 <= hours)%Z).
Proof.
  cbv zeta. unfold health_ui, divmod. cbn [ctx_status ctx_model_loaded
                                           ctx_uptime].
  split; [reflexivity |].
  split; [destruct (call_is_loaded model_predictor); split; intros;
          try discriminate; reflexivity |].
  split; [destruct (call_is_loaded model_predictor); split; intros;
          try discriminate; reflexivity |].
  exists (uptime_seconds / 3600)%Z, ((uptime_seconds mod 3600) / 60)%Z,
    ((uptime_seconds mod 3600) mod 60)%Z.
  split; [reflexivity |].
  pose proof (Z.div_mod uptime_seconds 3600 ltac:(lia)) as H1.
  pose proof (Z.mod_pos_bound uptime_seconds 3600 ltac:(lia)) as H2.
  pose proof (Z.div_mod (uptime_seconds mod 3600) 60 ltac:(lia)) as H3.
  pose proof (Z.mod_pos_bound (uptime_seconds mod 3600) 60 ltac:(lia)) as H4.
  repeat split; try lia;
    try (apply Z.div_lt_upper_bound; lia);
    try (intros Hpos; apply Z.div_pos; lia).
Qed.

(* ================================================================== *)
(** * model.py *)
(* ================================================================== *)

Lemma parse_result_inr (w : World) (settings : Settings) (r : model.Results)
    (positions : list nat) :
  forall acc res : list PredictionResult,
    model.parse_result w settings r positions acc = inr res ->
    exists added : list PredictionResult,
      res = acc ++ added
      /\ List.length added <= List.length positions
      /\ Forall (accepted_result settings) added.
Proof.
  induction positions as [| i rest IH]; simpl; intros acc res H.
  - injection H as <-. exists []. rewrite app_nil_r.
    split; [reflexivity | split; [simpl; lia | constructor]].
  - destruct (nth_error (model.top5 r) i) as [class_idx |]; [| discriminate].
    destruct (nth_error (model.top5conf r) i) as [confidence |];
      [| discriminate].
    destruct (fge confidence (model_confidence_threshold settings)) eqn:E.
    + destruct (model.lookup class_idx (model.names r)) as [label |];
        [| discriminate].
      unfold new_PredictionResult in H.
      destruct (valid_confidence (py_round confidence 4)) eqn:V;
        [| discriminate].
      apply IH in H as (added & -> & Hlen & Hacc).
      exists (mk_prediction label (py_round confidence 4) :: added).
      rewrite <- app_assoc.
      split; [reflexivity | split; [simpl; lia |]].
      constructor; [| exact Hacc].
      split; [exact V |]. simpl. unfold fge in *. now apply py_round_le.
    + apply IH in H as (added & -> & Hlen & Hacc).
      exists added.
      split; [reflexivity | split; [simpl; lia | exact Hacc]].
Qed.

Lemma parse_results_inr (w : World) (settings : Settings)
    (results : list model.Results) :
  forall acc res : list PredictionResult,
    model.parse_results w settings results acc = inr res ->
    exists added : list PredictionResult,
      res = acc ++ added
      /\ List.length added <= positions_visited settings results
      /\ Forall (accepted_result settings) added.
Proof.
  unfold positions_visited.
  induction results as [| r rest IH]; simpl; intros acc res H.
  - injection H as <-. exists []. rewrite app_nil_r.
    split; [reflexivity | split; [simpl; lia | constructor]].
  - destruct (model.parse_result w settings r (model.positions settings r)
                acc) as [e | acc'] eqn:Hr; [discriminate |].
    apply parse_result_inr in Hr as (added1 & -> & Hlen1 & Hacc1).
    apply IH in H as (added2 & -> & Hlen2 & Hacc2).
    exists (added1 ++ added2). rewrite app_assoc.
    split; [reflexivity |].
    split; [rewrite length_app; lia | now apply Forall_app].
Qed.

Lemma positions_length (settings : Settings) (r : model.Results) :
  List.length (model.positions settings r)
  = Z.to_nat (Z.min (Z.of_nat (List.length (model.top5 r)))
                    (max_predictions settings)).
Proof. unfold model.positions. apply length_seq. Qed.

Lemma positions_visited_bound (settings : Settings)
    (results : list model.Results) :
  positions_visited settings results
  <= List.length results * Z.to_nat (max_predictions settings).
Proof.
  unfold positions_visited. induction results as [| r rest IH]; simpl; [lia |].
  rewrite positions_length. lia.
Qed.

(** [predict] of model.py, when it returns: the model was loaded and
    answered; no more entries are returned than positions were visited, that
    is at most [min(len(top5), max_predictions)] per result; every entry has
    a confidence in [0, 1] that is at least the threshold rounded to four
    decimals; and with [max_predictions] zero or negative the range is empty
    and nothing is returned. *)
Theorem yolo_predict_bounded (w : World) (settings : Settings) (image : Image)
    (self : model.ModelPredictor) (preds : list PredictionResult)
    (inference_time : float) :
  model.predict w settings image self = inr (preds, inference_time) ->
  model.is_loaded self = true
  /\ inference_time = elapsed_ms w
  /\ exists (yolo : model.YOLO) (results : list model.Results),
       model._model self = Some yolo
       /\ model.run_model yolo image = inr results
       /\ List.length preds <= positions_visited settings results
       /\ List.length preds
          <= List.length results * Z.to_nat (max_predictions settings)
       /\ Forall (accepted_result settings) preds
       /\ ((max_predictions settings <= 0)%Z -> preds = []).
Proof.
  unfold model.predict.
  destruct (model.is_loaded self) eqn:Hloaded; [| discriminate].
  simpl negb. cbv iota.
  destruct (model._model self) as [yolo |]; [| discriminate].
  destruct (model.run_model yolo image) as [[cls msg] | results] eqn:Hrun;
    [discriminate |].
  simpl from_foreign. cbv iota.
  destruct (model.parse_results w settings results []) as [e | res] eqn:Hres;
    [discriminate |].
  intros H. injection H as <- <-.
  apply parse_results_inr in Hres as (added & -> & Hlen & Hacc).
  simpl app in *.
  pose proof (positions_visited_bound settings results) as Hbound.
  split; [reflexivity |]. split; [reflexivity |].
  exists yolo, results. repeat split; try assumption; try lia.
  intros Hmax. destruct added as [| p added]; [reflexivity |].
  simpl in Hlen. replace (Z.to_nat (max_predictions settings)) with 0 in Hbound
    by lia.
  lia.
Qed.

Lemma yolo_predict_bounded_witness :
  let w := sample_world None [] in
  let preds := [mk_prediction "tench" (Fin (3 # 5))] in
  model.is_loaded sample_yolo_predictor = true
  /\ Fin (1234567 # 100000) = elapsed_ms w
  /\ exists (yolo : model.YOLO) (results : list model.Results),
       model._model sample_yolo_predictor = Some yolo
       /\ model.run_model yolo sample_image = inr results
       /\ List.length preds <= positions_visited default_settings results
       /\ List.length preds
          <= List.length results
             * Z.to_nat (max_predictions default_settings)
       /\ Forall (accepted_result default_settings) preds
       /\ ((max_predictions default_settings <= 0)%Z -> preds = []).
Proof.
  intros w preds.
  apply (yolo_predict_bounded w default_settings sample_image
           sample_yolo_predictor preds (Fin (1234567 # 100000))).
  vm_compute. reflexivity.
Defined.

(** The errors and the edges of model.py.  Before the model is loaded
    [predict] raises [RuntimeError("Model not loaded")].  With
    [max_predictions] zero or negative it returns the empty list whatever the
    model answered, visiting no result at all.  A class that passes the
    threshold but is missing from [names] raises [KeyError], and a
    confidence past the end of [top5conf] raises [IndexError].  A load that
    fails assigns nothing; a load that returns leaves the predictor
    loaded. *)
Theorem yolo_errors_and_edges (w : World) (settings : Settings)
    (image : Image) (self : model.ModelPredictor) :
  (model.is_loaded self = false ->
   model.predict w settings image self = inl NotLoadedError)
  /\ (forall (yolo : model.YOLO) (results : list model.Results),
        model.is_loaded self = true ->
        model._model self = Some yolo ->
        model.run_model yolo image = inr results ->
        (max_predictions settings <= 0)%Z ->
        model.predict w settings image self = inr ([], elapsed_ms w))
  /\ (forall (r : model.Results) (rest : list nat)
        (acc : list PredictionResult) (i class_idx : nat) (confidence : float),
        nth_error (model.top5 r) i = Some class_idx ->
        nth_error (model.top5conf r) i = Some confidence ->
        fge confidence (model_confidence_threshold settings) = true ->
        model.lookup class_idx (model.names r) = None ->
        model.parse_result w settings r (i :: rest) acc
        = inl (model.key_error class_idx))
  /\ (forall (r : model.Results) (rest : list nat)
        (acc : list PredictionResult) (i class_idx : nat),
        nth_error (model.top5 r) i = Some class_idx ->
        List.length (model.top5conf r) <= i ->
        exists e : PyError,
          model.parse_result w settings r (i :: rest) acc = inl e
          /\ err_class e = IndexError)
  /\ (forall new_YOLO : string -> foreign model.YOLO,
        fst (model._load_model w new_YOLO settings self) <> inr tt ->
        snd (model._load_model w new_YOLO settings self) = self)
  /\ (forall new_YOLO : string -> foreign model.YOLO,
        fst (model._load_model w new_YOLO settings self) = inr tt ->
        model.is_loaded (snd (model._load_model w new_YOLO settings self))
        = true).
Proof.
  split; [| split; [| split; [| split; [| split]]]].
  - intros Hnot. unfold model.predict. now rewrite Hnot.
  - intros yolo results Hloaded Hmodel Hrun Hmax.
    unfold model.predict. rewrite Hloaded, Hmodel, Hrun. simpl.
    assert (Hnone : forall rs acc,
              model.parse_results w settings rs acc = inr acc).
    { induction rs as [| r rs IH]; intros acc; simpl; [reflexivity |].
      unfold model.positions.
      replace (Z.to_nat (Z.min (Z.of_nat (List.length (model.top5 r)))
                           (max_predictions settings))) with 0 by lia.
      simpl. apply IH. }
    now rewrite Hnone.
  - intros r rest acc i class_idx confidence Hidx Hconf Hpass Hmissing.
    simpl. now rewrite Hidx, Hconf, Hpass, Hmissing.
  - intros r rest acc i class_idx Hidx Hshort.
    simpl. rewrite Hidx.
    apply nth_error_None in Hshort. rewrite Hshort.
    eexists. split; reflexivity.
  - intros new_YOLO. unfold model._load_model.
    destruct (negb (path_exists w (model_path settings))); [reflexivity |].
    destruct (from_foreign (new_YOLO (path_str (model_path settings))));
      [reflexivity |].
    simpl. congruence.
  - intros new_YOLO. unfold model._load_model.
    destruct (negb (path_exists w (model_path settings))); [discriminate |].
    destruct (from_foreign (new_YOLO (path_str (model_path settings))));
      [discriminate | reflexivity].
Qed.

Lemma yolo_errors_and_edges_witness :
  model.predict (sample_world None []) negative_max_settings sample_image
    sample_yolo_predictor
  = inr ([], elapsed_ms (sample_world None []))
  /\ model.parse_result (sample_world None []) default_settings
       (model.mk_results [7; 3; 1]
          [Fin (6 # 10); Fin (3 # 10); Fin (1 # 10)]
          [(7, "tench"); (1, "goldfish")])
       [1; 2] []
     = inl (model.key_error 3).
Proof.
  destruct (yolo_errors_and_edges (sample_world None []) negative_max_settings
              sample_image sample_yolo_predictor) as (_ & Hempty & _).
  destruct (yolo_errors_and_edges (sample_world None []) default_settings
              sample_image sample_yolo_predictor) as (_ & _ & Hkey & _).
  split.
  - apply (Hempty sample_yolo
             [model.mk_results [7; 3; 1]
                [Fin (6 # 10); Fin (2 # 10); Fin (1 # 10)]
                [(7, "tench"); (1, "goldfish")]]);
      try reflexivity.
    simpl. lia.
  - apply (Hkey _ [2] [] 1 3 (Fin (3 # 10))); reflexivity.
Defined.

(* ================================================================== *)
(** * Which classes the ranking step returns *)
(* ================================================================== *)

Lemma sorted_app_inv {A : Type} (R : A -> A -> Prop) (l1 l2 : list A) :
  StronglySorted R (l1 ++ l2) ->
  forall x y : A, In x l1 -> In y l2 -> R x y.
Proof.
  induction l1 as [| a l1 IH]; simpl; intros Hs x y Hx Hy; [contradiction |].
  inversion Hs as [| ? ? Hrest Ha]; subst.
  destruct Hx as [<- | Hx].
  - rewrite Forall_forall in Ha. apply Ha. apply in_or_app. now right.
  - now apply IH.
Qed.

Lemma top_indices_firstn (w : World) (settings : Settings)
    (predictions_raw : list float) :
  exists n : nat,
    litemodel.top_indices w settings predictions_raw
    = firstn n (rev (np_argsort w predictions_raw)).
Proof. unfold litemodel.top_indices. apply slice_to_firstn. Qed.

Lemma every_index_once_in_range (a : list float) (idxs : list nat) :
  every_index_once a idxs -> indices_in_range a idxs.
Proof.
  unfold every_index_once, indices_in_range. intros Hperm.
  apply Forall_forall. intros idx Hin.
  apply (Permutation_in _ Hperm) in Hin. apply in_seq in Hin. lia.
Qed.

(** The top indices are those of the highest scores: [np.argsort] returning
    every index once and in ascending order of the keys, no class left out
    of the top indices has a score above that of a class among them, in the
    order NumPy sorts by (which puts NaN above every number); between two
    scores that are not NaN this is [>=]. *)
Theorem top_indices_are_highest (w : World) (settings : Settings)
    (predictions_raw : list float) (i j : nat) :
  sorted_by_key predictions_raw (np_argsort w predictions_raw) ->
  every_index_once predictions_raw (np_argsort w predictions_raw) ->
  In i (litemodel.top_indices w settings predictions_raw) ->
  j < List.length predictions_raw ->
  ~ In j (litemodel.top_indices w settings predictions_raw) ->
  np_lt (item predictions_raw i) (item predictions_raw j) = false
  /\ (isnan (item predictions_raw i) = false ->
      isnan (item predictions_raw j) = false ->
      fge (item predictions_raw i) (item predictions_raw j) = true).
Proof.
  intros Hsorted Hperm Hi Hj Hout.
  destruct (top_indices_firstn w settings predictions_raw) as [n Htop].
  rewrite Htop in Hi, Hout.
  assert (Hrev : StronglySorted
                   (fun x y => key_ascending predictions_raw y x)
                   (rev (np_argsort w predictions_raw))).
  { now apply (sorted_rev (key_ascending predictions_raw)). }
  rewrite <- (firstn_skipn n (rev (np_argsort w predictions_raw))) in Hrev.
  assert (Hjrest : In j (skipn n (rev (np_argsort w predictions_raw)))).
  { assert (Hjall : In j (rev (np_argsort w predictions_raw))).
    { apply -> in_rev. apply (Permutation_in _ (Permutation_sym Hperm)).
      apply in_seq. lia. }
    rewrite <- (firstn_skipn n (rev (np_argsort w predictions_raw))) in Hjall.
    apply in_app_or in Hjall as [Hjall | Hjall]; [contradiction | exact Hjall]. }
  pose proof (sorted_app_inv _ _ _ Hrev i j Hi Hjrest) as Hij.
  unfold key_ascending in Hij.
  split; [exact Hij |].
  intros Hni Hnj. now apply np_not_lt_fge.
Qed.

Lemma top_indices_are_highest_witness :
  let w := sample_world None [] in
  let raw := [Fin (3 # 10); Fin (9 # 10); Fin (1 # 10); Fin (6 # 10)] in
  litemodel.top_indices w negative_max_settings raw = [1; 3; 0]
  /\ np_lt (item raw 0) (item raw 2) = false
  /\ (isnan (item raw 0) = false -> isnan (item raw 2) = false ->
      fge (item raw 0) (item raw 2) = true).
Proof.
  intros w raw. split; [reflexivity |].
  apply (top_indices_are_highest w negative_max_settings raw 0 2).
  - apply argsort_sorted_by_key.
  - apply argsort_perm.
  - vm_compute. tauto.
  - vm_compute. lia.
  - vm_compute. intros [H | [H | [H | []]]]; discriminate.
Defined.

(** When [max_predictions] is at least the number of classes, nothing is
    cut: [np.argsort] returning every index once, every class whose score
    passes the threshold is among the kept indices, exactly once, and no
    other index is. *)
Theorem every_passing_class_kept (w : World) (settings : Settings)
    (predictions_raw : list float) :
  every_index_once predictions_raw (np_argsort w predictions_raw) ->
  (Z.of_nat (List.length predictions_raw) <= max_predictions settings)%Z ->
  NoDup (kept_indices w settings predictions_raw)
  /\ (forall idx : nat,
        In idx (kept_indices w settings predictions_raw)
        <-> idx < List.length predictions_raw
            /\ fge (item predictions_raw idx)
                 (model_confidence_threshold settings) = true).
Proof.
  intros Hperm Hmax.
  assert (Htop : litemodel.top_indices w settings predictions_raw
                 = rev (np_argsort w predictions_raw)).
  { unfold litemodel.top_indices, slice_to.
    rewrite Z.min_l by lia.
    destruct (Z.ltb_spec (Z.of_nat (List.length predictions_raw)) 0);
      [lia |].
    rewrite Nat2Z.id.
    rewrite <- (length_seq (List.length predictions_raw) 0).
    rewrite <- (Permutation_length Hperm), <- length_rev.
    apply firstn_all. }
  unfold kept_indices. rewrite Htop. split.
  - apply NoDup_filter, NoDup_rev.
    apply (Permutation_NoDup (Permutation_sym Hperm)), seq_NoDup.
  - intros idx. rewrite filter_In, <- in_rev. unfold passes.
    split; intros [Hin Hp]; split; try exact Hp.
    + apply (Permutation_in _ Hperm) in Hin. apply in_seq in Hin. lia.
    + apply (Permutation_in _ (Permutation_sym Hperm)). apply in_seq. lia.
Qed.

Lemma every_passing_class_kept_witness :
  let w := sample_world None [] in
  let raw := [Fin (3 # 10); Fin (9 # 10); Fin (1 # 10)] in
  NoDup (kept_indices w default_settings raw)
  /\ (forall idx : nat,
        In idx (kept_indices w default_settings raw)
        <-> idx < List.length raw
            /\ fge (item raw idx) (Fin (25 # 100)) = true).
Proof.
  intros w raw.
  apply (every_passing_class_kept w default_settings raw).
  - apply argsort_perm.
  - simpl. lia.
Defined.

Lemma permutation_filter_length {A : Type} (f : A -> bool) (l l' : list A) :
  Permutation l l' ->
  List.length (filter f l) = List.length (filter f l').
Proof.
  induction 1 as [| x l l' _ IH | x y l | l l' l'' _ IH1 _ IH2]; simpl.
  - reflexivity.
  - destruct (f x); simpl; now rewrite IH.
  - destruct (f x), (f y); reflexivity.
  - now rewrite IH1.
Qed.

Lemma filter_indices_length (f : float -> bool) (a : list float) :
  List.length (filter (fun i => f (item a i)) (seq 0 (List.length a)))
  = List.length (filter f a).
Proof.
  induction a as [| x a IH]; [reflexivity |].
  change (seq 0 (List.length (x :: a)))
    with (0 :: seq 1 (List.length a)).
  rewrite <- seq_shift. cbn [filter].
  rewrite filter_map_swap.
  change (item (x :: a) 0) with x.
  change (filter (fun i => f (item (x :: a) (S i))) (seq 0 (List.length a)))
    with (filter (fun i => f (item a i)) (seq 0 (List.length a))).
  destruct (f x); cbn [List.length]; rewrite length_map, IH; reflexivity.
Qed.

Lemma filter_none {A : Type} (f : A -> bool) (l : list A) :
  (forall x : A, In x l -> f x = false) -> filter f l = [].
Proof.
  induction l as [| x l IH]; simpl; intros H; [reflexivity |].
  rewrite (H x) by now left. apply IH. intros y Hy. apply H. now right.
Qed.

(** In a list in descending order of the keys the NaN come first. *)
Lemma nan_first (a : list float) (l : list nat) :
  StronglySorted (fun i j => np_lt (item a i) (item a j) = false) l ->
  forall k : nat,
    k <= List.length (filter (fun i => isnan (item a i)) l) ->
    Forall (fun i => isnan (item a i) = true) (firstn k l).
Proof.
  induction 1 as [| x l Hs IH Hx]; intros k Hk.
  - rewrite firstn_nil. constructor.
  - destruct k as [| k]; [constructor |]. simpl in Hk |- *.
    destruct (isnan (item a x)) eqn:Hnan.
    + constructor; [exact Hnan |]. apply IH. simpl in Hk. lia.
    + exfalso.
      assert (Hnone : filter (fun i => isnan (item a i)) l = []).
      { apply filter_none. intros y Hy.
        rewrite Forall_forall in Hx. specialize (Hx y Hy).
        unfold np_lt in Hx. rewrite Hnan in Hx.
        destruct (isnan (item a y)); [| reflexivity].
        simpl in Hx. rewrite orb_true_r in Hx. discriminate. }
      rewrite Hnone in Hk. simpl in Hk. lia.
Qed.

(** NaN scores crowd the others out.  NumPy sorts NaN above every number,
    so after the reversal the NaN scores come first and fill the top
    indices, and the threshold test then drops them: [np.argsort] returning
    every index once in ascending order of the keys, as soon as the score
    vector holds at least [max_predictions] NaN the ranking step returns the
    empty list, whatever the other scores are. *)
Theorem nan_scores_crowd_out (w : World) (settings : Settings)
    (class_names : list string) (predictions_raw : list float) :
  sorted_by_key predictions_raw (np_argsort w predictions_raw) ->
  every_index_once predictions_raw (np_argsort w predictions_raw) ->
  (0 <= max_predictions settings)%Z ->
  (max_predictions settings <= Z.of_nat (count_nan predictions_raw))%Z ->
  Forall (fun idx => isnan (item predictions_raw idx) = true)
    (litemodel.top_indices w settings predictions_raw)
  /\ litemodel.postprocess w settings class_names predictions_raw = inr [].
Proof.
  intros Hsorted Hperm Hpos Hnan.
  assert (Hcount : List.length
                     (filter (fun i => isnan (item predictions_raw i))
                        (rev (np_argsort w predictions_raw)))
                   = count_nan predictions_raw).
  { rewrite filter_rev, length_rev.
    rewrite (permutation_filter_length _ _ _ Hperm).
    apply filter_indices_length. }
  assert (Hle : count_nan predictions_raw <= List.length predictions_raw).
  { unfold count_nan. apply filter_length_le. }
  assert (Htop : Forall (fun idx => isnan (item predictions_raw idx) = true)
                   (litemodel.top_indices w settings predictions_raw)).
  { unfold litemodel.top_indices, slice_to.
    rewrite Z.min_r by lia.
    destruct (Z.ltb_spec (max_predictions settings) 0); [lia |].
    apply nan_first; [| lia].
    apply (sorted_rev (key_ascending predictions_raw)) in Hsorted.
    exact Hsorted. }
  split; [exact Htop |].
  assert (Hkept : kept_indices w settings predictions_raw = []).
  { unfold kept_indices. apply filter_none. intros idx Hin.
    rewrite Forall_forall in Htop. specialize (Htop idx Hin).
    unfold passes, fge. destruct (item predictions_raw idx);
      try discriminate.
    now destruct (model_confidence_threshold settings). }
  rewrite postprocess_valid.
  - now rewrite Hkept.
  - now apply every_index_once_in_range.
  - rewrite Hkept. constructor.
Qed.

Lemma nan_scores_crowd_out_witness :
  let w := sample_world None [] in
  let raw := [NaN; Fin (9 # 10); NaN; NaN; Fin (8 # 10); NaN; NaN] in
  Forall (fun idx => isnan (item raw idx) = true)
    (litemodel.top_indices w default_settings raw)
  /\ litemodel.postprocess w default_settings ["tench"] raw = inr [].
Proof.
  intros w raw.
  apply (nan_scores_crowd_out w default_settings ["tench"] raw).
  - apply argsort_sorted_by_key.
  - apply argsort_perm.
  - simpl. lia.
  - vm_compute. discriminate.
Defined.
